(** * Ultra Bingo frontend: realtime game-state synchronisation and purchase flow

    A shallow embedding of the client-side core of the Ultra Bingo frontend:

    - the game-state reducer of the socket.io provider
      ([src/context/SocketContext.jsx]) and of the raw-WebSocket provider
      (the second [SocketContext.jsx], REST admin commands);
    - the auto-hide timer of the "continue" message;
    - the x402 payment service ([services/x402]): [getUSDCBalance] and the
      fetch wrapper built by [createPaymentFetch];
    - [handlePurchase] of [pages/Home.jsx].

    React state updaters [setGameState (prev => ...)] become pure functions on
    a record; refs, timers and logs of outbound traffic become fields of an
    explicit runtime state; [async] functions become resumable machines whose
    program counter names the [await] at which they are suspended. *)

From Stdlib Require Import ZArith List String Ascii Bool Lia Arith.
Import ListNotations.

Open Scope string_scope.
Open Scope Z_scope.

(* ===================================================================== *)
(** ** JavaScript idioms *)
(* ===================================================================== *)

Module Js.

(** [a || b] where [a] is a possibly missing string: the empty string,
    [undefined] and [null] are falsy. *)
Definition or_str (a : option string) (b : string) : string :=
  match a with
  | Some s => if String.eqb s "" then b else s
  | None => b
  end.

(** [a || b] where both sides may be missing strings. *)
Definition or_opt_str (a b : option string) : option string :=
  match a with
  | Some s => if String.eqb s "" then b else Some s
  | None => b
  end.

(** [a || b] where [a] is a possibly missing number: [0] is falsy. *)
Definition or_num (a : option Z) (b : option Z) : option Z :=
  match a with
  | Some n => if Z.eqb n 0 then b else Some n
  | None => b
  end.

(** [a || b] where [a] is a possibly missing object or array: every
    object, also the empty array, is truthy. *)
Definition or_obj {A : Type} (a : option A) (b : A) : A :=
  match a with
  | Some x => x
  | None => b
  end.

(** [a || b] where both sides may be missing objects. *)
Definition or_opt_obj {A : Type} (a b : option A) : option A :=
  match a with
  | Some x => Some x
  | None => b
  end.

(** [a ?? b]: only [undefined] and [null] fall through. *)
Definition nullish {A : Type} (a : option A) (b : option A) : option A :=
  match a with
  | Some x => Some x
  | None => b
  end.

(** [arr.includes(x)] on an array of integers. *)
Definition includes (arr : list Z) (x : Z) : bool :=
  existsb (Z.eqb x) arr.

End Js.

(* ===================================================================== *)
(** ** config.js *)
(* ===================================================================== *)

Module config.

(** [maxCardsPerPurchase: 34] *)
Definition maxCardsPerPurchase : Z := 34.

(** [fibonacciQuantities: [1, 2, 3, 5, 8, 13, 21, 34]] *)
Definition fibonacciQuantities : list Z := [1; 2; 3; 5; 8; 13; 21; 34].

End config.

(* ===================================================================== *)
(** ** The game state shared by both providers *)
(* ===================================================================== *)

Inductive Status : Type := waiting | playing | paused | ended.

Definition CardId : Type := string.

(** A pending claim, as rendered by the admin panel:
    [pw.cardId], [pw.username], [pw.pattern]. *)
Record PotentialWinner : Type := mkPotentialWinner {
  cardId : CardId;
  username : option string;
  pattern : string
}.

(** The confirmed winner: [winner.cardId], [winner.odUsername],
    [winner.wallet], [winner.pattern]. *)
Record Winner : Type := mkWinner {
  w_cardId : CardId;
  w_odUsername : option string;
  w_wallet : option string;
  w_pattern : option string
}.

(** [useState({ status: 'waiting', gameMode: 'fullCard', ... })].
    [null] and [undefined] are [None]. [cardsSold] and [prizePool] are only
    ever written by a snapshot and are [undefined] in the initial object. *)
Record GameState : Type := mkGameState {
  status : Status;
  gameMode : option string;
  calledNumbers : list Z;
  currentNumber : option Z;
  winner : option Winner;
  potentialWinners : list PotentialWinner;
  canPurchase : bool;
  patternInfo : option string;
  lastRejectedWinner : option CardId;
  showContinueMessage : bool;
  cardsSold : option Z;
  prizePool : option Z
}.

Definition initialGameState : GameState := {|
  status := waiting;
  gameMode := Some "fullCard";
  calledNumbers := [];
  currentNumber := None;
  winner := None;
  potentialWinners := [];
  canPurchase := true;
  patternInfo := None;
  lastRejectedWinner := None;
  showContinueMessage := false;
  cardsSold := None;
  prizePool := None
|}.

(** Field updates, so that a handler reads like the object literal
    [{ ...prev, field: value }]. *)
Definition set_status (v : Status) (s : GameState) : GameState :=
  mkGameState v (gameMode s) (calledNumbers s) (currentNumber s) (winner s)
    (potentialWinners s) (canPurchase s) (patternInfo s)
    (lastRejectedWinner s) (showContinueMessage s) (cardsSold s) (prizePool s).

Definition set_gameMode (v : option string) (s : GameState) : GameState :=
  mkGameState (status s) v (calledNumbers s) (currentNumber s) (winner s)
    (potentialWinners s) (canPurchase s) (patternInfo s)
    (lastRejectedWinner s) (showContinueMessage s) (cardsSold s) (prizePool s).

Definition set_calledNumbers (v : list Z) (s : GameState) : GameState :=
  mkGameState (status s) (gameMode s) v (currentNumber s) (winner s)
    (potentialWinners s) (canPurchase s) (patternInfo s)
    (lastRejectedWinner s) (showContinueMessage s) (cardsSold s) (prizePool s).

Definition set_currentNumber (v : option Z) (s : GameState) : GameState :=
  mkGameState (status s) (gameMode s) (calledNumbers s) v (winner s)
    (potentialWinners s) (canPurchase s) (patternInfo s)
    (lastRejectedWinner s) (showContinueMessage s) (cardsSold s) (prizePool s).

Definition set_winner (v : option Winner) (s : GameState) : GameState :=
  mkGameState (status s) (gameMode s) (calledNumbers s) (currentNumber s) v
    (potentialWinners s) (canPurchase s) (patternInfo s)
    (lastRejectedWinner s) (showContinueMessage s) (cardsSold s) (prizePool s).

Definition set_potentialWinners (v : list PotentialWinner) (s : GameState)
  : GameState :=
  mkGameState (status s) (gameMode s) (calledNumbers s) (currentNumber s)
    (winner s) v (canPurchase s) (patternInfo s)
    (lastRejectedWinner s) (showContinueMessage s) (cardsSold s) (prizePool s).

Definition set_canPurchase (v : bool) (s : GameState) : GameState :=
  mkGameState (status s) (gameMode s) (calledNumbers s) (currentNumber s)
    (winner s) (potentialWinners s) v (patternInfo s)
    (lastRejectedWinner s) (showContinueMessage s) (cardsSold s) (prizePool s).

Definition set_patternInfo (v : option string) (s : GameState) : GameState :=
  mkGameState (status s) (gameMode s) (calledNumbers s) (currentNumber s)
    (winner s) (potentialWinners s) (canPurchase s) v
    (lastRejectedWinner s) (showContinueMessage s) (cardsSold s) (prizePool s).

Definition set_lastRejectedWinner (v : option CardId) (s : GameState)
  : GameState :=
  mkGameState (status s) (gameMode s) (calledNumbers s) (currentNumber s)
    (winner s) (potentialWinners s) (canPurchase s) (patternInfo s)
    v (showContinueMessage s) (cardsSold s) (prizePool s).

Definition set_showContinueMessage (v : bool) (s : GameState) : GameState :=
  mkGameState (status s) (gameMode s) (calledNumbers s) (currentNumber s)
    (winner s) (potentialWinners s) (canPurchase s) (patternInfo s)
    (lastRejectedWinner s) v (cardsSold s) (prizePool s).

Definition set_cardsSold (v : option Z) (s : GameState) : GameState :=
  mkGameState (status s) (gameMode s) (calledNumbers s) (currentNumber s)
    (winner s) (potentialWinners s) (canPurchase s) (patternInfo s)
    (lastRejectedWinner s) (showContinueMessage s) v (prizePool s).

Definition set_prizePool (v : option Z) (s : GameState) : GameState :=
  mkGameState (status s) (gameMode s) (calledNumbers s) (currentNumber s)
    (winner s) (potentialWinners s) (canPurchase s) (patternInfo s)
    (lastRejectedWinner s) (showContinueMessage s) (cardsSold s) v.

(** [{ ...prev, f: v, g: w }] is written [prev <| set_f v |> <| set_g w |>]. *)
Notation "s <| f |>" := (f s) (at level 1, left associativity, only parsing).

(** [currentWinners.some(w => w.cardId === id)] *)
Definition has_card (id : CardId) (ws : list PotentialWinner) : bool :=
  existsb (fun w => String.eqb (cardId w) id) ws.

(** [currentWinners.filter(w => w.cardId !== id)] *)
Definition drop_card (id : CardId) (ws : list PotentialWinner)
  : list PotentialWinner :=
  filter (fun w => negb (String.eqb (cardId w) id)) ws.

(** [calledNumbers.filter(n => n !== number)] *)
Definition drop_number (number : Z) (ns : list Z) : list Z :=
  filter (fun n => negb (Z.eqb n number)) ns.

(** A snapshot pushed by the server: any subset of the state's keys. *)
Record Snapshot : Type := mkSnapshot {
  snap_status : option Status;
  snap_gameMode : option (option string);
  snap_calledNumbers : option (list Z);
  snap_currentNumber : option (option Z);
  snap_winner : option (option Winner);
  snap_potentialWinners : option (list PotentialWinner);
  snap_canPurchase : option bool;
  snap_patternInfo : option (option string);
  snap_lastRejectedWinner : option (option CardId);
  snap_showContinueMessage : option bool;
  snap_cardsSold : option (option Z);
  snap_prizePool : option (option Z)
}.

(* ===================================================================== *)
(** ** The browser runtime around the reducer *)
(* ===================================================================== *)

(** A pending [setTimeout] callback. The only timers modelled are the
    auto-hide timers of the "continue" message; the heartbeat and reconnect
    timers of the connection manager do not touch the game state. *)
Record Timer : Type := mkTimer {
  timer_id : nat;
  fires_at : nat
}.

(** An outbound frame: [socket.emit(type, payload)] or
    [ws.send(JSON.stringify({ type, payload }))]. *)
Inductive Payload : Type :=
| PNone
| PWinner (w : option Winner)
| PNumber (n : Z)
| PCard (id : CardId)
| PVerify (id : CardId) (odId : option string)
| PMode (mode : string)
| PGame (gameId : string).

Record Outbound : Type := mkOutbound {
  out_type : string;
  out_payload : Payload
}.

(** A REST call issued through [apiCall(endpoint, method, body)]. *)
Record RestCall : Type := mkRestCall {
  rest_endpoint : string;
  rest_method : string;
  rest_body : option Payload
}.

(** Provider state: the React state [gameState], the ref
    [continueMessageTimeoutRef], the timers pending in the browser, the
    clock in milliseconds, whether there is a socket to send on ([socket]
    is set, or the WebSocket is open), and what has been sent so far. *)
Record Runtime : Type := mkRuntime {
  gameState : GameState;
  continueMessageTimeoutRef : option nat;
  timers : list Timer;
  nextTimerId : nat;
  clock : nat;
  connected : bool;
  outbox : list Outbound;
  restCalls : list RestCall
}.

(** Timer identifiers are positive, hence truthy in
    [if (continueMessageTimeoutRef.current)]. *)
Definition initialRuntime : Runtime := {|
  gameState := initialGameState;
  continueMessageTimeoutRef := None;
  timers := [];
  nextTimerId := 1;
  clock := 0;
  connected := true;
  outbox := [];
  restCalls := []
|}.

(** [setGameState(updater)] *)
Definition setGameState (f : GameState -> GameState) (rt : Runtime) : Runtime :=
  mkRuntime (f (gameState rt)) (continueMessageTimeoutRef rt) (timers rt)
    (nextTimerId rt) (clock rt) (connected rt) (outbox rt) (restCalls rt).

Definition set_ref (r : option nat) (rt : Runtime) : Runtime :=
  mkRuntime (gameState rt) r (timers rt)
    (nextTimerId rt) (clock rt) (connected rt) (outbox rt) (restCalls rt).

(** [clearTimeout(id)]: a no-op when [id] is not pending. *)
Definition clearTimeout (id : nat) (rt : Runtime) : Runtime :=
  mkRuntime (gameState rt) (continueMessageTimeoutRef rt)
    (filter (fun t => negb (Nat.eqb (timer_id t) id)) (timers rt))
    (nextTimerId rt) (clock rt) (connected rt) (outbox rt) (restCalls rt).

(** [setTimeout(callback, delay)]: returns the fresh identifier. *)
Definition setTimeout (delay : nat) (rt : Runtime) : nat * Runtime :=
  (nextTimerId rt,
   mkRuntime (gameState rt) (continueMessageTimeoutRef rt)
     (timers rt ++ [mkTimer (nextTimerId rt) (clock rt + delay)])
     (S (nextTimerId rt)) (clock rt) (connected rt) (outbox rt) (restCalls rt)).

Definition push_outbound (m : Outbound) (rt : Runtime) : Runtime :=
  mkRuntime (gameState rt) (continueMessageTimeoutRef rt) (timers rt)
    (nextTimerId rt) (clock rt) (connected rt) (outbox rt ++ [m]) (restCalls rt).

Definition push_rest (c : RestCall) (rt : Runtime) : Runtime :=
  mkRuntime (gameState rt) (continueMessageTimeoutRef rt) (timers rt)
    (nextTimerId rt) (clock rt) (connected rt) (outbox rt) (restCalls rt ++ [c]).

Definition is_due (now : nat) (t : Timer) : bool := Nat.leb (fires_at t) now.

(** Time passes: the clock moves [d] milliseconds on and every timer that
    has come due is taken off the pending list and its callback run, oldest
    first. [callback] is the body given to [setTimeout] by the provider. *)
Definition advance (callback : Runtime -> Runtime) (d : nat) (rt : Runtime)
  : Runtime :=
  let now := (clock rt + d)%nat in
  let due := filter (is_due now) (timers rt) in
  let rt' :=
    mkRuntime (gameState rt) (continueMessageTimeoutRef rt)
      (filter (fun t => negb (is_due now t)) (timers rt))
      (nextTimerId rt) now (connected rt) (outbox rt) (restCalls rt) in
  fold_left (fun r _ => callback r) due rt'.

(* ===================================================================== *)
(** ** src/context/SocketContext.jsx: the socket.io provider *)
(* ===================================================================== *)

Module SocketIO.

(** One constructor per [newSocket.on(name, handler)] that touches the
    game state, with the fields of [data] the handler reads. *)
Inductive Event : Type :=
| GameStateEv (state : option Snapshot)
| NumberCalled (number : Z)
| NumberUncalled (number : Z) (currentNumber : option Z)
                 (calledNumbers : option (list Z))
| GameStarted (gameMode : option string)
| GameModeChanged (mode : option string) (patternInfo : option string)
| GamePaused
| GameResumed
| GameEnded (winner : option Winner)
| GameCleared
| WinnerAnnounced (winner : option Winner)
| PotentialWinnerEv (data : PotentialWinner)
| WinnerRejected (cardId : CardId).

(** [{ ...prev, ...state }]: every key present in [state] overrides. *)
Definition spread (state : Snapshot) (prev : GameState) : GameState := {|
  status := Js.or_obj (snap_status state) (status prev);
  gameMode := Js.or_obj (snap_gameMode state) (gameMode prev);
  calledNumbers := Js.or_obj (snap_calledNumbers state) (calledNumbers prev);
  currentNumber := Js.or_obj (snap_currentNumber state) (currentNumber prev);
  winner := Js.or_obj (snap_winner state) (winner prev);
  potentialWinners :=
    Js.or_obj (snap_potentialWinners state) (potentialWinners prev);
  canPurchase := Js.or_obj (snap_canPurchase state) (canPurchase prev);
  patternInfo := Js.or_obj (snap_patternInfo state) (patternInfo prev);
  lastRejectedWinner :=
    Js.or_obj (snap_lastRejectedWinner state) (lastRejectedWinner prev);
  showContinueMessage :=
    Js.or_obj (snap_showContinueMessage state) (showContinueMessage prev);
  cardsSold := Js.or_obj (snap_cardsSold state) (cardsSold prev);
  prizePool := Js.or_obj (snap_prizePool state) (prizePool prev)
|}.

(** The updater each handler passes to [setGameState]. *)
Definition handle (prev : GameState) (e : Event) : GameState :=
  match e with
  | GameStateEv state =>
      match state with
      | Some st =>
          (spread st prev)
            <| set_calledNumbers
                 (Js.or_obj (snap_calledNumbers st) (calledNumbers prev)) |>
            <| set_potentialWinners
                 (Js.or_obj (snap_potentialWinners st)
                    (potentialWinners prev)) |>
      | None => prev
      end
  | NumberCalled number =>
      prev <| set_currentNumber (Some number) |>
           <| set_calledNumbers (calledNumbers prev ++ [number]) |>
  | NumberUncalled number current called =>
      prev <| set_currentNumber current |>
           <| set_calledNumbers
                (Js.or_obj called (drop_number number (calledNumbers prev))) |>
  | GameStarted mode =>
      prev <| set_status playing |>
           <| set_calledNumbers [] |>
           <| set_currentNumber None |>
           <| set_winner None |>
           <| set_potentialWinners [] |>
           <| set_canPurchase false |>
           <| set_gameMode
                (Some (Js.or_str mode (Js.or_str (gameMode prev) "fullCard"))) |>
  | GameModeChanged mode info =>
      prev <| set_gameMode mode |>
           <| set_patternInfo info |>
  | GamePaused => prev <| set_status paused |>
  | GameResumed => prev <| set_status playing |>
  | GameEnded w =>
      prev <| set_status ended |>
           <| set_winner w |>
           <| set_potentialWinners [] |>
           <| set_canPurchase true |>
  | GameCleared =>
      prev <| set_status waiting |>
           <| set_calledNumbers [] |>
           <| set_currentNumber None |>
           <| set_winner None |>
           <| set_potentialWinners [] |>
           <| set_canPurchase true |>
           <| set_showContinueMessage false |>
  | WinnerAnnounced w =>
      prev <| set_winner w |>
           <| set_potentialWinners [] |>
  | PotentialWinnerEv data =>
      let currentWinners := potentialWinners prev in
      if has_card (cardId data) currentWinners then prev
      else prev <| set_potentialWinners (currentWinners ++ [data]) |>
                <| set_showContinueMessage false |>
  | WinnerRejected id =>
      prev <| set_potentialWinners (drop_card id (potentialWinners prev)) |>
           <| set_lastRejectedWinner (Some id) |>
           <| set_showContinueMessage true |>
  end.

(** The body of the auto-hide timer: hide the message and forget the
    timer in the ref. *)
Definition hide_callback (rt : Runtime) : Runtime :=
  set_ref None
    (setGameState (fun prev => prev <| set_showContinueMessage false |>) rt).

(** A frame arrives: the state update, and for [winner-rejected] the
    replacement of the auto-hide timer. *)
Definition on_event (e : Event) (rt : Runtime) : Runtime :=
  let rt1 := setGameState (fun prev => handle prev e) rt in
  match e with
  | WinnerRejected _ =>
      let rt2 :=
        match continueMessageTimeoutRef rt1 with
        | Some t => clearTimeout t rt1
        | None => rt1
        end in
      let '(t, rt3) := setTimeout 5000 rt2 in
      set_ref (Some t) rt3
  | _ => rt1
  end.

Definition tick (d : nat) (rt : Runtime) : Runtime :=
  advance hide_callback d rt.

(** What can happen to the provider: a frame arrives or time passes. *)
Inductive Action : Type :=
| Deliver (e : Event)
| Wait (d : nat).

Definition act (rt : Runtime) (a : Action) : Runtime :=
  match a with
  | Deliver e => on_event e rt
  | Wait d => tick d rt
  end.

Definition run (acts : list Action) (rt : Runtime) : Runtime :=
  fold_left act acts rt.

(** The fold of a sequence of frames into the state. *)
Definition handle_all (s : GameState) (es : list Event) : GameState :=
  fold_left handle es s.

(** Admin commands: [if (socket) socket.emit(name, payload)]. *)
Definition emit (name : string) (payload : Payload) (rt : Runtime) : Runtime :=
  if connected rt then push_outbound (mkOutbound name payload) rt else rt.

Definition startGame := emit "admin:start-game" PNone.
Definition pauseGame := emit "admin:pause-game" PNone.
Definition resumeGame := emit "admin:resume-game" PNone.
Definition endGame (w : option Winner) := emit "admin:end-game" (PWinner w).
Definition clearGame := emit "admin:clear-game" PNone.
Definition callNumber (n : Z) := emit "admin:call-number" (PNumber n).
Definition uncallNumber (n : Z) := emit "admin:uncall-number" (PNumber n).
Definition verifyWinner (id : CardId) := emit "admin:verify-winner" (PCard id).
Definition rejectWinner (id : CardId) := emit "admin:reject-winner" (PCard id).
Definition setGameMode (mode : string) :=
  emit "admin:set-game-mode" (PMode mode).

End SocketIO.

(* ===================================================================== *)
(** ** The raw-WebSocket provider with REST admin commands *)
(* ===================================================================== *)

Module RawWS.

(** The [type] of an inbound message with the fields of [payload] that
    [handleMessage] reads. ['gameState'] and ['gameUpdate'] share a case,
    as do ['potentialWinner'] and ['bingoClaim']. *)
Inductive Event : Type :=
| Pong
| Authenticated
| GameStateEv (payload : option Snapshot)
| NumberCalled (number : Z) (calledNumbers : option (list Z))
| GameStarted (gameMode : option string)
| GamePaused
| GameResumed
| GameEnded (winner : option Winner)
| GameCleared
| GameModeChanged (mode : option string) (gameMode : option string)
                  (patternInfo : option string)
| WinnerAnnounced (winner : option Winner)
| PotentialWinnerEv (payload : PotentialWinner)
| WinnerRejected (cardId : CardId)
| ErrorEv
| Unknown (type : string).

(** [payload?.field] of a snapshot that may itself be missing. *)
Definition field {A : Type} (p : option Snapshot) (f : Snapshot -> option A)
  : option A :=
  match p with
  | Some s => f s
  | None => None
  end.

Definition join {A : Type} (x : option (option A)) : option A :=
  match x with
  | Some y => y
  | None => None
  end.

(** The updater of each [case] of [handleMessage]; the cases that do not
    call [setGameState] leave the state alone. *)
Definition handle (prev : GameState) (e : Event) : GameState :=
  match e with
  | Pong | Authenticated | ErrorEv | Unknown _ => prev
  | GameStateEv payload =>
      prev <| set_status (Js.or_obj (field payload snap_status) (status prev)) |>
           <| set_gameMode
                (Js.or_opt_str (join (field payload snap_gameMode))
                   (gameMode prev)) |>
           <| set_calledNumbers
                (Js.or_obj (field payload snap_calledNumbers)
                   (calledNumbers prev)) |>
           <| set_currentNumber
                (Js.nullish (join (field payload snap_currentNumber))
                   (currentNumber prev)) |>
           <| set_winner
                (Js.or_opt_obj (join (field payload snap_winner))
                   (winner prev)) |>
           <| set_cardsSold
                (Js.or_num (join (field payload snap_cardsSold))
                   (cardsSold prev)) |>
           <| set_prizePool
                (Js.or_num (join (field payload snap_prizePool))
                   (prizePool prev)) |>
           <| set_potentialWinners
                (Js.or_obj (field payload snap_potentialWinners)
                   (potentialWinners prev)) |>
  | NumberCalled number called =>
      prev <| set_currentNumber (Some number) |>
           <| set_calledNumbers
                (Js.or_obj called (calledNumbers prev ++ [number])%list) |>
  | GameStarted mode =>
      prev <| set_status playing |>
           <| set_calledNumbers [] |>
           <| set_currentNumber None |>
           <| set_winner None |>
           <| set_potentialWinners [] |>
           <| set_canPurchase false |>
           <| set_gameMode (Js.or_opt_str mode (gameMode prev)) |>
  | GamePaused => prev <| set_status paused |>
  | GameResumed => prev <| set_status playing |>
  | GameEnded w =>
      prev <| set_status ended |>
           <| set_winner w |>
           <| set_potentialWinners [] |>
           <| set_canPurchase true |>
  | GameCleared =>
      prev <| set_status waiting |>
           <| set_calledNumbers [] |>
           <| set_currentNumber None |>
           <| set_winner None |>
           <| set_potentialWinners [] |>
           <| set_canPurchase true |>
           <| set_showContinueMessage false |>
  | GameModeChanged mode gm info =>
      prev <| set_gameMode (Js.or_opt_str mode gm) |>
           <| set_patternInfo info |>
  | WinnerAnnounced w =>
      prev <| set_winner w |>
           <| set_potentialWinners [] |>
  | PotentialWinnerEv payload =>
      let currentWinners := potentialWinners prev in
      if has_card (cardId payload) currentWinners then prev
      else prev <| set_potentialWinners (currentWinners ++ [payload]) |>
                <| set_showContinueMessage false |>
  | WinnerRejected id =>
      prev <| set_potentialWinners (drop_card id (potentialWinners prev)) |>
           <| set_lastRejectedWinner (Some id) |>
           <| set_showContinueMessage true |>
  end.

(** [sendMessage(type, payload)]: dropped unless the socket is open. *)
Definition sendMessage (type : string) (payload : Payload) (rt : Runtime)
  : Runtime :=
  if connected rt then push_outbound (mkOutbound type payload) rt else rt.

(** The body of the auto-hide timer: it hides the message and leaves the
    ref as it is. *)
Definition hide_callback (rt : Runtime) : Runtime :=
  setGameState (fun prev => prev <| set_showContinueMessage false |>) rt.

(** [handleMessage]: the state update, the reply to ['authenticated'],
    and for ['winnerRejected'] the replacement of the auto-hide timer. *)
Definition handleMessage (e : Event) (rt : Runtime) : Runtime :=
  match e with
  | Authenticated => sendMessage "getGameState" PNone rt
  | WinnerRejected _ =>
      let rt1 := setGameState (fun prev => handle prev e) rt in
      let rt2 :=
        match continueMessageTimeoutRef rt1 with
        | Some t => clearTimeout t rt1
        | None => rt1
        end in
      let '(t, rt3) := setTimeout 5000 rt2 in
      set_ref (Some t) rt3
  | _ => setGameState (fun prev => handle prev e) rt
  end.

Definition handle_all (s : GameState) (es : list Event) : GameState :=
  fold_left handle es s.

(** [apiCall(endpoint, method = 'POST', body = null)]: the request that
    goes out. Its response only decides whether an error is logged to the
    console, which no state depends on. *)
Definition apiCall (endpoint method : string) (body : option Payload)
                   (rt : Runtime) : Runtime :=
  push_rest (mkRestCall endpoint method body) rt.

Definition joinGame := sendMessage "getGameState" PNone.
Definition leaveGame (rt : Runtime) : Runtime := rt.

Definition startGame := apiCall "/api/admin/game/start" "POST" None.
Definition pauseGame := apiCall "/api/admin/game/pause" "POST" None.
Definition resumeGame := apiCall "/api/admin/game/resume" "POST" None.
Definition endGame (w : option Winner) :=
  apiCall "/api/admin/game/end" "POST" (Some (PWinner w)).
Definition clearGame := apiCall "/api/admin/game/end" "POST" None.
Definition callNumber (n : Z) :=
  apiCall "/api/admin/game/call" "POST" (Some (PNumber n)).
Definition verifyWinner (id : CardId) (odId : option string) :=
  apiCall "/api/admin/game/verify" "POST" (Some (PVerify id odId)).

(** "For now, just remove from local state". *)
Definition rejectWinner (id : CardId) (rt : Runtime) : Runtime :=
  setGameState
    (fun prev =>
       prev <| set_potentialWinners (drop_card id (potentialWinners prev)) |>
            <| set_showContinueMessage true |>)
    rt.

Definition setGameMode (mode : string) :=
  apiCall "/api/admin/game/mode" "POST" (Some (PMode mode)).

End RawWS.

(* ===================================================================== *)
(** ** Promises and exceptions *)
(* ===================================================================== *)

(** A thrown value: [err.name] and [err.message]. *)
Record JsError : Type := mkJsError {
  err_name : string;
  err_message : string
}.

(** [new Error(message)] *)
Definition Error (message : string) : JsError := mkJsError "Error" message.

(** The result of a call that may throw, or of an awaited promise that
    may reject. *)
Inductive Attempt (A : Type) : Type :=
| Resolved (a : A)
| Rejected (e : JsError).

Arguments Resolved {A} a.
Arguments Rejected {A} e.

Definition bind {A B : Type} (m : Attempt A) (k : A -> Attempt B) : Attempt B :=
  match m with
  | Resolved a => k a
  | Rejected e => Rejected e
  end.

(** [try { body } catch (error) { handler }] *)
Definition try_catch {A : Type} (body : Attempt A) (handler : JsError -> Attempt A)
  : Attempt A :=
  match body with
  | Resolved a => Resolved a
  | Rejected e => handler e
  end.

Notation "'let*' x ':=' m 'in' k" := (bind m (fun x => k))
  (at level 10, x name, m at level 100, k at level 200).

(* ===================================================================== *)
(** ** Strings and numbers of the JavaScript library *)
(* ===================================================================== *)

Module JsString.

(** [s.includes(sub)] *)
Definition includes (s sub : string) : bool :=
  match String.index 0 sub s with
  | Some _ => true
  | None => false
  end.

(** [c.toLowerCase()] on the ASCII letters. *)
Definition lower (c : ascii) : ascii :=
  let n := nat_of_ascii c in
  if (Nat.leb 65 n && Nat.leb n 90)%bool then ascii_of_nat (n + 32) else c.

Fixpoint toLowerCase (s : string) : string :=
  match s with
  | EmptyString => EmptyString
  | String c s' => String (lower c) (toLowerCase s')
  end.

(** [s.slice(n)] *)
Definition slice (n : nat) (s : string) : string :=
  String.substring n (String.length s - n) s.

Fixpoint zeros (n : nat) : string :=
  match n with
  | O => EmptyString
  | S n' => String "0" (zeros n')
  end.

(** [s.padStart(n, '0')] *)
Definition padStart0 (n : nat) (s : string) : string :=
  zeros (n - String.length s) ++ s.

Definition hex_digit (c : ascii) : option Z :=
  let n := nat_of_ascii c in
  if (Nat.leb 48 n && Nat.leb n 57)%bool then Some (Z.of_nat (n - 48))
  else if (Nat.leb 97 n && Nat.leb n 102)%bool then Some (Z.of_nat (n - 87))
  else if (Nat.leb 65 n && Nat.leb n 70)%bool then Some (Z.of_nat (n - 55))
  else None.

Definition dec_digit (c : ascii) : option Z :=
  let n := nat_of_ascii c in
  if (Nat.leb 48 n && Nat.leb n 57)%bool then Some (Z.of_nat (n - 48))
  else None.

(** The value of the longest prefix of digits, and whether there was at
    least one digit and whether the whole string was consumed. *)
Fixpoint digits (base : Z) (digit : ascii -> option Z) (s : string)
                (acc : Z) (seen : bool) : Z * bool * bool :=
  match s with
  | EmptyString => (acc, seen, true)
  | String c s' =>
      match digit c with
      | Some d => digits base digit s' (acc * base + d) true
      | None => (acc, seen, false)
      end
  end.

Definition strip_0x (s : string) : option string :=
  match s with
  | String "0" (String "x" r) => Some r
  | String "0" (String "X" r) => Some r
  | _ => None
  end.

(** [parseInt(s, 16)] for an unsigned string without leading blanks: the
    optional [0x] and then the longest run of hexadecimal digits; [None]
    is [NaN]. *)
Definition parseInt16 (s : string) : option Z :=
  let body := match strip_0x s with Some r => r | None => s end in
  match digits 16 hex_digit body 0 false with
  | (v, true, _) => Some v
  | (_, false, _) => None
  end.

(** [BigInt(s)] for an unsigned string without blanks: hexadecimal after
    [0x], decimal otherwise, [0n] for the empty string, and a
    [SyntaxError] for anything else. *)
Definition BigInt (s : string) : Attempt Z :=
  let bad := Rejected (mkJsError "SyntaxError" ("Cannot convert " ++ s ++ " to a BigInt")) in
  match s with
  | EmptyString => Resolved 0
  | _ =>
      match strip_0x s with
      | Some r =>
          match digits 16 hex_digit r 0 false with
          | (v, true, true) => Resolved v
          | _ => bad
          end
      | None =>
          match digits 10 dec_digit s 0 false with
          | (v, true, true) => Resolved v
          | _ => bad
          end
      end
  end.

End JsString.

(* ===================================================================== *)
(** ** services/x402: the payment service *)
(* ===================================================================== *)

Module x402.

(** A viem chain; the balance check reads only its [id]. The ids of the
    chains imported from [viem/chains] are those that key [usdcAddresses]. *)
Record Chain : Type := mkChain {
  chain_id : Z
}.

Definition avalanche : Chain := mkChain 43114.
Definition base : Chain := mkChain 8453.
Definition polygon : Chain := mkChain 137.
Definition mainnet : Chain := mkChain 1.
Definition arbitrum : Chain := mkChain 42161.
Definition optimism : Chain := mkChain 10.
Definition celo : Chain := mkChain 42220.
Definition monad : Chain := mkChain 143.
Definition hyperevm : Chain := mkChain 999.
Definition unichain : Chain := mkChain 130.

Definition SUPPORTED_CHAINS : list (string * Chain) :=
  [("avalanche", avalanche); ("base", base); ("polygon", polygon);
   ("ethereum", mainnet); ("arbitrum", arbitrum); ("optimism", optimism);
   ("celo", celo); ("monad", monad); ("hyperevm", hyperevm);
   ("unichain", unichain)].

Fixpoint lookup {A : Type} (key : string) (table : list (string * A))
  : option A :=
  match table with
  | [] => None
  | (k, v) :: rest => if String.eqb k key then Some v else lookup key rest
  end.

Fixpoint lookupZ {A : Type} (key : Z) (table : list (Z * A)) : option A :=
  match table with
  | [] => None
  | (k, v) :: rest => if Z.eqb k key then Some v else lookupZ key rest
  end.

(** [setSelectedNetwork(network)]: the new value of the module variable
    [selectedNetwork]. *)
Definition setSelectedNetwork (network selectedNetwork : string) : string :=
  match lookup network SUPPORTED_CHAINS with
  | Some _ => network
  | None => selectedNetwork
  end.

(** [SUPPORTED_CHAINS[selectedNetwork] || avalanche] *)
Definition getChain (selectedNetwork : string) : Chain :=
  Js.or_obj (lookup selectedNetwork SUPPORTED_CHAINS) avalanche.

(** [window.ethereum]: what the wallet answers to each request method
    used by the balance check. *)
Record Ethereum : Type := mkEthereum {
  eth_accounts : Attempt (option (list string));
  eth_chainId : Attempt string;
  eth_call : string -> string -> Attempt (option string)
}.

(** The page: [window.ethereum] may be undefined; [selectedNetwork] is
    the module variable of the service. *)
Record Window : Type := mkWindow {
  ethereum : option Ethereum;
  selectedNetwork : string
}.

Definition hasWalletProvider (w : Window) : bool :=
  match ethereum w with
  | Some _ => true
  | None => false
  end.

(** Amounts of USDC are held in millionths, the unit in which
    [hasEnough] compares: [Math.round(amountUSDC * 1_000_000)]. *)
Definition Amount : Type := Z.

(** The two closures returned as [hasEnough]. *)
Inductive HasEnough : Type :=
| AlwaysEnough                 (* [() => true] *)
| AtLeast (balanceWei : Z).    (* [(a) => balanceWei >= BigInt(...)] *)

Definition hasEnough_call (h : HasEnough) (amount : Amount) : bool :=
  match h with
  | AlwaysEnough => true
  | AtLeast balanceWei => Z.geb balanceWei amount
  end.

(** [balanceFormatted]: the literal ['0.00'] or
    [(Number(balanceWei) / 1_000_000).toFixed(2)], kept symbolic. *)
Inductive Formatted : Type :=
| Literal (s : string)
| ToFixed2 (balanceWei : Z).

(** The object returned by [getUSDCBalance]; [balance] is the number
    whose decimal digits the string holds. *)
Record Balance : Type := mkBalance {
  balance : Z;
  balanceFormatted : Formatted;
  hasEnough : HasEnough;
  skipped : bool
}.

Definition skippedBalance : Balance :=
  mkBalance 0 (Literal "0.00") AlwaysEnough true.

Definition usdcAddresses : list (Z * string) :=
  [(43114, "0xB97EF9Ef8734C71904D8002F8b6Bc66Dd9c48a6E");
   (8453, "0x833589fCD6eDb6E08f4c7C32D4f71b54bdA02913");
   (137, "0x3c499c542cEF5E3811e1192ce70d8cC03d5c3359");
   (1, "0xA0b86991c6218b36c1d19D4a2e9Eb0cE3606eB48");
   (42161, "0xaf88d065e77c8cC2239327C5EDb3A432268e5831");
   (10, "0x0b2C639c533813f4Aa9D7837CAf62653d097Ff85");
   (42220, "0xcebA9300f2b948710d2653dD7B07f33A8B32118C");
   (143, "0x754704bc059f8c67012fed69bc8a327a5aafb603");
   (999, "0xb88339CB7199b77E23DB6E890353E22632Ba630f");
   (130, "0x078d782b760474a361dda0af3839290b0ef57ad6")].

(** [currentChainIdNum !== targetChain.id]; [NaN] differs from every
    number. *)
Definition differs (currentChainIdNum : option Z) (id : Z) : bool :=
  match currentChainIdNum with
  | Some n => negb (Z.eqb n id)
  | None => true
  end.

(** The [try] block of [getUSDCBalance]. *)
Definition queryBalance (eth : Ethereum) (selected : string) : Attempt Balance :=
  let* accounts := eth_accounts eth in
  match accounts with
  | None | Some [] => Resolved skippedBalance
  | Some (address :: _) =>
      let targetChain := getChain selected in
      let* currentChainId := eth_chainId eth in
      let currentChainIdNum := JsString.parseInt16 currentChainId in
      if differs currentChainIdNum (chain_id targetChain)
      then Resolved skippedBalance
      else
        let usdcAddress :=
          Js.or_str (lookupZ (chain_id targetChain) usdcAddresses)
            (Js.or_str (lookupZ 43114 usdcAddresses) "") in
        let balanceOfData :=
          "0x70a08231" ++ JsString.padStart0 64 (JsString.slice 2 address) in
        let* result := eth_call eth usdcAddress balanceOfData in
        let* balanceWei := JsString.BigInt (Js.or_str result "0x0") in
        Resolved (mkBalance balanceWei (ToFixed2 balanceWei)
                    (AtLeast balanceWei) false)
  end.

(** [getUSDCBalance()] *)
Definition getUSDCBalance (w : Window) : Attempt Balance :=
  match ethereum w with
  | None => Resolved skippedBalance
  | Some eth =>
      try_catch (queryBalance eth (selectedNetwork w))
                (fun error => Resolved skippedBalance)
  end.

(** *** The fetch wrapper of [createPaymentFetch] *)

(** The value of a request header: a plain string, or the payment
    payload encoded by [encodePaymentHeader] (base64 of its JSON). *)
Record PaymentPayload : Type := mkPaymentPayload {
  pp_scheme : string;
  pp_network : string;
  pp_signature : string;
  pp_from : string;
  pp_to : option string;
  pp_value : Z
}.

Inductive HeaderValue : Type :=
| Plain (s : string)
| Base64Json (payload : PaymentPayload).

Definition encodePaymentHeader (payload : PaymentPayload) : HeaderValue :=
  Base64Json payload.

(** The body of the purchase request. *)
Record PurchaseBody : Type := mkPurchaseBody {
  body_quantity : Z;
  body_wallet : option string;
  body_network : string
}.

(** [fetch(input, init)]: the URL and the parts of [init]. *)
Record Request : Type := mkRequest {
  req_url : string;
  req_method : string;
  req_headers : list (string * HeaderValue);
  req_body : PurchaseBody
}.

(** [headers.set(name, value)]: replaces a header of that name. *)
Definition headers_set (name : string) (value : HeaderValue)
           (headers : list (string * HeaderValue))
  : list (string * HeaderValue) :=
  (filter (fun h => negb (String.eqb (fst h) name)) headers
     ++ [(name, value)])%list.

(** [{ ...init, headers: newHeaders }] with [X-PAYMENT] set. *)
Definition with_payment (req : Request) (payload : PaymentPayload) : Request :=
  mkRequest (req_url req) (req_method req)
    (headers_set "X-PAYMENT" (encodePaymentHeader payload) (req_headers req))
    (req_body req).

(** A response: [response.ok] is a status from 200 to 299. *)
Record Response : Type := mkResponse {
  status : Z
}.

Definition ok (r : Response) : bool :=
  (Z.leb 200 (status r) && Z.leb (status r) 299)%bool.

(** An entry of [paymentInfo] or [accepts]. *)
Record PaymentInfo : Type := mkPaymentInfo {
  scheme : string;
  network : option string;
  amount : option string;
  maxAmountRequired : option string;
  receiver : option string;
  payTo : option string
}.

(** The JSON body of a 402 response. *)
Record X402Data : Type := mkX402Data {
  paymentInfo : option PaymentInfo;
  accepts : option (list PaymentInfo)
}.

(** [x402Data.paymentInfo || x402Data.accepts?.[0]] *)
Definition selectPaymentInfo (x402Data : X402Data) : option PaymentInfo :=
  Js.or_opt_obj (paymentInfo x402Data)
    (match accepts x402Data with
     | Some (first :: _) => Some first
     | _ => None
     end).

(** [BigInt(paymentInfo.amount || paymentInfo.maxAmountRequired)]; the
    conversion of [undefined] throws a [TypeError]. *)
Definition paymentAmount (info : PaymentInfo) : Attempt Z :=
  match Js.or_opt_str (amount info) (maxAmountRequired info) with
  | Some s => JsString.BigInt s
  | None =>
      Rejected (mkJsError "TypeError" "Cannot convert undefined to a BigInt")
  end.

(** What the wrapper is waiting for. *)
Inductive Awaited : Type :=
| Fetch (req : Request)                                (* [fetch(...)] *)
| Json                                                 (* [firstResponse.json()] *)
| Sign (info : PaymentInfo) (amount : Z).              (* [signPaymentAuthorization] *)

(** Where the wrapper is suspended. *)
Inductive FetchPC : Type :=
| FirstResponse (req : Request)
| PaymentInfoBody (req : Request)
| Signature (req : Request)
| SecondResponse.

(** What the outside world hands back at an [await]. [json()] of a body
    that is JSON [null] resolves to [None]. *)
Inductive Answer : Type :=
| GotResponse (r : Attempt Response)
| GotJson (r : Attempt (option X402Data))
| GotSignature (r : Attempt PaymentPayload).

(** One stretch of the wrapper between two [await]s. *)
Inductive FetchStep : Type :=
| Return (r : Response)
| Throw (e : JsError)
| Await (what : Awaited) (pc : FetchPC).

(** [paymentFetch(input, init)]: the first request goes out without a
    payment header. *)
Definition paymentFetch (req : Request) : FetchStep :=
  Await (Fetch req) (FirstResponse req).

(** The wrapper resumes with the awaited value; [None] when the value is
    not of the kind awaited at [pc]. *)
Definition paymentFetch_resume (pc : FetchPC) (a : Answer) : option FetchStep :=
  match pc, a with
  | FirstResponse req, GotResponse (Rejected e) => Some (Throw e)
  | FirstResponse req, GotResponse (Resolved firstResponse) =>
      if negb (Z.eqb (status firstResponse) 402)
      then Some (Return firstResponse)
      else Some (Await Json (PaymentInfoBody req))
  | PaymentInfoBody req, GotJson (Rejected _) =>
      Some (Throw (Error "No se pudo leer la información de pago del servidor"))
  | PaymentInfoBody req, GotJson (Resolved None) =>
      Some (Throw (mkJsError "TypeError"
                     "Cannot read properties of null (reading 'paymentInfo')"))
  | PaymentInfoBody req, GotJson (Resolved (Some x402Data)) =>
      match selectPaymentInfo x402Data with
      | None =>
          Some (Throw (Error
                         "El servidor no proporcionó información de pago válida"))
      | Some info =>
          match paymentAmount info with
          | Rejected e => Some (Throw e)
          | Resolved amount => Some (Await (Sign info amount) (Signature req))
          end
      end
  | Signature req, GotSignature (Rejected e) => Some (Throw e)
  | Signature req, GotSignature (Resolved paymentPayload) =>
      Some (Await (Fetch (with_payment req paymentPayload)) SecondResponse)
  | SecondResponse, GotResponse (Rejected e) => Some (Throw e)
  | SecondResponse, GotResponse (Resolved secondResponse) =>
      Some (Return secondResponse)
  | _, _ => None
  end.

End x402.

(* ===================================================================== *)
(** ** pages/Home.jsx: the purchase flow *)
(* ===================================================================== *)

Module Home.

(** The messages given to [setError], one constructor per call site. *)
Inductive ErrorReport : Type :=
| InvalidQuantity      (* "Cantidad inválida. Opciones válidas: 1, 2, 3, 5, 8, 13, 21, 34" *)
| NoWalletDetected     (* "No se detectó wallet. Por favor instala MetaMask." *)
| WalletNotReady       (* "Wallet no conectada. Por favor conecta tu wallet primero." *)
| InsufficientBalance (totalCost : x402.Amount) (have : x402.Formatted)
                       (* "Fondos insuficientes. Necesitas ... USDC pero tienes ... USDC en tu wallet." *)
| PaymentRejected      (* "Pago rechazado o fallido. Por favor intenta de nuevo." *)
| TimedOut             (* "La operación tardó demasiado. Por favor intenta de nuevo." *)
| InsufficientFunds    (* "Fondos insuficientes. Verifica que tengas suficiente USDC ..." *)
| UserRejected         (* "Transacción rechazada por el usuario." *)
| WalletNotConnected   (* "Wallet no conectada. Por favor conecta tu wallet." *)
| WrongNetwork         (* "Red incorrecta. Por favor cambia a Avalanche C-Chain." *)
| OtherError (message : string).   (* "Error: " + err.message *)

(** What a render of the component fixes for the [handlePurchase] it
    creates: the values from [useAuth], the state it closes over, and the
    configuration. *)
Record Render : Type := mkRender {
  isLoggedIn : bool;
  isWalletReady : bool;
  user_token : option string;
  user_wallet : option string;
  selectedNet : string;
  seen_paymentStatus : option string;
  apiUrl : string;
  cardPrice : x402.Amount
}.

(** The state that outlives a render: the ref, the [useState] cells the
    purchase writes, and what has left the component. *)
Record State : Type := mkState {
  isPurchasingRef : bool;
  purchasing : bool;
  error : option ErrorReport;
  paymentStatus : option string;
  purchasedCards : list string;
  loginModalOpened : bool;
  abortTimer : bool;
  requests : list x402.Request
}.

Definition initialState : State :=
  mkState false false None None [] false false [].

Definition set_isPurchasingRef (v : bool) (s : State) : State :=
  mkState v (purchasing s) (error s) (paymentStatus s) (purchasedCards s)
    (loginModalOpened s) (abortTimer s) (requests s).

Definition setPurchasing (v : bool) (s : State) : State :=
  mkState (isPurchasingRef s) v (error s) (paymentStatus s)
    (purchasedCards s) (loginModalOpened s) (abortTimer s) (requests s).

Definition setError (v : option ErrorReport) (s : State) : State :=
  mkState (isPurchasingRef s) (purchasing s) v (paymentStatus s)
    (purchasedCards s) (loginModalOpened s) (abortTimer s) (requests s).

Definition setPaymentStatus (v : option string) (s : State) : State :=
  mkState (isPurchasingRef s) (purchasing s) (error s) v
    (purchasedCards s) (loginModalOpened s) (abortTimer s) (requests s).

Definition setPurchasedCards (v : list string) (s : State) : State :=
  mkState (isPurchasingRef s) (purchasing s) (error s) (paymentStatus s)
    v (loginModalOpened s) (abortTimer s) (requests s).

Definition openLoginModal (s : State) : State :=
  mkState (isPurchasingRef s) (purchasing s) (error s) (paymentStatus s)
    (purchasedCards s) true (abortTimer s) (requests s).

(** [setTimeout(() => controller.abort(), PAYMENT_TIMEOUT_MS)] and
    [clearTimeout(timeoutId)]. When the timer fires the pending [fetch]
    rejects with an [AbortError]. *)
Definition set_abortTimer (v : bool) (s : State) : State :=
  mkState (isPurchasingRef s) (purchasing s) (error s) (paymentStatus s)
    (purchasedCards s) (loginModalOpened s) v (requests s).

(** A [fetch] leaves the browser. *)
Definition send (req : x402.Request) (s : State) : State :=
  mkState (isPurchasingRef s) (purchasing s) (error s) (paymentStatus s)
    (purchasedCards s) (loginModalOpened s) (abortTimer s)
    (requests s ++ [req]).

(** The JSON body of a successful purchase: [data.cards]. *)
Record PurchaseData : Type := mkPurchaseData {
  cards : option (list string)
}.

(** Where [handlePurchase] is suspended. *)
Inductive PC : Type :=
| AwaitBalance (r : Render) (quantity : Z)     (* [await getUSDCBalance()] *)
| AwaitPaymentFetch (r : Render) (quantity : Z)
                                               (* [await createPaymentFetch()] *)
| InPaymentFetch (r : Render) (pc : x402.FetchPC)
                                               (* [await paymentFetch(...)] *)
| AwaitErrorBody (r : Render)                  (* [await response.json().catch(...)] *)
| AwaitPurchaseData (r : Render).              (* [await response.json()] *)

(** What the outside world hands back. The error body is [errorData]
    after [.catch(() => ({}))], which never rejects: [None] for a body that
    is JSON [null], else its [error] field if it has one. *)
Inductive Answer : Type :=
| GotBalance (b : Attempt x402.Balance)
| GotPaymentFetch (r : Attempt unit)
| FromPaymentFetch (a : x402.Answer)
| GotErrorBody (errorData : option (option string))
| GotPurchaseData (d : Attempt (option PurchaseData)).

Inductive Outcome : Type :=
| Finished
| Suspended (pc : PC).

Definition includes_any (s : string) (subs : list string) : bool :=
  existsb (JsString.includes s) subs.

(** The chain of [if]s of the [catch] block. *)
Definition categorize (err : JsError) : ErrorReport :=
  let errMsg := JsString.toLowerCase (err_message err) in
  if String.eqb (err_name err) "AbortError" then TimedOut
  else if includes_any errMsg ["insufficient"; "balance"; "funds"; "exceeds"]
       then InsufficientFunds
  else if includes_any errMsg ["rejected"; "denied"; "user rejected"]
       then UserRejected
  else if includes_any errMsg ["wallet not connected"; "not connected"]
       then WalletNotConnected
  else if includes_any errMsg ["network"; "chain"; "switch"]
       then WrongNetwork
  else OtherError (err_message err).

(** [catch (err) { clearTimeout(timeoutId); ... setError(...) }] *)
Definition catch_block (err : JsError) (s : State) : State :=
  s <| set_abortTimer false |> <| setError (Some (categorize err)) |>.

(** [!paymentStatus?.includes('exitosa')] on the status the render saw. *)
Definition saw_no_success (r : Render) : bool :=
  match seen_paymentStatus r with
  | Some p => negb (JsString.includes p "exitosa")
  | None => true
  end.

(** [finally { ... }] *)
Definition finally_block (r : Render) (s : State) : State :=
  let s1 := s <| set_abortTimer false |>
              <| set_isPurchasingRef false |>
              <| setPurchasing false |> in
  if saw_no_success r then s1 <| setPaymentStatus None |> else s1.

(** The request of the purchase. *)
Definition purchaseRequest (r : Render) (quantity : Z) : x402.Request :=
  x402.mkRequest (apiUrl r ++ "/api/cards/purchase") "POST"
    [("Content-Type", x402.Plain "application/json");
     ("Authorization",
      x402.Plain ("Bearer " ++ Js.or_obj (user_token r) "undefined"))]
    (x402.mkPurchaseBody quantity (user_wallet r) (selectedNet r)).

(** [handlePurchase(quantity)] up to its first [await]. *)
Definition handlePurchase (r : Render) (w : x402.Window) (quantity : Z)
                          (s : State) : State * Outcome :=
  if isPurchasingRef s then (s, Finished)
  else
    let s := s <| set_isPurchasingRef true |> in
    if negb (isLoggedIn r) then
      (s <| set_isPurchasingRef false |> <| openLoginModal |>, Finished)
    else if (Z.eqb quantity 0 || Z.ltb quantity 1)%bool then
      (s <| set_isPurchasingRef false |>, Finished)
    else if negb (Js.includes config.fibonacciQuantities quantity) then
      (s <| set_isPurchasingRef false |> <| setError (Some InvalidQuantity) |>,
       Finished)
    else if negb (x402.hasWalletProvider w) then
      (s <| set_isPurchasingRef false |> <| setError (Some NoWalletDetected) |>,
       Finished)
    else if negb (isWalletReady r) then
      (s <| set_isPurchasingRef false |> <| setError (Some WalletNotReady) |>,
       Finished)
    else
      (s <| setPurchasing true |>
         <| setError None |>
         <| setPaymentStatus (Some "Verificando balance...") |>,
       Suspended (AwaitBalance r quantity)).

(** From the end of the balance check to [await createPaymentFetch()]. *)
Definition startPayment (r : Render) (quantity : Z) (s : State)
  : State * Outcome :=
  (s <| setPaymentStatus (Some "Iniciando pago...") |>
     <| set_abortTimer true |>
     <| setPaymentStatus (Some "Preparando sistema de pago...") |>,
   Suspended (AwaitPaymentFetch r quantity)).

(** What [handlePurchase] does with the response of [paymentFetch]. *)
Definition onResponse (r : Render) (response : x402.Response) (s : State)
  : State * Outcome :=
  if Z.eqb (x402.status response) 402 then
    (finally_block r (s <| setError (Some PaymentRejected) |>), Finished)
  else if negb (x402.ok response) then
    (s, Suspended (AwaitErrorBody r))
  else
    (s, Suspended (AwaitPurchaseData r)).

(** A stretch of the wrapper, seen from [handlePurchase]. *)
Definition onFetchStep (r : Render) (step : x402.FetchStep) (s : State)
  : State * Outcome :=
  match step with
  | x402.Return response => onResponse r response s
  | x402.Throw e => (finally_block r (catch_block e s), Finished)
  | x402.Await (x402.Fetch req) pc =>
      (send req s, Suspended (InPaymentFetch r pc))
  | x402.Await _ pc => (s, Suspended (InPaymentFetch r pc))
  end.

(** [handlePurchase] resumes with the awaited value; [None] when the
    value is not of the kind awaited at [pc]. The three-second timer that
    clears the success message afterwards only touches [paymentStatus]
    once the purchase is over and is left out. *)
Definition resume (pc : PC) (a : Answer) (s : State)
  : option (State * Outcome) :=
  match pc, a with
  | AwaitBalance r quantity, GotBalance (Resolved usdcBalance) =>
      let totalCost := quantity * cardPrice r in
      if negb (x402.hasEnough_call (x402.hasEnough usdcBalance) totalCost)
      then
        Some (s <| set_isPurchasingRef false |>
                <| setPurchasing false |>
                <| setPaymentStatus None |>
                <| setError
                     (Some (InsufficientBalance totalCost
                              (x402.balanceFormatted usdcBalance))) |>,
              Finished)
      else Some (startPayment r quantity s)
  | AwaitBalance r quantity, GotBalance (Rejected balanceErr) =>
      Some (startPayment r quantity s)
  | AwaitPaymentFetch r quantity, GotPaymentFetch (Resolved _) =>
      let s := s <| setPaymentStatus (Some "Procesando compra con x402...") |> in
      Some (onFetchStep r (x402.paymentFetch (purchaseRequest r quantity)) s)
  | AwaitPaymentFetch r quantity, GotPaymentFetch (Rejected e) =>
      Some (finally_block r (catch_block e s), Finished)
  | InPaymentFetch r fpc, FromPaymentFetch a =>
      match x402.paymentFetch_resume fpc a with
      | Some step => Some (onFetchStep r step s)
      | None => None
      end
  | AwaitErrorBody r, GotErrorBody None =>
      let err := mkJsError "TypeError"
                   "Cannot read properties of null (reading 'error')" in
      Some (finally_block r (catch_block err s), Finished)
  | AwaitErrorBody r, GotErrorBody (Some e) =>
      let err := Error (Js.or_str e "Error purchasing cards") in
      Some (finally_block r (catch_block err s), Finished)
  | AwaitPurchaseData r, GotPurchaseData (Rejected e) =>
      Some (finally_block r (catch_block e s), Finished)
  | AwaitPurchaseData r, GotPurchaseData (Resolved None) =>
      let s := s <| setPaymentStatus (Some "¡Compra exitosa!") |> in
      let err := mkJsError "TypeError"
                   "Cannot read properties of null (reading 'cards')" in
      Some (finally_block r (catch_block err s), Finished)
  | AwaitPurchaseData r, GotPurchaseData (Resolved (Some data)) =>
      let s := s <| setPaymentStatus (Some "¡Compra exitosa!") |> in
      let s :=
        match cards data with
        | Some (c :: cs) => s <| setPurchasedCards (c :: cs) |>
        | _ => s
        end in
      Some (finally_block r s, Finished)
  | _, _ => None
  end.

(** The component with its purchases in flight. *)
Record Page : Type := mkPage {
  state : State;
  inflight : list PC
}.

Definition initialPage : Page := mkPage initialState [].

Definition pending (o : Outcome) : list PC :=
  match o with
  | Finished => []
  | Suspended pc => [pc]
  end.

(** A click on the purchase button. *)
Definition invoke (r : Render) (w : x402.Window) (quantity : Z) (p : Page)
  : Page :=
  let '(s, o) := handlePurchase r w quantity (state p) in
  mkPage s (inflight p ++ pending o).

(** What can happen to the page: a click, or the promise awaited by the
    [i]-th purchase in flight settles. *)
Inductive step : Page -> Page -> Prop :=
| step_invoke (r : Render) (w : x402.Window) (quantity : Z) (p : Page) :
    step p (invoke r w quantity p)
| step_resume (i : nat) (pc : PC) (a : Answer) (s : State) (o : Outcome)
              (p : Page) :
    nth_error (inflight p) i = Some pc ->
    resume pc a (state p) = Some (s, o) ->
    step p (mkPage s (firstn i (inflight p) ++ pending o
                        ++ skipn (S i) (inflight p))).


(** The run of one purchase from an [await] onwards. *)
Inductive runs : State -> Outcome -> State -> Outcome -> Prop :=
| runs_here (s : State) (o : Outcome) : runs s o s o
| runs_on (s : State) (pc : PC) (a : Answer) (s1 : State) (o1 : Outcome)
          (s2 : State) (o2 : Outcome) :
    resume pc a s = Some (s1, o1) ->
    runs s1 o1 s2 o2 ->
    runs s (Suspended pc) s2 o2.

(** The same run with the answers listed in order; [None] when an
    answer does not fit or the purchase is already over. *)
Fixpoint feed (answers : list Answer) (s : State) (o : Outcome)
  : option (State * Outcome) :=
  match answers, o with
  | [], _ => Some (s, o)
  | a :: rest, Suspended pc =>
      match resume pc a s with
      | Some (s1, o1) => feed rest s1 o1
      | None => None
      end
  | _ :: _, Finished => None
  end.

(** A click followed by the answers to its [await]s. *)
Definition purchase (r : Render) (w : x402.Window) (quantity : Z)
                    (answers : list Answer) (s : State)
  : option (State * Outcome) :=
  let '(s1, o1) := handlePurchase r w quantity s in
  feed answers s1 o1.

End Home.

(* ===================================================================== *)
(** ** pages/Admin.jsx: the numbers of the game *)
(* ===================================================================== *)

(** [const ALL_NUMBERS = Array.from({ length: 75 }, (_, i) => i + 1)] *)
Definition ALL_NUMBERS : list Z := map Z.of_nat (seq 1 75).

(* ===================================================================== *)
(** ** Sample data *)
(* ===================================================================== *)

Module Sample.

Definition ana : PotentialWinner :=
  mkPotentialWinner "card-1" (Some "ana") "fullCard".

Definition luis : PotentialWinner :=
  mkPotentialWinner "card-2" (Some "luis") "fullCard".

(** The state after Ana's claim. *)
Definition one_claim : GameState :=
  SocketIO.handle
    (SocketIO.handle initialGameState (SocketIO.GameStarted None))
    (SocketIO.PotentialWinnerEv ana).

Definition one_claim_raw : GameState :=
  RawWS.handle
    (RawWS.handle initialGameState (RawWS.GameStarted None))
    (RawWS.PotentialWinnerEv ana).


Definition carla : PotentialWinner :=
  mkPotentialWinner "card-3" None "fullCard".

(** A game in which Ana and Luis have both claimed. *)
Definition two_claims : Runtime :=
  SocketIO.run
    [SocketIO.Deliver (SocketIO.GameStarted None);
     SocketIO.Deliver (SocketIO.PotentialWinnerEv ana);
     SocketIO.Deliver (SocketIO.PotentialWinnerEv luis)]
    initialRuntime.

(** A wallet connected to Ethereum mainnet while Avalanche is selected. *)
Definition wallet_on_mainnet : x402.Window :=
  x402.mkWindow
    (Some (x402.mkEthereum
             (Resolved (Some ["0x1111111111111111111111111111111111111111"]))
             (Resolved "0x1")
             (fun _ _ => Resolved (Some "0x0"))))
    "avalanche".

(** A wallet on Avalanche (chain 0xa86a) holding 5 USDC. *)
Definition wallet_with_5_usdc : x402.Window :=
  x402.mkWindow
    (Some (x402.mkEthereum
             (Resolved (Some ["0x1111111111111111111111111111111111111111"]))
             (Resolved "0xa86a")
             (fun _ _ => Resolved (Some "0x4c4b40"))))
    "avalanche".

(** A logged-in user with a ready wallet; a card costs 0.01 USDC. *)
Definition ready : Home.Render :=
  Home.mkRender true true (Some "jwt") (Some "0x1111") "avalanche" None
    "http://localhost:5000" 10000.

Definition signed : x402.PaymentPayload :=
  x402.mkPaymentPayload "exact" "avalanche" "0xsig" "0x1111" (Some "0x2222")
    50000.

Definition requirement : x402.X402Data :=
  x402.mkX402Data
    (Some (x402.mkPaymentInfo "exact" (Some "avalanche") (Some "50000") None
             (Some "0x2222") None))
    None.

(** The server answers 402 to the first request and again to the retry. *)
Definition refused_twice : list Home.Answer :=
  [Home.GotBalance (x402.getUSDCBalance wallet_with_5_usdc);
   Home.GotPaymentFetch (Resolved tt);
   Home.FromPaymentFetch (x402.GotResponse (Resolved (x402.mkResponse 402)));
   Home.FromPaymentFetch (x402.GotJson (Resolved (Some requirement)));
   Home.FromPaymentFetch (x402.GotSignature (Resolved signed));
   Home.FromPaymentFetch (x402.GotResponse (Resolved (x402.mkResponse 402)))].

(** The server accepts the retry and returns two cards. *)
Definition paid : list Home.Answer :=
  [Home.GotBalance (x402.getUSDCBalance wallet_with_5_usdc);
   Home.GotPaymentFetch (Resolved tt);
   Home.FromPaymentFetch (x402.GotResponse (Resolved (x402.mkResponse 402)));
   Home.FromPaymentFetch (x402.GotJson (Resolved (Some requirement)));
   Home.FromPaymentFetch (x402.GotSignature (Resolved signed));
   Home.FromPaymentFetch (x402.GotResponse (Resolved (x402.mkResponse 200)));
   Home.GotPurchaseData
     (Resolved (Some (Home.mkPurchaseData (Some ["c-1"; "c-2"]))))].

(** Ana's claim is rejected and one second passes. *)
Definition one_second_after_reject : Runtime :=
  SocketIO.run
    [SocketIO.Deliver (SocketIO.WinnerRejected "card-1"); SocketIO.Wait 1000]
    two_claims.

End Sample.

(* ===================================================================== *)
(** ** Predicates used in the statements *)
(* ===================================================================== *)

Module Replay.

(** The events of the socket.io provider that the replay property is
    about. *)
Definition replayed (e : SocketIO.Event) : bool :=
  match e with
  | SocketIO.NumberCalled _
  | SocketIO.PotentialWinnerEv _
  | SocketIO.NumberUncalled _ _ _ => true
  | _ => false
  end.

(** Those among them that the handler guards or filters. *)
Definition guarded (e : SocketIO.Event) : bool :=
  match e with
  | SocketIO.PotentialWinnerEv _
  | SocketIO.NumberUncalled _ _ _ => true
  | _ => false
  end.

(** The same for the raw-WebSocket provider, which has no
    ['numberUncalled'] case; a ['numberCalled'] that carries the whole
    list replaces the list instead of appending. *)
Definition guarded_raw (e : RawWS.Event) : bool :=
  match e with
  | RawWS.PotentialWinnerEv _
  | RawWS.NumberCalled _ (Some _) => true
  | _ => false
  end.

End Replay.

(** At most one auto-hide timer is pending, and the ref holds it. *)
Definition single_timer (rt : Runtime) : Prop :=
  timers rt = [] \/
  exists t, timers rt = [t] /\ continueMessageTimeoutRef rt = Some (timer_id t).

(** The requests one purchase may have sent: none, one, or one and its
    repetition with the [X-PAYMENT] header. *)
Definition at_most_one_retry (sent : list x402.Request) : Prop :=
  sent = [] \/
  (exists first, sent = [first]) \/
  (exists first payload, sent = [first; x402.with_payment first payload]).

(** The cases in which the balance cannot be checked: no provider, no
    connected account, the wallet on another chain than the selected
    network, or the query throwing. *)
Inductive cannot_check (w : x402.Window) : Prop :=
| NoProvider :
    x402.ethereum w = None -> cannot_check w
| NoAccount (eth : x402.Ethereum) :
    x402.ethereum w = Some eth ->
    x402.eth_accounts eth = Resolved None \/
    x402.eth_accounts eth = Resolved (Some []) ->
    cannot_check w
| WrongChain (eth : x402.Ethereum) (accounts : list string)
             (currentChainId : string) :
    x402.ethereum w = Some eth ->
    x402.eth_accounts eth = Resolved (Some accounts) ->
    x402.eth_chainId eth = Resolved currentChainId ->
    x402.differs (JsString.parseInt16 currentChainId)
      (x402.chain_id (x402.getChain (x402.selectedNetwork w))) = true ->
    cannot_check w
| QueryThrows (eth : x402.Ethereum) (e : JsError) :
    x402.ethereum w = Some eth ->
    x402.queryBalance eth (x402.selectedNetwork w) = Rejected e ->
    cannot_check w.


(** What a purchase suspended at [o] has sent since it began in [s0]. *)
Definition sent_so_far (s0 s : Home.State) (o : Home.Outcome) : Prop :=
  match o with
  | Home.Suspended (Home.AwaitBalance _ _)
  | Home.Suspended (Home.AwaitPaymentFetch _ _) =>
      Home.requests s = Home.requests s0
  | Home.Suspended (Home.InPaymentFetch _ (x402.FirstResponse req))
  | Home.Suspended (Home.InPaymentFetch _ (x402.PaymentInfoBody req))
  | Home.Suspended (Home.InPaymentFetch _ (x402.Signature req)) =>
      Home.requests s = (Home.requests s0 ++ [req])%list
  | Home.Suspended (Home.InPaymentFetch _ x402.SecondResponse) =>
      exists first payload,
        Home.requests s
        = (Home.requests s0 ++ [first; x402.with_payment first payload])%list
  | Home.Suspended (Home.AwaitErrorBody _)
  | Home.Suspended (Home.AwaitPurchaseData _)
  | Home.Finished =>
      exists sent,
        Home.requests s = (Home.requests s0 ++ sent)%list /\
        at_most_one_retry sent
  end.

(* ===================================================================== *)
(** ** The providers over time: runs and teardown *)
(* ===================================================================== *)

Definition Status_eqb (a b : Status) : bool :=
  match a, b with
  | waiting, waiting | playing, playing | paused, paused | ended, ended => true
  | _, _ => false
  end.

(** The cleanup returned by the effect of the socket.io provider: the
    pending auto-hide timer is cleared and forgotten, the listeners are
    removed and the socket is closed. *)
Definition socketio_cleanup (rt : Runtime) : Runtime :=
  let rt1 :=
    match continueMessageTimeoutRef rt with
    | Some t => set_ref None (clearTimeout t rt)
    | None => rt
    end in
  mkRuntime (gameState rt1) (continueMessageTimeoutRef rt1) (timers rt1)
    (nextTimerId rt1) (clock rt1) false (outbox rt1) (restCalls rt1).

Module RawRun.

(** Time passes in the raw-WebSocket provider. *)
Definition tick (d : nat) (rt : Runtime) : Runtime :=
  advance RawWS.hide_callback d rt.

(** A message arrives or time passes. *)
Inductive Action : Type :=
| Deliver (e : RawWS.Event)
| Wait (d : nat).

Definition act (rt : Runtime) (a : Action) : Runtime :=
  match a with
  | Deliver e => RawWS.handleMessage e rt
  | Wait d => tick d rt
  end.

Definition run (acts : list Action) (rt : Runtime) : Runtime :=
  fold_left act acts rt.

(** The cleanup of the effect, as far as the auto-hide timer and the
    socket go: [clearTimeout(continueMessageTimeoutRef.current)] and
    [wsRef.current.close()]. *)
Definition cleanup (rt : Runtime) : Runtime :=
  let rt1 :=
    match continueMessageTimeoutRef rt with
    | Some t => clearTimeout t rt
    | None => rt
    end in
  mkRuntime (gameState rt1) (continueMessageTimeoutRef rt1) (timers rt1)
    (nextTimerId rt1) (clock rt1) false (outbox rt1) (restCalls rt1).

End RawRun.

(** Which events are snapshots, and which carry a list or a current
    number chosen by the server. *)
Module Kind.

Definition snapshot (e : SocketIO.Event) : bool :=
  match e with
  | SocketIO.GameStateEv _ => true
  | _ => false
  end.

Definition snapshot_raw (e : RawWS.Event) : bool :=
  match e with
  | RawWS.GameStateEv _ => true
  | _ => false
  end.

Definition uncall (e : SocketIO.Event) : bool :=
  match e with
  | SocketIO.NumberUncalled _ _ _ => true
  | _ => false
  end.

Definition call_with_list (e : RawWS.Event) : bool :=
  match e with
  | RawWS.NumberCalled _ (Some _) => true
  | _ => false
  end.

(** A snapshot that carries every key of the state. *)
Definition complete (st : Snapshot) : Prop :=
  snap_status st <> None /\ snap_gameMode st <> None /\
  snap_calledNumbers st <> None /\ snap_currentNumber st <> None /\
  snap_winner st <> None /\ snap_potentialWinners st <> None /\
  snap_canPurchase st <> None /\ snap_patternInfo st <> None /\
  snap_lastRejectedWinner st <> None /\ snap_showContinueMessage st <> None /\
  snap_cardsSold st <> None /\ snap_prizePool st <> None.

End Kind.

(** [calledNumbers[calledNumbers.length - 1]], [null] for no call. *)
Definition last_called (ns : list Z) : option Z :=
  last (map Some ns) None.

(** No two pending claims are for the same card. *)
Definition distinct_cards (ws : list PotentialWinner) : Prop :=
  NoDup (map cardId ws).

(* ===================================================================== *)
(** ** pages/Home.jsx: what the page derives from the game state *)
(* ===================================================================== *)

Module HomeView.

(** [gameState?.canPurchase !== false] *)
Definition canPurchase (gs : GameState) : bool :=
  negb (Bool.eqb (canPurchase gs) false).

(** [status === 'playing' || status === 'paused'] *)
Definition gameInProgress (gs : GameState) : bool :=
  (Status_eqb (status gs) playing || Status_eqb (status gs) paused)%bool.

(** The keys of [NETWORK_INFO]; no entry is [disabled]. *)
Definition NETWORK_INFO : list string :=
  ["avalanche"; "base"; "polygon"; "ethereum"; "arbitrum"; "optimism";
   "celo"; "monad"; "hyperevm"; "unichain"].

(** [handleNetworkChange(network)]: the new [selectedNet] of the page and
    the new [selectedNetwork] of the payment service. *)
Definition handleNetworkChange (network : string)
           (selectedNet : string) (w : x402.Window) : string * x402.Window :=
  (network,
   x402.mkWindow (x402.ethereum w)
     (x402.setSelectedNetwork network (x402.selectedNetwork w))).

End HomeView.

(* ===================================================================== *)
(** ** pages/BingoLive.jsx: the guarded admin calls *)
(* ===================================================================== *)

Module BingoLive.

(** The refs refreshed on each render. *)
Record Refs : Type := mkRefs {
  calledNumbersRef : list Z;
  gameStatusRef : Status;
  isAdminRef : bool
}.

(** [calledNumbersRef.current = gameState?.calledNumbers || []] and its
    two companions. *)
Definition render (isAdmin : bool) (gs : GameState) : Refs :=
  mkRefs (calledNumbers gs) (status gs) isAdmin.

Definition handleCallNumber (refs : Refs) (number : Z) (rt : Runtime) : Runtime :=
  if (isAdminRef refs && Status_eqb (gameStatusRef refs) playing)%bool then
    if negb (Js.includes (calledNumbersRef refs) number)
    then SocketIO.callNumber number rt
    else rt
  else rt.

Definition handleUncallNumber (refs : Refs) (number : Z) (rt : Runtime)
  : Runtime :=
  if (isAdminRef refs &&
      (Status_eqb (gameStatusRef refs) playing
       || Status_eqb (gameStatusRef refs) paused))%bool then
    if Js.includes (calledNumbersRef refs) number
    then SocketIO.uncallNumber number rt
    else rt
  else rt.

End BingoLive.

(** Purchases are closed only while a game is in progress. *)
Definition closed_in_game (s : GameState) : Prop :=
  HomeView.canPurchase s = false -> HomeView.gameInProgress s = true.

(* ===================================================================== *)
(** ** components/bingo/CardQuantitySelector.jsx *)
(* ===================================================================== *)

Module CardQuantitySelector.

(** [useState(1)] *)
Definition initialQuantity : Z := 1.

(** [handleSelectQuantity(num)] *)
Definition handleSelectQuantity (num : Z) (quantity : Z) : Z := num.

(** A click on the [i]-th button of the grid rendered by
    [fibonacciQuantities.map(...)]; there is no button past the end. *)
Definition clickButton (i : nat) (quantity : Z) : Z :=
  match nth_error config.fibonacciQuantities i with
  | Some num => handleSelectQuantity num quantity
  | None => quantity
  end.

(** The quantity shown after a series of clicks on the grid. *)
Definition selected (clicks : list nat) : Z :=
  fold_left (fun quantity i => clickButton i quantity) clicks initialQuantity.

(** [disabled={disabled || !isLoggedIn || purchasing}] of the purchase
    button. *)
Definition buttonDisabled (disabled isLoggedIn purchasing : bool) : bool :=
  (disabled || negb isLoggedIn || purchasing)%bool.

End CardQuantitySelector.

(* ===================================================================== *)
(** ** services/x402: the state of the wallet *)
(* ===================================================================== *)

Module Wallet.

(** The object returned by [getWalletState]; [chainId] is [null] when
    disconnected and may be [NaN] when the wallet answers with something
    that is not a number. [balance] is always [null] and is left out. *)
Record WalletState : Type := mkWalletState {
  isConnected : bool;
  address : option string;
  chainId : option (option Z)
}.

Definition disconnected : WalletState := mkWalletState false None None.

(** [getWalletState()] *)
Definition getWalletState (w : x402.Window) : Attempt WalletState :=
  match x402.ethereum w with
  | None => Resolved disconnected
  | Some eth =>
      try_catch
        (let* accounts := x402.eth_accounts eth in
         match accounts with
         | None | Some [] => Resolved disconnected
         | Some (address :: _) =>
             let* chainId := x402.eth_chainId eth in
             Resolved (mkWalletState true (Some address)
                         (Some (JsString.parseInt16 chainId)))
         end)
        (fun _ => Resolved disconnected)
  end.

(** [checkWallet] of the home page: the value given to
    [setIsWalletReady]. *)
Definition checkWallet (w : x402.Window) : bool :=
  if negb (x402.hasWalletProvider w) then false
  else
    match getWalletState w with
    | Resolved state => isConnected state
    | Rejected _ => false
    end.


End Wallet.

(** What holds of the page state while a purchase that got past the guards
    is suspended at [o], and once it is over. *)
Definition attempt_state (s : Home.State) (o : Home.Outcome) : Prop :=
  match o with
  | Home.Suspended (Home.AwaitBalance _ _) =>
      Home.isPurchasingRef s = true /\ Home.purchasing s = true /\
      Home.error s = None /\ Home.abortTimer s = false
  | Home.Suspended _ =>
      Home.isPurchasingRef s = true /\ Home.purchasing s = true /\
      Home.error s = None /\ Home.abortTimer s = true
  | Home.Finished =>
      Home.isPurchasingRef s = false /\ Home.purchasing s = false /\
      Home.abortTimer s = false
  end.



(* ===================================================================== *)
(** ** services/x402: connecting, switching network and signing *)
(* ===================================================================== *)

Module WalletOps.

(** An error thrown by [window.ethereum.request]: the wallet's [code], if
    any, and the error as the rest of the program sees it. *)
Record RpcError : Type := mkRpcError {
  code : option Z;
  thrown : JsError
}.

(** The answer of the wallet to one request. *)
Inductive Reply (A : Type) : Type :=
| Ok (a : A)
| Fail (e : RpcError).

Arguments Ok {A} a.
Arguments Fail {A} e.

(** The module variable [walletClient]: the account and chain it was
    created with. *)
Record WalletClient : Type := mkWalletClient {
  account : string;
  client_chain : x402.Chain
}.

(** What is signed: the EIP-712 domain and the
    [TransferWithAuthorization] message. *)
Record TypedData : Type := mkTypedData {
  domain_name : string;
  domain_version : string;
  domain_chainId : Z;
  verifyingContract : string;
  msg_from : string;
  msg_to : option string;
  msg_value : Z;
  msg_validAfter : Z;
  msg_validBefore : Z;
  msg_nonce : string
}.

(** The requests made to the wallet, in order. *)
Inductive Request : Type :=
| wallet_requestPermissions
| eth_requestAccounts
| eth_accounts
| eth_chainId
| wallet_switchEthereumChain (chainId : Z)
| wallet_addEthereumChain (chainId : Z)
| signTypedData (data : TypedData).

(** Why a wallet operation threw: one of the errors whose message names
    the target chain, or an error with a fixed message or one thrown by the
    wallet, passed on as it is. *)
Inductive Failure : Type :=
| CannotAddNetwork   (* "No se pudo añadir la red ... Por favor añádela manualmente." *)
| PleaseSwitch       (* "Por favor cambia a ... en tu wallet para continuar." *)
| CouldNotSwitch     (* "No se pudo cambiar a ... Por favor cambia manualmente en tu wallet." *)
| StillOnOtherChain  (* "No se pudo cambiar a ... Cambia manualmente en tu wallet e intenta de nuevo." *)
| Thrown (e : JsError).

Inductive Result (A : Type) : Type :=
| Done (a : A)
| Failed (f : Failure).

Arguments Done {A} a.
Arguments Failed {A} f.

(** *** [connectWallet(forceNewConnection = true)] *)

Record ConnectReplies : Type := mkConnectReplies {
  permissions_reply : Reply unit;
  requestAccounts_reply : Reply (option (list string));
  connect_chainId_reply : Reply string
}.

(** The result, the new [walletClient] and the requests made. The failure
    of the permission request is caught and only logged. *)
Definition connectWallet (provider : option ConnectReplies)
           (forceNewConnection : bool) (selected : string)
           (walletClient : option WalletClient)
  : Result Wallet.WalletState * option WalletClient * list Request :=
  match provider with
  | None =>
      (Failed (Thrown (Error "No se encontró una wallet. Instala MetaMask.")),
       walletClient, [])
  | Some replies =>
      let asked :=
        ((if forceNewConnection then [wallet_requestPermissions] else [])
           ++ [eth_requestAccounts])%list in
      match requestAccounts_reply replies with
      | Fail e => (Failed (Thrown (thrown e)), walletClient, asked)
      | Ok None | Ok (Some []) =>
          (Failed (Thrown (Error "No se pudo conectar con la wallet")),
           walletClient, asked)
      | Ok (Some (address :: _)) =>
          let client := mkWalletClient address (x402.getChain selected) in
          match connect_chainId_reply replies with
          | Fail e =>
              (Failed (Thrown (thrown e)), Some client,
               (asked ++ [eth_chainId])%list)
          | Ok chainId =>
              (Done (Wallet.mkWalletState true (Some address)
                       (Some (JsString.parseInt16 chainId))),
               Some client, (asked ++ [eth_chainId])%list)
          end
      end
  end.

(** *** [switchToCorrectNetwork(maxRetries = 3)] *)

(** What the wallet answers at each attempt of the loop. *)
Record SwitchReplies : Type := mkSwitchReplies {
  switch_reply : nat -> Reply unit;
  chainId_reply : nat -> Reply string;
  add_reply : nat -> Reply unit
}.

(** [currentChainIdNum === targetChain.id] *)
Definition on_chain (chainId : string) (target : Z) : bool :=
  match JsString.parseInt16 chainId with
  | Some n => Z.eqb n target
  | None => false
  end.

(** The [for] loop from [attempt] on, with [remaining] attempts left. *)
Fixpoint switch_loop (target : Z) (replies : SwitchReplies)
         (attempt remaining : nat) : Result bool * list Request :=
  match remaining with
  | O => (Failed CouldNotSwitch, [])
  | S remaining' =>
      let next := switch_loop target replies (S attempt) remaining' in
      let catch (switchError : RpcError) (asked : list Request) :=
        match code switchError with
        | Some c =>
            if Z.eqb c 4902 then
              match add_reply replies attempt with
              | Ok _ =>
                  (fst next,
                   (asked ++ [wallet_addEthereumChain target] ++ snd next)%list)
              | Fail _ =>
                  (Failed CannotAddNetwork,
                   (asked ++ [wallet_addEthereumChain target])%list)
              end
            else if Z.eqb c 4001 then (Failed PleaseSwitch, asked)
            else (Failed (Thrown (thrown switchError)), asked)
        | None => (Failed (Thrown (thrown switchError)), asked)
        end in
      match switch_reply replies attempt with
      | Fail e => catch e [wallet_switchEthereumChain target]
      | Ok _ =>
          match chainId_reply replies attempt with
          | Fail e => catch e [wallet_switchEthereumChain target; eth_chainId]
          | Ok currentChainId =>
              if on_chain currentChainId target
              then (Done true, [wallet_switchEthereumChain target; eth_chainId])
              else (fst next,
                    ([wallet_switchEthereumChain target; eth_chainId]
                       ++ snd next)%list)
          end
      end
  end.

Definition switchToCorrectNetwork (hasProvider : bool) (selected : string)
           (replies : SwitchReplies) (maxRetries : nat)
  : Result bool * list Request :=
  if negb hasProvider
  then (Failed (Thrown (Error "No wallet provider found")), [])
  else switch_loop (x402.chain_id (x402.getChain selected)) replies 1 maxRetries.

(** *** [ensureWalletClient()] and [createPaymentFetch()] *)

Definition ensureWalletClient (provider : option (Reply (option (list string))))
           (selected : string) (walletClient : option WalletClient)
  : Attempt WalletClient * option WalletClient :=
  match provider with
  | None => (Rejected (Error "No wallet provider found"), walletClient)
  | Some (Fail e) => (Rejected (thrown e), walletClient)
  | Some (Ok None) | Some (Ok (Some [])) =>
      (Rejected (Error "Wallet not connected"), walletClient)
  | Some (Ok (Some (address :: _))) =>
      let client := mkWalletClient address (x402.getChain selected) in
      (Resolved client, Some client)
  end.

(** [createPaymentFetch()] as the home page awaits it, for a wallet that
    answers [eth_accounts] as the page's [window.ethereum] does: it
    resolves to the fetch wrapper once [ensureWalletClient] has. *)
Definition createPaymentFetch (w : x402.Window) : Attempt unit :=
  let provider :=
    match x402.ethereum w with
    | None => None
    | Some eth =>
        Some (match x402.eth_accounts eth with
              | Resolved a => Ok a
              | Rejected e => Fail (mkRpcError None e)
              end)
    end in
  match fst (ensureWalletClient provider (x402.selectedNetwork w) None) with
  | Resolved _ => Resolved tt
  | Rejected e => Rejected e
  end.

(** *** [signPaymentAuthorization(paymentInfo, amount)] *)

Definition domainNames : list (Z * string) :=
  [(43114, "USD Coin"); (8453, "USD Coin"); (137, "USD Coin");
   (1, "USD Coin"); (42161, "USD Coin"); (10, "USD Coin");
   (42220, "USDC"); (143, "USDC"); (999, "USDC"); (130, "USDC")].

(** The object returned: the x402 v1 payload. [value], [validAfter] and
    [validBefore] are the numbers whose digits the strings hold. *)
Record SignedPayment : Type := mkSignedPayment {
  x402Version : Z;
  sp_scheme : string;
  sp_network : string;
  sp_signature : string;
  auth_from : string;
  auth_to : option string;
  auth_value : Z;
  auth_validAfter : Z;
  auth_validBefore : Z;
  auth_nonce : string
}.

(** The payload as the fetch wrapper encodes it. *)
Definition to_payload (p : SignedPayment) : x402.PaymentPayload :=
  x402.mkPaymentPayload (sp_scheme p) (sp_network p) (sp_signature p)
    (auth_from p) (auth_to p) (auth_value p).

(** What the wallet and the clock answer during one signature. *)
Record SignReplies : Type := mkSignReplies {
  accounts_reply : Reply (option (list string));
  chainId_before : Reply string;
  switching : SwitchReplies;
  chainId_after : Reply string;
  signature_reply : TypedData -> Reply string;
  now : Z;                  (* [Math.floor(Date.now() / 1000)] *)
  random_nonce : string     (* [generateNonce()] *)
}.

Definition typedData (info : x402.PaymentInfo)
           (extra_name extra_version : option string)
           (chain : x402.Chain) (address : string) (amount : Z)
           (replies : SignReplies) : TypedData :=
  mkTypedData
    (Js.or_str extra_name
       (Js.or_str (x402.lookupZ (x402.chain_id chain) domainNames) "USD Coin"))
    (Js.or_str extra_version "2")
    (x402.chain_id chain)
    (Js.or_str (x402.lookupZ (x402.chain_id chain) x402.usdcAddresses)
       (Js.or_str (x402.lookupZ 43114 x402.usdcAddresses) ""))
    address
    (Js.or_opt_str (x402.receiver info) (x402.payTo info))
    amount 0 (now replies + 300) (random_nonce replies).

(** The signing itself, once the wallet is on the right chain. *)
Definition sign_on_chain (info : x402.PaymentInfo)
           (extra_name extra_version : option string)
           (chain : x402.Chain) (address : string) (amount : Z)
           (replies : SignReplies) (asked : list Request)
  : Result SignedPayment * list Request :=
  let data := typedData info extra_name extra_version chain address amount
                replies in
  match signature_reply replies data with
  | Fail e => (Failed (Thrown (thrown e)), (asked ++ [signTypedData data])%list)
  | Ok signature =>
      (Done (mkSignedPayment 1 (x402.scheme info)
               (Js.or_str (x402.network info) "avalanche") signature
               address (msg_to data) amount 0 (msg_validBefore data)
               (msg_nonce data)),
       (asked ++ [signTypedData data])%list)
  end.

Definition signPaymentAuthorization (hasProvider : bool) (selected : string)
           (info : x402.PaymentInfo)
           (extra_name extra_version : option string) (amount : Z)
           (replies : SignReplies)
  : Result SignedPayment * list Request :=
  let provider := if hasProvider then Some (accounts_reply replies) else None in
  match fst (ensureWalletClient provider selected None) with
  | Rejected e =>
      (Failed (Thrown e), if hasProvider then [eth_accounts] else [])
  | Resolved client =>
      let address := account client in
      let chain := x402.getChain selected in
      match chainId_before replies with
      | Fail e => (Failed (Thrown (thrown e)), [eth_accounts; eth_chainId])
      | Ok currentChainId =>
          if on_chain currentChainId (x402.chain_id chain) then
            sign_on_chain info extra_name extra_version chain address amount
              replies [eth_accounts; eth_chainId]
          else
            let '(switched, asked) :=
              switchToCorrectNetwork hasProvider selected (switching replies) 3 in
            let asked := ([eth_accounts; eth_chainId] ++ asked)%list in
            match switched with
            | Failed f => (Failed f, asked)
            | Done _ =>
                match chainId_after replies with
                | Fail e =>
                    (Failed (Thrown (thrown e)), (asked ++ [eth_chainId])%list)
                | Ok chainId2 =>
                    if on_chain chainId2 (x402.chain_id chain) then
                      sign_on_chain info extra_name extra_version chain address
                        amount replies (asked ++ [eth_chainId])%list
                    else (Failed StillOnOtherChain,
                          (asked ++ [eth_chainId])%list)
                end
            end
      end
  end.

End WalletOps.



Definition sign_requests (asked : list WalletOps.Request)
  : list WalletOps.Request :=
  filter (fun q => match q with
                   | WalletOps.signTypedData _ => true
                   | _ => false
                   end) asked.


Module WalletSample.

(** A wallet on Ethereum mainnet that switches to Avalanche at the first
    request and then signs. *)
Definition obliging : WalletOps.SignReplies :=
  WalletOps.mkSignReplies
    (WalletOps.Ok (Some ["0x1111"]))
    (WalletOps.Ok "0x1")
    (WalletOps.mkSwitchReplies
       (fun _ => WalletOps.Ok tt)
       (fun _ => WalletOps.Ok "0xa86a")
       (fun _ => WalletOps.Ok tt))
    (WalletOps.Ok "0xa86a")
    (fun _ => WalletOps.Ok "0xsig")
    1700000000
    "0xnonce".

Definition fifty_thousand : x402.PaymentInfo :=
  x402.mkPaymentInfo "exact" None (Some "50000") None None (Some "0x2222").

End WalletSample.


(* ===================================================================== *)
(** ** pages/Admin.jsx: the admin panel with its own socket *)
(* ===================================================================== *)

Module Admin.

(** The page's [gameState]. The server's object replaces it wholesale
    ([setGameState(state)]), so a key is there only if the server sent
    it: [status] is [None] when it is missing or no known status,
    [calledNumbers] is [None] when it is no array. *)
Record Game : Type := mkGame {
  status : option Status;
  calledNumbers : option (list Z);
  currentNumber : option Z
}.

(** The keys of [controlsLoading] that guard a control of the game. *)
Inductive Control : Type :=
| start | pause | resume | end_ | callNumber_ | resetGame | fullReset.

Definition Control_eqb (a b : Control) : bool :=
  match a, b with
  | start, start | pause, pause | resume, resume | end_, end_
  | callNumber_, callNumber_ | resetGame, resetGame
  | fullReset, fullReset => true
  | _, _ => false
  end.

(** [setTimeout(() => setControlsLoading(prev => ({ ...prev, [key]: false })), ms)] *)
Record Pending : Type := mkPending {
  due : nat;
  key : Control
}.

(** What the page sends: [socket.emit(name)] and
    [socket.emit('admin:call-number', { number })], where [number] is
    [undefined] when it was read past the end of an array. *)
Inductive Emitted : Type :=
| admin_start_game
| admin_pause_game
| admin_resume_game
| admin_end_game
| admin_call_number (number : option Z).

(** One mounted instance of the page. [mounted] turns false when the
    page leaves the screen: [navigate('/')] on logout, or a render that
    throws (the page reads [calledNumbers.length] and
    [calledNumbers.includes] of the destructured game state). *)
Record Page : Type := mkPage {
  mounted : bool;
  isAuthenticated : bool;
  socket : bool;
  gameState : Game;
  availableNumbers : list Z;
  controlsLoading : Control -> bool;
  timers : list Pending;
  clock : nat;
  emitted : list Emitted;
  fetched : list string
}.

Definition initialGame : Game := mkGame (Some waiting) (Some []) None.

Definition initialPage : Page :=
  mkPage true false false initialGame ALL_NUMBERS (fun _ => false) [] 0 [] [].

Definition unmount (s : Page) : Page :=
  mkPage false (isAuthenticated s) (socket s) (gameState s)
    (availableNumbers s) (controlsLoading s) (timers s) (clock s)
    (emitted s) (fetched s).

Definition setIsAuthenticated (b : bool) (s : Page) : Page :=
  mkPage (mounted s) b (socket s) (gameState s) (availableNumbers s)
    (controlsLoading s) (timers s) (clock s) (emitted s) (fetched s).

Definition setSocket (b : bool) (s : Page) : Page :=
  mkPage (mounted s) (isAuthenticated s) b (gameState s)
    (availableNumbers s) (controlsLoading s) (timers s) (clock s)
    (emitted s) (fetched s).

(** [setGameState(g)]; the render that follows throws when [g] has no
    [calledNumbers] array. *)
Definition setGameState (g : Game) (s : Page) : Page :=
  mkPage
    (match calledNumbers g with Some _ => mounted s | None => false end)
    (isAuthenticated s) (socket s) g (availableNumbers s)
    (controlsLoading s) (timers s) (clock s) (emitted s) (fetched s).

Definition setAvailableNumbers (ns : list Z) (s : Page) : Page :=
  mkPage (mounted s) (isAuthenticated s) (socket s) (gameState s) ns
    (controlsLoading s) (timers s) (clock s) (emitted s) (fetched s).

(** [setControlsLoading(prev => ({ ...prev, [c]: v }))] *)
Definition setControlsLoading (c : Control) (v : bool) (s : Page) : Page :=
  mkPage (mounted s) (isAuthenticated s) (socket s) (gameState s)
    (availableNumbers s)
    (fun c' => if Control_eqb c c' then v else controlsLoading s c')
    (timers s) (clock s) (emitted s) (fetched s).

Definition setTimeout (c : Control) (ms : nat) (s : Page) : Page :=
  mkPage (mounted s) (isAuthenticated s) (socket s) (gameState s)
    (availableNumbers s) (controlsLoading s)
    (timers s ++ [mkPending (clock s + ms) c])%list (clock s) (emitted s)
    (fetched s).

Definition emit (m : Emitted) (s : Page) : Page :=
  mkPage (mounted s) (isAuthenticated s) (socket s) (gameState s)
    (availableNumbers s) (controlsLoading s) (timers s) (clock s)
    (emitted s ++ [m])%list (fetched s).

Definition fetch (url : string) (s : Page) : Page :=
  mkPage (mounted s) (isAuthenticated s) (socket s) (gameState s)
    (availableNumbers s) (controlsLoading s) (timers s) (clock s)
    (emitted s) (fetched s ++ [url])%list.

Definition status_is (st : Status) (s : Page) : bool :=
  match status (gameState s) with
  | Some st' => Status_eqb st' st
  | None => false
  end.

(** [ALL_NUMBERS.filter((n) => !called.includes(n))] *)
Definition uncalled (called : list Z) : list Z :=
  filter (fun n => negb (Js.includes called n)) ALL_NUMBERS.

(** [updateAvailableNumbers(called)] *)
Definition updateAvailableNumbers (called : list Z) (s : Page) : Page :=
  setAvailableNumbers (uncalled called) s.

(** [newSocket.on('game-state', ...)]: without a [calledNumbers] array
    [called.includes] throws after the state was replaced. *)
Definition on_game_state (state : Game) (s : Page) : Page :=
  match calledNumbers state with
  | Some called => updateAvailableNumbers called (setGameState state s)
  | None => setGameState state s
  end.

(** [newSocket.on('number-called', ...)] *)
Definition on_number_called (number : Z) (s : Page) : Page :=
  match calledNumbers (gameState s) with
  | Some called =>
      setAvailableNumbers
        (filter (fun n => negb (Z.eqb n number)) (availableNumbers s))
        (setGameState
           (mkGame (status (gameState s)) (Some (called ++ [number])%list)
              (Some number)) s)
  | None => unmount s
  end.

(** [startGame] *)
Definition startGame (s : Page) : Page :=
  if socket s && negb (controlsLoading s start) then
    setTimeout start 500
      (setAvailableNumbers ALL_NUMBERS
         (setGameState (mkGame (Some playing) (Some []) None)
            (emit admin_start_game (setControlsLoading start true s))))
  else s.

(** [setGameState((prev) => ({ ...prev, status }))] *)
Definition setStatus (st : Status) (s : Page) : Page :=
  setGameState
    (mkGame (Some st) (calledNumbers (gameState s))
       (currentNumber (gameState s))) s.

(** [pauseGame] *)
Definition pauseGame (s : Page) : Page :=
  if socket s && negb (controlsLoading s pause) then
    setTimeout pause 500
      (setStatus paused (emit admin_pause_game (setControlsLoading pause true s)))
  else s.

(** [resumeGame] *)
Definition resumeGame (s : Page) : Page :=
  if socket s && negb (controlsLoading s resume) then
    setTimeout resume 500
      (setStatus playing
         (emit admin_resume_game (setControlsLoading resume true s)))
  else s.

(** [endGame]; [confirm] is the answer to [window.confirm]. *)
Definition endGame (confirm : bool) (s : Page) : Page :=
  if socket s && negb (controlsLoading s end_) && confirm then
    setTimeout end_ 500
      (setStatus ended (emit admin_end_game (setControlsLoading end_ true s)))
  else s.

(** [callNumber(number)] *)
Definition callNumber (number : option Z) (s : Page) : Page :=
  if socket s && status_is playing s && negb (controlsLoading s callNumber_)
  then
    setTimeout callNumber_ 300
      (emit (admin_call_number number) (setControlsLoading callNumber_ true s))
  else s.

(** A value of [Math.random()], as the fraction
    [numerator / denominator]. *)
Record Random : Type := mkRandom {
  numerator : Z;
  denominator : Z
}.

(** [Math.random()] returns a number in [0, 1). *)
Definition in_unit_interval (r : Random) : Prop :=
  0 <= numerator r < denominator r.

(** [Math.floor(random * length)] *)
Definition randomIndex (random : Random) (len : nat) : nat :=
  Z.to_nat (numerator random * Z.of_nat len / denominator random).

(** [callRandomNumber] *)
Definition callRandomNumber (random : Random) (s : Page) : Page :=
  if Nat.ltb 0 (List.length (availableNumbers s)) && status_is playing s
     && negb (controlsLoading s callNumber_)
  then
    callNumber
      (nth_error (availableNumbers s)
         (randomIndex random (List.length (availableNumbers s)))) s
  else s.

(** [handleResetGame] and [handleFullReset] up to their [fetch]. *)
Definition beginReset (c : Control) (url : string) (confirm : bool)
    (s : Page) : Page :=
  if confirm then fetch url (setControlsLoading c true s) else s.

(** The rest of [handleResetGame] and [handleFullReset]: [reply] is
    [None] when the request failed or was refused, and else the game
    state of the response body ([data.state], [data.game]), itself
    [None] when the body has no such key. *)
Definition endReset (c : Control) (reply : option (option Game))
    (s : Page) : Page :=
  match reply with
  | Some (Some g) =>
      setControlsLoading c false
        (setAvailableNumbers ALL_NUMBERS (setGameState g s))
  | Some None =>
      unmount (setControlsLoading c false (setAvailableNumbers ALL_NUMBERS s))
  | None => setControlsLoading c false s
  end.

(** [handleLogout] *)
Definition handleLogout (s : Page) : Page :=
  unmount (setSocket false (setIsAuthenticated false s)).

(** Time passes: every timer come due runs its callback. *)
Definition is_due (now : nat) (t : Pending) : bool := Nat.leb (due t) now.

Definition advance (d : nat) (s : Page) : Page :=
  let now := (clock s + d)%nat in
  fold_left (fun r t => setControlsLoading (key t) false r)
    (filter (is_due now) (timers s))
    (mkPage (mounted s) (isAuthenticated s) (socket s) (gameState s)
       (availableNumbers s) (controlsLoading s)
       (filter (fun t => negb (is_due now t)) (timers s)) now (emitted s)
       (fetched s)).

(** What can happen to the mounted page. *)
Inductive Event : Type :=
| Authenticated
| ServerGameState (state : Game)
| ServerNumberCalled (number : Z)
| ClickStart
| ClickPause
| ClickResume
| ClickEnd (confirm : bool)
| ClickNumber (num : Z)
| ClickRandom (random : Random)
| ClickResetGame (confirm : bool)
| ResetGameReply (reply : option (option Game))
| ClickFullReset (confirm : bool)
| FullResetReply (reply : option (option Game))
| ClickLogout
| Wait (d : nat).

(** The buttons are on the screen only for an authenticated admin, each
    under the condition of its JSX, and a [disabled] button gets no
    click; the socket's listeners are registered by the effect that runs
    once [isAuthenticated] holds; a reply is awaited only while its
    loading flag is up. *)
Definition dispatch (e : Event) (s : Page) : Page :=
  match e with
  | Authenticated => setSocket true (setIsAuthenticated true s)
  | ServerGameState state =>
      if socket s then on_game_state state s else s
  | ServerNumberCalled number =>
      if socket s then on_number_called number s else s
  | ClickStart =>
      if isAuthenticated s
         && (status_is waiting s || status_is ended s)
         && negb (controlsLoading s start)
      then startGame s else s
  | ClickPause =>
      if isAuthenticated s && status_is playing s
         && negb (controlsLoading s pause)
      then pauseGame s else s
  | ClickResume =>
      if isAuthenticated s && status_is paused s
         && negb (controlsLoading s resume)
      then resumeGame s else s
  | ClickEnd confirm =>
      if isAuthenticated s
         && (status_is playing s || status_is paused s)
         && negb (controlsLoading s end_)
      then endGame confirm s else s
  | ClickNumber num =>
      match calledNumbers (gameState s) with
      | Some called =>
          let isCalled := Js.includes called num in
          if isAuthenticated s && Js.includes ALL_NUMBERS num
             && negb (isCalled || negb (status_is playing s))
          then (if negb isCalled then callNumber (Some num) s else s)
          else s
      | None => s
      end
  | ClickRandom random =>
      if isAuthenticated s && status_is playing s
         && negb (Nat.eqb (List.length (availableNumbers s)) 0
                  || controlsLoading s callNumber_)
      then callRandomNumber random s else s
  | ClickResetGame confirm =>
      if isAuthenticated s
         && negb (controlsLoading s resetGame || status_is playing s)
      then beginReset resetGame "/api/admin/game/reset" confirm s else s
  | ResetGameReply reply =>
      if controlsLoading s resetGame then endReset resetGame reply s else s
  | ClickFullReset confirm =>
      if isAuthenticated s
         && negb (controlsLoading s fullReset || status_is playing s)
      then beginReset fullReset "/api/admin/full-reset" confirm s else s
  | FullResetReply reply =>
      if controlsLoading s fullReset then endReset fullReset reply s else s
  | ClickLogout => if isAuthenticated s then handleLogout s else s
  | Wait d => advance d s
  end.

(** Nothing reaches a page that has left the screen. *)
Definition handle (e : Event) (s : Page) : Page :=
  if mounted s then dispatch e s else s.

Definition run (events : list Event) (s : Page) : Page :=
  fold_left (fun r e => handle e r) events s.

(** A reset answered by the server with a game that has no called
    numbers. *)
Definition fresh_reply (reply : option (option Game)) : Prop :=
  match reply with
  | Some (Some g) => calledNumbers g = Some []
  | _ => True
  end.

Definition well_behaved (e : Event) : Prop :=
  match e with
  | ClickRandom random => in_unit_interval random
  | ResetGameReply reply | FullResetReply reply => fresh_reply reply
  | _ => True
  end.

(** The available numbers are the numbers not called. *)
Definition in_step (s : Page) : Prop :=
  mounted s = true ->
  exists called,
    calledNumbers (gameState s) = Some called /\
    availableNumbers s = uncalled called.

(** What handling [e] adds to the messages sent so far. *)
Definition news (e : Event) (s : Page) : list Emitted :=
  skipn (List.length (emitted s)) (emitted (handle e s)).

(** The delay after which a control's loading flag is taken down by its
    timer; the flags of the two resets are taken down by the reply. *)
Definition delay (c : Control) : option nat :=
  match c with
  | start | pause | resume | end_ => Some 500%nat
  | callNumber_ => Some 300%nat
  | resetGame | fullReset => None
  end.

(** Every raised flag of a timed control has its timer pending. *)
Definition backed (s : Page) : Prop :=
  forall c ms,
    delay c = Some ms ->
    controlsLoading s c = true ->
    exists t, In t (timers s) /\ key t = c /\ (due t <= clock s + ms)%nat.

End Admin.

Module AdminSample.

Definition two_called : Admin.Game :=
  Admin.mkGame (Some playing) (Some [7; 21]) (Some 21).

(** An evening at the panel: a snapshot, a random call, its echo, a
    pause and a reset. *)
Definition evening : list Admin.Event :=
  [Admin.Authenticated;
   Admin.ServerGameState two_called;
   Admin.ClickRandom (Admin.mkRandom 1 2);
   Admin.ServerNumberCalled 39;
   Admin.Wait 300;
   Admin.ClickPause;
   Admin.ClickResetGame true;
   Admin.ResetGameReply (Some (Some Admin.initialGame))].

End AdminSample.

(* ===================================================================== *)
(** ** The raw-WebSocket provider: [connect], its handlers, the cleanup *)
(* ===================================================================== *)

Module Connection.

(** [ws.readyState] *)
Inductive ReadyState : Type := CONNECTING | OPEN | CLOSING | CLOSED.

(** The frames the connection itself sends:
    [sendMessage('authenticate', { token })], [sendMessage('getGameState')]
    and [sendMessage('ping')]. *)
Inductive Frame : Type :=
| authenticate (token : string)
| getGameState
| ping.

(** The provider's connection state. Every [new WebSocket(wsUrl)] is
    kept, by the order of its creation, with its ready state; [wsRef],
    [socket] and the heartbeats name sockets by that index; [timers] are
    the reconnect timers still pending; [sent] pairs each frame with the
    socket it went out on. *)
Record Provider : Type := mkProvider {
  sockets : list ReadyState;
  wsRef : option nat;
  socket : option nat;
  isConnected : bool;
  reconnectTimeoutRef : option nat;
  timers : list nat;
  nextTimer : nat;
  heartbeats : list nat;
  sent : list (nat * Frame)
}.

Definition unmounted : Provider :=
  mkProvider [] None None false None [] 0 [] [].

Definition readyState (p : Provider) (ws : nat) : option ReadyState :=
  nth_error (sockets p) ws.

Definition is_open (st : option ReadyState) : bool :=
  match st with
  | Some OPEN => true
  | _ => false
  end.

Fixpoint update (ws : nat) (st : ReadyState) (l : list ReadyState)
  : list ReadyState :=
  match l, ws with
  | [], _ => []
  | _ :: l', O => st :: l'
  | x :: l', S k => x :: update k st l'
  end.

(** [sendMessage(type, payload)]:
    [if (wsRef.current && wsRef.current.readyState === WebSocket.OPEN)] *)
Definition sendMessage (f : Frame) (p : Provider) : Provider :=
  match wsRef p with
  | Some ws =>
      if is_open (readyState p ws) then
        mkProvider (sockets p) (wsRef p) (socket p) (isConnected p)
          (reconnectTimeoutRef p) (timers p) (nextTimer p) (heartbeats p)
          (sent p ++ [(ws, f)])%list
      else p
  | None => p
  end.

(** [connect]: nothing if the socket of [wsRef] is open, else a new
    socket takes its place in [wsRef]. *)
Definition connect (p : Provider) : Provider :=
  if match wsRef p with
     | Some ws => is_open (readyState p ws)
     | None => false
     end
  then p
  else
    mkProvider (sockets p ++ [CONNECTING])%list
      (Some (List.length (sockets p))) (socket p) (isConnected p)
      (reconnectTimeoutRef p) (timers p) (nextTimer p) (heartbeats p)
      (sent p).

(** [ws.onopen] of the socket [ws]; [token] is what [getAuthInfo] finds
    in the local storage. *)
Definition onopen (ws : nat) (token : option string) (p : Provider)
  : Provider :=
  let p1 :=
    mkProvider (sockets p) (wsRef p) (Some ws) true
      (reconnectTimeoutRef p) (timers p) (nextTimer p) (heartbeats p)
      (sent p) in
  let p2 :=
    match token with
    | Some t =>
        if String.eqb t "" then sendMessage getGameState p1
        else sendMessage (authenticate t) p1
    | None => sendMessage getGameState p1
    end in
  mkProvider (sockets p2) (wsRef p2) (socket p2) (isConnected p2)
    (reconnectTimeoutRef p2) (timers p2) (nextTimer p2)
    (heartbeats p2 ++ [ws])%list (sent p2).

(** [clearTimeout(t)] *)
Definition clearTimeout (t : nat) (p : Provider) : Provider :=
  mkProvider (sockets p) (wsRef p) (socket p) (isConnected p)
    (reconnectTimeoutRef p)
    (filter (fun t' => negb (Nat.eqb t' t)) (timers p))
    (nextTimer p) (heartbeats p) (sent p).

(** [ws.onclose]: the refs are emptied whichever socket closed, and a
    reconnect is scheduled in place of the one pending. *)
Definition onclose (p : Provider) : Provider :=
  let p1 :=
    mkProvider (sockets p) None None false (reconnectTimeoutRef p)
      (timers p) (nextTimer p) (heartbeats p) (sent p) in
  let p2 :=
    match reconnectTimeoutRef p1 with
    | Some t => clearTimeout t p1
    | None => p1
    end in
  mkProvider (sockets p2) (wsRef p2) (socket p2) (isConnected p2)
    (Some (nextTimer p2)) (timers p2 ++ [nextTimer p2])%list
    (S (nextTimer p2)) (heartbeats p2) (sent p2).

(** One tick of the heartbeat started by [ws.onopen] of [ws]:
    [if (ws.readyState === WebSocket.OPEN) sendMessage('ping');
     else clearInterval(heartbeat)]. *)
Definition heartbeat (ws : nat) (p : Provider) : Provider :=
  if is_open (readyState p ws) then sendMessage ping p
  else
    mkProvider (sockets p) (wsRef p) (socket p) (isConnected p)
      (reconnectTimeoutRef p) (timers p) (nextTimer p)
      (filter (fun h => negb (Nat.eqb h ws)) (heartbeats p)) (sent p).

(** [ws.close()] *)
Definition close (ws : nat) (p : Provider) : Provider :=
  match readyState p ws with
  | Some CONNECTING | Some OPEN =>
      mkProvider (update ws CLOSING (sockets p)) (wsRef p) (socket p)
        (isConnected p) (reconnectTimeoutRef p) (timers p) (nextTimer p)
        (heartbeats p) (sent p)
  | _ => p
  end.

(** The cleanup of the effect, as far as the connection goes. *)
Definition cleanup (p : Provider) : Provider :=
  let p1 :=
    match reconnectTimeoutRef p with
    | Some t => clearTimeout t p
    | None => p
    end in
  match wsRef p1 with
  | Some ws => close ws p1
  | None => p1
  end.

(** What the browser and React do to the provider. A socket opens once,
    from [CONNECTING]; it closes once, from any state but [CLOSED]; a
    message arrives on an open socket; a timer or a heartbeat runs only
    while it is pending. *)
Inductive Event : Type :=
| Opens (ws : nat) (token : option string)
| Closes (ws : nat)
| ReceivesAuthenticated (ws : nat)
| ReconnectTimer (t : nat)
| HeartbeatTick (ws : nat)
| Cleanup.

Definition set_readyState (ws : nat) (st : ReadyState) (p : Provider)
  : Provider :=
  mkProvider (update ws st (sockets p)) (wsRef p) (socket p) (isConnected p)
    (reconnectTimeoutRef p) (timers p) (nextTimer p) (heartbeats p) (sent p).

Definition step (p : Provider) (e : Event) : Provider :=
  match e with
  | Opens ws token =>
      match readyState p ws with
      | Some CONNECTING => onopen ws token (set_readyState ws OPEN p)
      | _ => p
      end
  | Closes ws =>
      match readyState p ws with
      | Some CLOSED | None => p
      | Some _ => onclose (set_readyState ws CLOSED p)
      end
  | ReceivesAuthenticated ws =>
      if is_open (readyState p ws) then sendMessage getGameState p else p
  | ReconnectTimer t =>
      if existsb (Nat.eqb t) (timers p) then connect (clearTimeout t p)
      else p
  | HeartbeatTick ws =>
      if existsb (Nat.eqb ws) (heartbeats p) then heartbeat ws p else p
  | Cleanup => cleanup p
  end.

(** The effect runs [connect()] on mount. *)
Definition mounted : Provider := connect unmounted.

Definition run (events : list Event) (p : Provider) : Provider :=
  fold_left step events p.







End Connection.

Module ConnectionSample.

(** The server drops the first connection; the provider reconnects and
    is then unmounted. *)
Definition dropped_once : list Connection.Event :=
  [Connection.Opens 0 (Some "jwt");
   Connection.ReceivesAuthenticated 0;
   Connection.HeartbeatTick 0;
   Connection.Closes 0;
   Connection.HeartbeatTick 0;
   Connection.ReconnectTimer 0;
   Connection.Opens 1 None].

End ConnectionSample.

(* ===================================================================== *)
(** * Properties *)
(* ===================================================================== *)

(** ** Lists of claims and numbers *)

Lemma has_card_app (id : CardId) (ws vs : list PotentialWinner) :
  has_card id (ws ++ vs) = has_card id ws || has_card id vs.
Proof. unfold has_card. apply existsb_app. Qed.

Lemma has_card_self (d : PotentialWinner) (ws : list PotentialWinner) :
  has_card (cardId d) (ws ++ [d]) = true.
Proof.
  rewrite has_card_app. simpl. rewrite String.eqb_refl.
  now rewrite orb_true_r.
Qed.

Lemma has_card_drop_card (id : CardId) (ws : list PotentialWinner) :
  has_card id (drop_card id ws) = false.
Proof.
  induction ws as [|w ws IH]; simpl; [reflexivity|].
  destruct (String.eqb (cardId w) id) eqn:E; simpl; [exact IH|].
  now rewrite E.
Qed.

Lemma filter_idem {A : Type} (p : A -> bool) (l : list A) :
  filter p (filter p l) = filter p l.
Proof.
  induction l as [|a l IH]; simpl; [reflexivity|].
  destruct (p a) eqn:E; simpl; [rewrite E; f_equal|]; exact IH.
Qed.

Lemma drop_card_idem (id : CardId) (ws : list PotentialWinner) :
  drop_card id (drop_card id ws) = drop_card id ws.
Proof. apply filter_idem. Qed.

Lemma drop_number_idem (n : Z) (ns : list Z) :
  drop_number n (drop_number n ns) = drop_number n ns.
Proof. apply filter_idem. Qed.

(** ** Replaying an event *)

Lemma socketio_potentialWinner_idem (s : GameState) (d : PotentialWinner) :
  SocketIO.handle (SocketIO.handle s (SocketIO.PotentialWinnerEv d))
                  (SocketIO.PotentialWinnerEv d)
  = SocketIO.handle s (SocketIO.PotentialWinnerEv d).
Proof.
  simpl. destruct (has_card (cardId d) (potentialWinners s)) eqn:E.
  - now rewrite E.
  - simpl. now rewrite has_card_self.
Qed.

Lemma socketio_numberUncalled_idem
      (s : GameState) (n : Z) (c : option Z) (l : option (list Z)) :
  SocketIO.handle (SocketIO.handle s (SocketIO.NumberUncalled n c l))
                  (SocketIO.NumberUncalled n c l)
  = SocketIO.handle s (SocketIO.NumberUncalled n c l).
Proof.
  destruct l as [l|]; simpl; unfold set_calledNumbers, set_currentNumber; simpl.
  - reflexivity.
  - now rewrite drop_number_idem.
Qed.

Lemma rawws_potentialWinner_idem (s : GameState) (d : PotentialWinner) :
  RawWS.handle (RawWS.handle s (RawWS.PotentialWinnerEv d))
               (RawWS.PotentialWinnerEv d)
  = RawWS.handle s (RawWS.PotentialWinnerEv d).
Proof.
  simpl. destruct (has_card (cardId d) (potentialWinners s)) eqn:E.
  - now rewrite E.
  - simpl. now rewrite has_card_self.
Qed.

(** C1, as stated, fails: the ['number-called'] handler appends without a
    membership test, so a replayed call of 17 is recorded twice although 17
    is already in [calledNumbers] after the first delivery. *)
Lemma C1_numberCalled_replay_appends :
  Replay.replayed (SocketIO.NumberCalled 17) = true /\
  Js.includes
    (calledNumbers (SocketIO.handle initialGameState (SocketIO.NumberCalled 17)))
    17 = true /\
  SocketIO.handle
    (SocketIO.handle initialGameState (SocketIO.NumberCalled 17))
    (SocketIO.NumberCalled 17)
  <> SocketIO.handle initialGameState (SocketIO.NumberCalled 17).
Proof.
  repeat split; try reflexivity.
  intro H. apply (f_equal calledNumbers) in H. discriminate H.
Qed.

(** C1 (amended): replaying a [potentialWinner] or [numberUncalled] event
    gives the state of a single delivery, in both providers; a
    [potentialWinner] whose [cardId] is already pending leaves the state
    unchanged. A [numberCalled] event is not deduplicated: it appends its
    number whether or not it is already called, and is replay-safe only in
    the raw-WebSocket provider when the event carries the whole list. *)
Theorem C1_replay_guarded_events :
  (forall s e, Replay.guarded e = true ->
     SocketIO.handle (SocketIO.handle s e) e = SocketIO.handle s e) /\
  (forall s e, Replay.guarded_raw e = true ->
     RawWS.handle (RawWS.handle s e) e = RawWS.handle s e) /\
  (forall s d, has_card (cardId d) (potentialWinners s) = true ->
     SocketIO.handle s (SocketIO.PotentialWinnerEv d) = s /\
     RawWS.handle s (RawWS.PotentialWinnerEv d) = s) /\
  (forall s n,
     calledNumbers (SocketIO.handle s (SocketIO.NumberCalled n))
     = (calledNumbers s ++ [n])%list /\
     calledNumbers (RawWS.handle s (RawWS.NumberCalled n None))
     = (calledNumbers s ++ [n])%list).
Proof.
  split; [|split; [|split]].
  - intros s e He. destruct e; try discriminate He.
    + apply socketio_numberUncalled_idem.
    + apply socketio_potentialWinner_idem.
  - intros s e He. destruct e as [| | |n [l|]| | | | | | | | | | |];
      try discriminate He.
    + reflexivity.
    + apply rawws_potentialWinner_idem.
  - intros s d H. simpl. now rewrite H.
  - intros s n. split; reflexivity.
Qed.

Lemma C1_replay_guarded_events_witness :
  Replay.guarded (SocketIO.PotentialWinnerEv Sample.ana) = true /\
  has_card (cardId Sample.ana) (potentialWinners Sample.one_claim) = true /\
  SocketIO.handle
    (SocketIO.handle Sample.one_claim (SocketIO.PotentialWinnerEv Sample.ana))
    (SocketIO.PotentialWinnerEv Sample.ana)
  = SocketIO.handle Sample.one_claim (SocketIO.PotentialWinnerEv Sample.ana) /\
  SocketIO.handle Sample.one_claim (SocketIO.PotentialWinnerEv Sample.ana)
  = Sample.one_claim.
Proof.
  split; [reflexivity|]. split; [reflexivity|]. split.
  - apply (proj1 C1_replay_guarded_events
             Sample.one_claim (SocketIO.PotentialWinnerEv Sample.ana)).
    reflexivity.
  - apply (proj1 (proj2 (proj2 C1_replay_guarded_events))
             Sample.one_claim Sample.ana).
    reflexivity.
Defined.

(** ** Sequences of called numbers *)



Lemma in_ALL_NUMBERS (n : Z) : 1 <= n <= 75 -> In n ALL_NUMBERS.
Proof.
  intro H. unfold ALL_NUMBERS. apply in_map_iff.
  exists (Z.to_nat n). split; [lia|]. apply in_seq. lia.
Qed.





(** ** Resets *)

(** C3: whatever the prior state, [gameStarted] yields [status = playing],
    no called numbers, no current number, no winner, no pending claims and
    purchases closed, in both providers. *)
Theorem C3_gameStarted_resets (prev : GameState) (mode : option string) :
  let s := SocketIO.handle prev (SocketIO.GameStarted mode) in
  let r := RawWS.handle prev (RawWS.GameStarted mode) in
  (status s = playing /\ calledNumbers s = [] /\ currentNumber s = None /\
   winner s = None /\ potentialWinners s = [] /\ canPurchase s = false) /\
  (status r = playing /\ calledNumbers r = [] /\ currentNumber r = None /\
   winner r = None /\ potentialWinners r = [] /\ canPurchase r = false).
Proof. repeat split. Qed.

(** C4: in both providers the handlers that set the winner ([gameEnded],
    [winnerAnnounced]) and those that open a new game ([gameCleared] moves
    to [waiting], [gameStarted] to [playing]) leave [potentialWinners]
    empty, whatever the prior state. *)
Theorem C4_potentialWinners_cleared (prev : GameState) (w : option Winner)
        (mode : option string) :
  (winner (SocketIO.handle prev (SocketIO.GameEnded w)) = w /\
   potentialWinners (SocketIO.handle prev (SocketIO.GameEnded w)) = []) /\
  (winner (SocketIO.handle prev (SocketIO.WinnerAnnounced w)) = w /\
   potentialWinners (SocketIO.handle prev (SocketIO.WinnerAnnounced w)) = []) /\
  (status (SocketIO.handle prev SocketIO.GameCleared) = waiting /\
   potentialWinners (SocketIO.handle prev SocketIO.GameCleared) = []) /\
  (status (SocketIO.handle prev (SocketIO.GameStarted mode)) = playing /\
   potentialWinners (SocketIO.handle prev (SocketIO.GameStarted mode)) = []) /\
  (winner (RawWS.handle prev (RawWS.GameEnded w)) = w /\
   potentialWinners (RawWS.handle prev (RawWS.GameEnded w)) = []) /\
  (winner (RawWS.handle prev (RawWS.WinnerAnnounced w)) = w /\
   potentialWinners (RawWS.handle prev (RawWS.WinnerAnnounced w)) = []) /\
  (status (RawWS.handle prev RawWS.GameCleared) = waiting /\
   potentialWinners (RawWS.handle prev RawWS.GameCleared) = []) /\
  (status (RawWS.handle prev (RawWS.GameStarted mode)) = playing /\
   potentialWinners (RawWS.handle prev (RawWS.GameStarted mode)) = []).
Proof. repeat split. Qed.

(** [gameResumed] is not one of them: it returns to [playing] within the
    same game and keeps the pending claims. *)
Lemma gameResumed_keeps_potentialWinners (prev : GameState) :
  potentialWinners (SocketIO.handle prev SocketIO.GameResumed)
  = potentialWinners prev /\
  potentialWinners (RawWS.handle prev RawWS.GameResumed)
  = potentialWinners prev.
Proof. split; reflexivity. Qed.

(** ** The auto-hide timer of the "continue" message *)

Section AutoHide.

Import SocketIO.

Lemma tick_idle gs r nid c conn ob rc d :
  tick d (mkRuntime gs r [] nid c conn ob rc)
  = mkRuntime gs r [] nid (c + d) conn ob rc.
Proof. reflexivity. Qed.

Lemma tick_not_due gs r n D nid c conn ob rc d :
  (c + d < D)%nat ->
  tick d (mkRuntime gs r [mkTimer n D] nid c conn ob rc)
  = mkRuntime gs r [mkTimer n D] nid (c + d) conn ob rc.
Proof.
  intro H. unfold tick, advance, is_due. simpl.
  destruct (Nat.leb_spec D (c + d)); [lia|]. reflexivity.
Qed.

Lemma tick_due gs r n D nid c conn ob rc d :
  (D <= c + d)%nat ->
  tick d (mkRuntime gs r [mkTimer n D] nid c conn ob rc)
  = mkRuntime (set_showContinueMessage false gs) None [] nid (c + d)
      conn ob rc.
Proof.
  intro H. unfold tick, advance, is_due. simpl.
  destruct (Nat.leb_spec D (c + d)); [|lia]. reflexivity.
Qed.

Lemma single_timer_tick d rt : single_timer rt -> single_timer (tick d rt).
Proof.
  destruct rt as [gs r ts nid c conn ob rc].
  intros [H | [[n D] [H Hr]]]; simpl in H; subst ts.
  - rewrite tick_idle. now left.
  - destruct (Nat.leb_spec D (c + d)).
    + rewrite tick_due by assumption. now left.
    + rewrite tick_not_due by assumption. right. now exists (mkTimer n D).
Qed.

Lemma handle_event_keeps_timers e rt :
  timers (setGameState (fun prev => handle prev e) rt) = timers rt /\
  continueMessageTimeoutRef (setGameState (fun prev => handle prev e) rt)
  = continueMessageTimeoutRef rt.
Proof. split; reflexivity. Qed.

(** After a rejection exactly the new timer is pending. *)
Lemma reject_replaces_timer id rt :
  single_timer rt ->
  timers (on_event (WinnerRejected id) rt)
  = [mkTimer (nextTimerId rt) (clock rt + 5000)] /\
  continueMessageTimeoutRef (on_event (WinnerRejected id) rt)
  = Some (nextTimerId rt).
Proof.
  destruct rt as [gs r ts nid c conn ob rc].
  intros [H | [[n D] [H Hr]]]; simpl in H; subst ts.
  - destruct r; split; reflexivity.
  - simpl in Hr. subst r. unfold on_event. simpl.
    rewrite Nat.eqb_refl. split; reflexivity.
Qed.

Lemma single_timer_on_event e rt :
  single_timer rt -> single_timer (on_event e rt).
Proof.
  intro H. destruct e as [| | | | | | | | | | |id]; try exact H.
  destruct (reject_replaces_timer id rt H) as [Ht Hr].
  right. exists (mkTimer (nextTimerId rt) (clock rt + 5000)). now split.
Qed.

Lemma single_timer_run acts rt :
  single_timer rt -> single_timer (run acts rt).
Proof.
  revert rt. induction acts as [|a acts IH]; intros rt H; [exact H|].
  simpl. apply IH. destruct a; simpl.
  - now apply single_timer_on_event.
  - now apply single_timer_tick.
Qed.

Lemma single_timer_length rt : single_timer rt -> (List.length (timers rt) <= 1)%nat.
Proof. intros [H | [t [H _]]]; rewrite H; simpl; lia. Qed.

(** Time passing with one timer pending: the message stays until the
    timer comes due, then it is hidden and nothing is pending. *)
Lemma waits_with_pending ds :
  forall gs r n D nid c conn ob rc,
    (c < D)%nat ->
    let rt := mkRuntime gs r [mkTimer n D] nid c conn ob rc in
    let rt' := run (map Wait ds) rt in
    ((c + list_sum ds < D)%nat ->
       gameState rt' = gs /\ timers rt' = [mkTimer n D] /\
       continueMessageTimeoutRef rt' = r /\
       clock rt' = (c + list_sum ds)%nat) /\
    ((D <= c + list_sum ds)%nat ->
       gameState rt' = set_showContinueMessage false gs /\ timers rt' = []).
Proof.
  induction ds as [|d ds IH]; intros gs r n D nid c conn ob rc Hc; simpl.
  - split; intro H; [|lia]. repeat split. lia.
  - destruct (Nat.leb_spec D (c + d)) as [Hd | Hd].
    + rewrite tick_due by assumption. split; intro H; [lia|].
      clear IH H. generalize (c + d)%nat as c'.
      induction ds as [|d' ds IH']; intro c'; simpl; [now split|].
      rewrite tick_idle. apply IH'.
    + rewrite tick_not_due by assumption.
      specialize (IH gs r n D nid (c + d)%nat conn ob rc Hd).
      cbv zeta in IH. destruct IH as [IH1 IH2].
      split; intro H.
      * rewrite Nat.add_assoc. apply IH1. lia.
      * apply IH2. lia.
Qed.

End AutoHide.

Lemma single_timer_reachable (acts : list SocketIO.Action) :
  single_timer (SocketIO.run acts initialRuntime).
Proof. apply single_timer_run. now left. Qed.

Lemma on_potentialWinner_keeps_timers (d : PotentialWinner) (rt : Runtime) :
  timers (SocketIO.on_event (SocketIO.PotentialWinnerEv d) rt) = timers rt.
Proof. reflexivity. Qed.

(** C5, as stated, fails on the part about [potentialWinner]: the handler
    never touches the timer, so one second after a rejection a new claim
    hides the message but the auto-hide timer set by the rejection is still
    pending; and a repeated claim of a card that is still pending changes
    nothing, so the message stays visible. *)
Lemma C5_potentialWinner_leaves_timer_pending :
  showContinueMessage (gameState Sample.one_second_after_reject) = true /\
  timers Sample.one_second_after_reject = [mkTimer 1 5000] /\
  timers (SocketIO.on_event (SocketIO.PotentialWinnerEv Sample.carla)
            Sample.one_second_after_reject) <> [] /\
  showContinueMessage
    (gameState
       (SocketIO.on_event (SocketIO.PotentialWinnerEv Sample.luis)
          Sample.one_second_after_reject)) <> false.
Proof.
  split; [reflexivity|]. split; [reflexivity|]. split.
  - rewrite on_potentialWinner_keeps_timers. discriminate.
  - discriminate.
Qed.

(** C5 (amended): in every reachable state of the socket.io provider a
    [winnerRejected] event removes the card from [potentialWinners], sets
    [lastRejectedWinner], shows the message at once, and leaves exactly one
    auto-hide timer pending, due 5000 ms later, any earlier one having been
    cleared. With only time passing the message is shown until 5000 ms have
    elapsed and hidden from then on. A [potentialWinner] event for a card
    that is not pending, arriving earlier, hides the message at once and
    leaves the timer pending. At most one auto-hide timer is pending in any
    reachable state. *)
Theorem C5_winnerRejected_autohide
        (acts : list SocketIO.Action) (id : CardId) :
  let rt := SocketIO.run acts initialRuntime in
  let rt' := SocketIO.on_event (SocketIO.WinnerRejected id) rt in
  (potentialWinners (gameState rt')
   = drop_card id (potentialWinners (gameState rt)) /\
   has_card id (potentialWinners (gameState rt')) = false /\
   lastRejectedWinner (gameState rt') = Some id /\
   showContinueMessage (gameState rt') = true) /\
  (timers rt' = [mkTimer (nextTimerId rt) (clock rt + 5000)] /\
   continueMessageTimeoutRef rt' = Some (nextTimerId rt)) /\
  (forall ds, (list_sum ds < 5000)%nat ->
     showContinueMessage
       (gameState (SocketIO.run (map SocketIO.Wait ds) rt')) = true) /\
  (forall ds, (5000 <= list_sum ds)%nat ->
     showContinueMessage
       (gameState (SocketIO.run (map SocketIO.Wait ds) rt')) = false /\
     timers (SocketIO.run (map SocketIO.Wait ds) rt') = []) /\
  (forall ds d, (list_sum ds < 5000)%nat ->
     has_card (cardId d) (potentialWinners (gameState rt')) = false ->
     let rt'' := SocketIO.on_event (SocketIO.PotentialWinnerEv d)
                   (SocketIO.run (map SocketIO.Wait ds) rt') in
     showContinueMessage (gameState rt'') = false /\
     timers rt'' = timers rt') /\
  (List.length (timers rt) <= 1)%nat /\ (List.length (timers rt') <= 1)%nat.
Proof.
  intros rt rt'.
  pose proof (single_timer_reachable acts) as Hinv. fold rt in Hinv.
  destruct (reject_replaces_timer id rt Hinv) as [Ht Hr]. fold rt' in Ht, Hr.
  assert (Hgs : gameState rt'
                = SocketIO.handle (gameState rt) (SocketIO.WinnerRejected id)).
  { unfold rt', SocketIO.on_event.
    destruct (continueMessageTimeoutRef
                (setGameState
                   (fun prev => SocketIO.handle prev (SocketIO.WinnerRejected id))
                   rt)); reflexivity. }
  assert (Hclock : clock rt' = clock rt).
  { unfold rt', SocketIO.on_event.
    destruct (continueMessageTimeoutRef
                (setGameState
                   (fun prev => SocketIO.handle prev (SocketIO.WinnerRejected id))
                   rt)); reflexivity. }
  assert (Hshow : showContinueMessage (gameState rt') = true)
    by (rewrite Hgs; reflexivity).
  assert (Hwaits :
    forall ds,
      let w := SocketIO.run (map SocketIO.Wait ds) rt' in
      ((list_sum ds < 5000)%nat ->
         gameState w = gameState rt' /\ timers w = timers rt') /\
      ((5000 <= list_sum ds)%nat ->
         gameState w = set_showContinueMessage false (gameState rt') /\
         timers w = [])).
  { intro ds. rewrite Ht.
    destruct rt' as [gs r ts nid c conn ob rc]. simpl in Ht, Hclock |- *.
    subst ts. subst c.
    assert (Hlt : (clock rt < clock rt + 5000)%nat) by lia.
    pose proof (waits_with_pending ds gs r (nextTimerId rt)
                  (clock rt + 5000)%nat nid (clock rt) conn ob rc Hlt) as Hw.
    cbv zeta in Hw. destruct Hw as [Hw1 Hw2].
    split; intro H.
    - destruct Hw1 as (G & T & _); [lia|]. now split.
    - apply Hw2. lia. }
  split; [|split; [|split; [|split; [|split; [|split]]]]].
  - rewrite Hgs. simpl. repeat split. apply has_card_drop_card.
  - now split.
  - intros ds Hds. destruct (Hwaits ds) as [Hw _].
    destruct (Hw Hds) as [G _]. now rewrite G.
  - intros ds Hds. destruct (Hwaits ds) as [_ Hw].
    destruct (Hw Hds) as [G T]. rewrite G. now split.
  - intros ds d Hds Hnew rt''. destruct (Hwaits ds) as [Hw _].
    destruct (Hw Hds) as [G T]. split.
    + unfold rt''.
      change (showContinueMessage
                (SocketIO.handle
                   (gameState (SocketIO.run (map SocketIO.Wait ds) rt'))
                   (SocketIO.PotentialWinnerEv d)) = false).
      rewrite G. unfold SocketIO.handle. now rewrite Hnew.
    + unfold rt''. now rewrite on_potentialWinner_keeps_timers.
  - now apply single_timer_length.
  - rewrite Ht. simpl. lia.
Qed.

Lemma C5_winnerRejected_autohide_witness :
  showContinueMessage
    (gameState
       (SocketIO.on_event (SocketIO.PotentialWinnerEv Sample.carla)
          (SocketIO.run (map SocketIO.Wait [1000%nat])
             (SocketIO.on_event (SocketIO.WinnerRejected "card-1")
                (SocketIO.run
                   [SocketIO.Deliver (SocketIO.GameStarted None);
                    SocketIO.Deliver (SocketIO.PotentialWinnerEv Sample.ana);
                    SocketIO.Deliver (SocketIO.PotentialWinnerEv Sample.luis)]
                   initialRuntime)))))
  = false /\
  showContinueMessage
    (gameState
       (SocketIO.run (map SocketIO.Wait [2000%nat; 3000%nat])
          (SocketIO.on_event (SocketIO.WinnerRejected "card-1")
             (SocketIO.run
                [SocketIO.Deliver (SocketIO.GameStarted None);
                 SocketIO.Deliver (SocketIO.PotentialWinnerEv Sample.ana);
                 SocketIO.Deliver (SocketIO.PotentialWinnerEv Sample.luis)]
                initialRuntime))))
  = false.
Proof.
  pose proof (C5_winnerRejected_autohide
                [SocketIO.Deliver (SocketIO.GameStarted None);
                 SocketIO.Deliver (SocketIO.PotentialWinnerEv Sample.ana);
                 SocketIO.Deliver (SocketIO.PotentialWinnerEv Sample.luis)]
                "card-1") as H.
  cbv zeta in H. destruct H as (_ & _ & _ & Hhide & Hpw & _).
  split.
  - apply (Hpw [1000%nat] Sample.carla); [simpl; lia | reflexivity].
  - apply (Hhide [2000%nat; 3000%nat]). simpl. lia.
Defined.

(** ** The balance check *)

Lemma getUSDCBalance_resolves (w : x402.Window) :
  exists b, x402.getUSDCBalance w = Resolved b.
Proof.
  unfold x402.getUSDCBalance. destruct (x402.ethereum w) as [eth|].
  - destruct (x402.queryBalance eth (x402.selectedNetwork w)) as [b|e]; simpl.
    + now exists b.
    + now exists x402.skippedBalance.
  - now exists x402.skippedBalance.
Qed.

Lemma cannot_check_skips (w : x402.Window) :
  cannot_check w -> x402.getUSDCBalance w = Resolved x402.skippedBalance.
Proof.
  unfold x402.getUSDCBalance.
  intros [H | eth H Ha | eth accounts c H Ha Hc Hd | eth e H Hq]; rewrite H.
  - reflexivity.
  - unfold x402.queryBalance. destruct Ha as [Ha | Ha]; rewrite Ha; reflexivity.
  - unfold x402.queryBalance. rewrite Ha. simpl.
    destruct accounts as [|address rest]; [reflexivity|].
    rewrite Hc. simpl. now rewrite Hd.
  - now rewrite Hq.
Qed.

(** C9: [getUSDCBalance] always resolves; when the provider is absent, no
    account is connected, the wallet is on another chain or the query
    throws, it resolves to the skipped result, whose [hasEnough] accepts
    every amount, and [handlePurchase] goes on to the payment. *)
Theorem C9_getUSDCBalance_never_blocks (w : x402.Window) :
  (exists b, x402.getUSDCBalance w = Resolved b) /\
  (cannot_check w ->
   exists b, x402.getUSDCBalance w = Resolved b /\
     x402.skipped b = true /\
     (forall amount, x402.hasEnough_call (x402.hasEnough b) amount = true) /\
     (forall r quantity s,
        Home.resume (Home.AwaitBalance r quantity)
          (Home.GotBalance (x402.getUSDCBalance w)) s
        = Some (Home.startPayment r quantity s))).
Proof.
  split; [apply getUSDCBalance_resolves|].
  intro H. exists x402.skippedBalance.
  rewrite (cannot_check_skips w H). repeat split.
Qed.

Example parseInt16_avalanche : JsString.parseInt16 "0xa86a" = Some 43114.
Proof. reflexivity. Qed.

Example parseInt16_NaN : JsString.parseInt16 "mainnet" = None.
Proof. reflexivity. Qed.

Example BigInt_of_garbage :
  JsString.BigInt "0xzz"
  = Rejected (mkJsError "SyntaxError" "Cannot convert 0xzz to a BigInt").
Proof. reflexivity. Qed.

Example balance_checked_on_the_right_chain :
  x402.getUSDCBalance Sample.wallet_with_5_usdc
  = Resolved (x402.mkBalance 5000000 (x402.ToFixed2 5000000)
                (x402.AtLeast 5000000) false).
Proof. reflexivity. Qed.

Lemma C9_getUSDCBalance_never_blocks_witness :
  exists b, x402.getUSDCBalance Sample.wallet_on_mainnet = Resolved b /\
    x402.skipped b = true /\
    (forall amount, x402.hasEnough_call (x402.hasEnough b) amount = true) /\
    (forall r quantity s,
       Home.resume (Home.AwaitBalance r quantity)
         (Home.GotBalance (x402.getUSDCBalance Sample.wallet_on_mainnet)) s
       = Some (Home.startPayment r quantity s)).
Proof.
  apply (proj2 (C9_getUSDCBalance_never_blocks Sample.wallet_on_mainnet)).
  eapply WrongChain; reflexivity.
Defined.

(** ** One purchase at a time *)


Ltac split_ifs H :=
  repeat match type of H with
         | context [if ?b then _ else _] => destruct b eqn:?
         end.









(** ** Quantities *)

Lemma includes_fibonacciQuantities (q : Z) :
  Js.includes config.fibonacciQuantities q = true <->
  In q [1; 2; 3; 5; 8; 13; 21; 34].
Proof.
  unfold Js.includes, config.fibonacciQuantities. rewrite existsb_exists.
  split.
  - intros [x [Hin Heq]]. apply Z.eqb_eq in Heq. now subst.
  - intro H. exists q. split; [exact H | apply Z.eqb_refl].
Qed.

(** C8, as stated, fails: a quantity of 0 is outside the allowed set, and
    so is 4 for a visitor who is not logged in; in neither case is a
    validation error reported (the second opens the login dialog). *)
Lemma C8_no_error_for_zero_quantity :
  Js.includes config.fibonacciQuantities 0 = false /\
  Home.handlePurchase Sample.ready Sample.wallet_with_5_usdc 0 Home.initialState
  = (Home.initialState, Home.Finished) /\
  Home.error
    (fst (Home.handlePurchase Sample.ready Sample.wallet_with_5_usdc 0
            Home.initialState))
  <> Some Home.InvalidQuantity /\
  Home.error
    (fst (Home.handlePurchase
            (Home.mkRender false true None None "avalanche" None
               "http://localhost:5000" 10000)
            Sample.wallet_with_5_usdc 4 Home.initialState))
  <> Some Home.InvalidQuantity.
Proof. repeat split; discriminate. Qed.

(** C8 (amended): for a quantity outside the allowed set [handlePurchase]
    returns before any [await], sends no request and leaves the ref,
    [purchasing], [paymentStatus], [purchasedCards] and the abort timer as
    they were. It reports the validation error when no purchase is in
    flight, the user is logged in and the quantity is at least 1; when a
    purchase is in flight, the user is not logged in or the quantity is
    below 1 it returns without touching [error]. *)
Theorem C8_invalid_quantity_rejected
        (r : Home.Render) (w : x402.Window) (q : Z) (s : Home.State) :
  Js.includes config.fibonacciQuantities q = false ->
  let s' := fst (Home.handlePurchase r w q s) in
  snd (Home.handlePurchase r w q s) = Home.Finished /\
  Home.requests s' = Home.requests s /\
  Home.isPurchasingRef s' = Home.isPurchasingRef s /\
  Home.purchasing s' = Home.purchasing s /\
  Home.paymentStatus s' = Home.paymentStatus s /\
  Home.purchasedCards s' = Home.purchasedCards s /\
  Home.abortTimer s' = Home.abortTimer s /\
  (Home.isPurchasingRef s = false -> Home.isLoggedIn r = true -> 1 <= q ->
   Home.error s' = Some Home.InvalidQuantity) /\
  (Home.isPurchasingRef s = true \/ Home.isLoggedIn r = false \/ q < 1 ->
   Home.error s' = Home.error s).
Proof.
  intros Hq s'. unfold s', Home.handlePurchase. rewrite Hq.
  destruct (Home.isPurchasingRef s) eqn:Href; simpl.
  - repeat split; try assumption; try reflexivity; discriminate.
  - destruct (Home.isLoggedIn r) eqn:Hlog; simpl.
    + destruct (Z.eqb_spec q 0) as [H0 | H0]; simpl.
      * repeat split; try assumption; try reflexivity; intros; lia.
      * destruct (Z.ltb_spec q 1) as [H1 | H1]; simpl.
        -- repeat split; try assumption; try reflexivity; intros; lia.
        -- repeat split; try assumption; try reflexivity.
           intros [H | [H | H]]; [discriminate | discriminate | lia].
    + repeat split; try assumption; try reflexivity; discriminate.
Qed.

Lemma C8_invalid_quantity_rejected_witness :
  snd (Home.handlePurchase Sample.ready Sample.wallet_with_5_usdc 4
         Home.initialState) = Home.Finished /\
  Home.requests
    (fst (Home.handlePurchase Sample.ready Sample.wallet_with_5_usdc 4
            Home.initialState)) = [] /\
  Home.error
    (fst (Home.handlePurchase Sample.ready Sample.wallet_with_5_usdc 4
            Home.initialState)) = Some Home.InvalidQuantity.
Proof.
  assert (Hq : Js.includes config.fibonacciQuantities 4 = false)
    by reflexivity.
  pose proof (C8_invalid_quantity_rejected Sample.ready
                Sample.wallet_with_5_usdc 4 Home.initialState Hq) as H.
  cbv zeta in H. destruct H as (Hfin & Hreq & _ & _ & _ & _ & _ & Herr & _).
  split; [exact Hfin|]. split; [exact Hreq|].
  apply Herr; [reflexivity | reflexivity | lia].
Defined.

(** ** At most one retry *)

Example categorize_user_rejection :
  Home.categorize (Error "User rejected the request.") = Home.UserRejected.
Proof. reflexivity. Qed.

Example categorize_abort :
  Home.categorize (mkJsError "AbortError" "The user aborted a request.")
  = Home.TimedOut.
Proof. reflexivity. Qed.

Lemma requests_finally_block r (s : Home.State) :
  Home.requests (Home.finally_block r s) = Home.requests s.
Proof. unfold Home.finally_block. destruct (Home.saw_no_success r); reflexivity. Qed.

Lemma requests_catch_block e (s : Home.State) :
  Home.requests (Home.catch_block e s) = Home.requests s.
Proof. reflexivity. Qed.

Lemma finally_block_releases r (s : Home.State) :
  Home.isPurchasingRef (Home.finally_block r s) = false /\
  Home.purchasing (Home.finally_block r s) = false /\
  Home.abortTimer (Home.finally_block r s) = false /\
  Home.error (Home.finally_block r s) = Home.error s.
Proof.
  unfold Home.finally_block. destruct (Home.saw_no_success r); repeat split.
Qed.

Lemma at_most_one_retry_length (sent : list x402.Request) :
  at_most_one_retry sent -> (List.length sent <= 2)%nat.
Proof.
  intros [H | [[a H] | [a [p H]]]]; rewrite H; simpl; lia.
Qed.

Lemma sent_so_far_bound (s0 s : Home.State) (o : Home.Outcome) :
  sent_so_far s0 s o ->
  exists sent,
    Home.requests s = (Home.requests s0 ++ sent)%list /\ at_most_one_retry sent.
Proof.
  destruct o as [|[r q | r q | r [req | req | req |] | r | r]]; simpl; intro H;
    try exact H.
  - exists []. rewrite app_nil_r. split; [exact H | now left].
  - exists []. rewrite app_nil_r. split; [exact H | now left].
  - exists [req]. split; [exact H | right; left; now exists req].
  - exists [req]. split; [exact H | right; left; now exists req].
  - exists [req]. split; [exact H | right; left; now exists req].
  - destruct H as [a [p H]]. exists [a; x402.with_payment a p].
    split; [exact H | right; right; now exists a, p].
Qed.

(** The response handed to [handlePurchase] ends the wrapper: nothing more
    is sent. *)
Lemma sent_after_response r resp (s0 s s1 : Home.State) (o1 : Home.Outcome) :
  (exists sent,
     Home.requests s = (Home.requests s0 ++ sent)%list /\
     at_most_one_retry sent) ->
  Home.onResponse r resp s = (s1, o1) ->
  sent_so_far s0 s1 o1.
Proof.
  intros Hs H. unfold Home.onResponse in H.
  split_ifs H; inversion H; subst; simpl; try exact Hs.
  rewrite requests_finally_block. exact Hs.
Qed.

Lemma sent_after_throw r e (s0 s : Home.State) :
  (exists sent,
     Home.requests s = (Home.requests s0 ++ sent)%list /\
     at_most_one_retry sent) ->
  sent_so_far s0 (Home.finally_block r (Home.catch_block e s)) Home.Finished.
Proof.
  intro Hs. simpl. rewrite requests_finally_block, requests_catch_block.
  exact Hs.
Qed.

Lemma sent_so_far_resume (s0 s s1 : Home.State) pc a (o1 : Home.Outcome) :
  sent_so_far s0 s (Home.Suspended pc) ->
  Home.resume pc a s = Some (s1, o1) ->
  sent_so_far s0 s1 o1.
Proof.
  intros Hinv Hres.
  pose proof (sent_so_far_bound _ _ _ Hinv) as Hb.
  destruct pc as [r q | r q | r fpc | r | r];
    destruct a as [[b|e] | [u|e] | fa | [eb|] | [[d|]|e]];
    simpl in Hres; try discriminate.
  - (* balance known *)
    split_ifs Hres; inversion Hres; subst; simpl; simpl in Hinv.
    + exists []. rewrite app_nil_r. split; [exact Hinv | now left].
    + exact Hinv.
  - inversion Hres; subst. exact Hinv.
  - (* the wrapper is called: the first request *)
    inversion Hres; subst. simpl in Hinv |- *. now rewrite Hinv.
  - inversion Hres; subst. now apply sent_after_throw.
  - (* inside the wrapper *)
    destruct fpc as [req | req | req |];
      destruct fa as [[resp|e] | [[x|]|e] | [p|e]];
      simpl in Hres; try discriminate.
    + destruct (negb (Z.eqb (x402.status resp) 402)); simpl in Hres.
      * inversion Hres as [H']. eapply sent_after_response; eassumption.
      * inversion Hres; subst. exact Hinv.
    + inversion Hres; subst. now apply sent_after_throw.
    + destruct (x402.selectPaymentInfo x) as [info|]; simpl in Hres.
      * destruct (x402.paymentAmount info) as [amt|e]; simpl in Hres;
          inversion Hres; subst; [exact Hinv | now apply sent_after_throw].
      * inversion Hres; subst. now apply sent_after_throw.
    + inversion Hres; subst. now apply sent_after_throw.
    + inversion Hres; subst. now apply sent_after_throw.
    + (* signed: the one retry *)
      inversion Hres; subst. simpl in Hinv |- *. exists req, p.
      rewrite Hinv. now rewrite <- app_assoc.
    + inversion Hres; subst. now apply sent_after_throw.
    + inversion Hres as [H']. eapply sent_after_response; eassumption.
    + inversion Hres; subst. now apply sent_after_throw.
  - inversion Hres; subst. now apply sent_after_throw.
  - inversion Hres; subst. now apply sent_after_throw.
  - destruct (Home.cards d) as [[|c cs]|]; inversion Hres; subst; simpl;
      rewrite requests_finally_block; exact Hb.
  - inversion Hres; subst. now apply sent_after_throw.
  - inversion Hres; subst. now apply sent_after_throw.
Qed.

Lemma sent_so_far_runs (s0 s1 s2 : Home.State) (o1 o2 : Home.Outcome) :
  Home.runs s1 o1 s2 o2 -> sent_so_far s0 s1 o1 -> sent_so_far s0 s2 o2.
Proof.
  induction 1 as [s o | s pc a s1 o1 s2 o2 Hres _ IH]; intro Hinv.
  - exact Hinv.
  - apply IH. eapply sent_so_far_resume; eassumption.
Qed.

Lemma sent_so_far_start r w q (s0 s1 : Home.State) (o1 : Home.Outcome) :
  Home.handlePurchase r w q s0 = (s1, o1) -> sent_so_far s0 s1 o1.
Proof.
  unfold Home.handlePurchase. intro H.
  split_ifs H; inversion H; subst; simpl;
    try (exists []; rewrite app_nil_r; split; [reflexivity | now left]).
  reflexivity.
Qed.

Lemma runs_finished (s s2 : Home.State) (o2 : Home.Outcome) :
  Home.runs s Home.Finished s2 o2 -> s2 = s /\ o2 = Home.Finished.
Proof. intro H. inversion H; subst. now split. Qed.

Lemma feed_runs answers :
  forall (s s2 : Home.State) (o o2 : Home.Outcome),
    Home.feed answers s o = Some (s2, o2) -> Home.runs s o s2 o2.
Proof.
  induction answers as [|a rest IH]; intros s s2 o o2 H; simpl in H.
  - inversion H; subst. apply Home.runs_here.
  - destruct o as [|pc]; [discriminate|].
    destruct (Home.resume pc a s) as [[s1 o1]|] eqn:E; [|discriminate].
    eapply Home.runs_on; [exact E | now apply IH].
Qed.

Lemma lookup_headers_set name value headers :
  x402.lookup name (x402.headers_set name value headers) = Some value.
Proof.
  unfold x402.headers_set.
  induction headers as [|[k v] rest IH]; simpl.
  - now rewrite String.eqb_refl.
  - destruct (String.eqb k name) eqn:E; simpl; [exact IH|].
    now rewrite E.
Qed.

Example purchase_refused_twice :
  Home.purchase Sample.ready Sample.wallet_with_5_usdc 5 Sample.refused_twice
    Home.initialState
  = Some (Home.mkState false false (Some Home.PaymentRejected) None [] false
            false
            [Home.purchaseRequest Sample.ready 5;
             x402.with_payment (Home.purchaseRequest Sample.ready 5)
               Sample.signed],
          Home.Finished).
Proof. reflexivity. Qed.

Example purchase_paid :
  Home.purchase Sample.ready Sample.wallet_with_5_usdc 5 Sample.paid
    Home.initialState
  = Some (Home.mkState false false None None ["c-1"; "c-2"] false false
            [Home.purchaseRequest Sample.ready 5;
             x402.with_payment (Home.purchaseRequest Sample.ready 5)
               Sample.signed],
          Home.Finished).
Proof. reflexivity. Qed.

(** C7: a purchase sends at most two requests, and when it sends two the
    second is the first with the [X-PAYMENT] header set. A first response
    of 402 makes the wrapper read the payment requirement and ask for a
    signature without sending anything; the signature is followed by the
    one repetition of the request, with the header. A 402 in answer to that
    repetition ends the purchase: the error is the payment-rejected
    message, the ref and [purchasing] are released, nothing more is sent
    and the purchase cannot be resumed. *)
Theorem C7_at_most_one_retry :
  (forall r w q s0 s1 o1 s2 o2,
     Home.handlePurchase r w q s0 = (s1, o1) ->
     Home.runs s1 o1 s2 o2 ->
     exists sent,
       Home.requests s2 = (Home.requests s0 ++ sent)%list /\
       at_most_one_retry sent /\ (List.length sent <= 2)%nat) /\
  (forall r req resp s,
     x402.status resp = 402 ->
     Home.resume (Home.InPaymentFetch r (x402.FirstResponse req))
       (Home.FromPaymentFetch (x402.GotResponse (Resolved resp))) s
     = Some (s, Home.Suspended (Home.InPaymentFetch r (x402.PaymentInfoBody req)))) /\
  (forall r req data info amount s,
     x402.selectPaymentInfo data = Some info ->
     x402.paymentAmount info = Resolved amount ->
     Home.resume (Home.InPaymentFetch r (x402.PaymentInfoBody req))
       (Home.FromPaymentFetch (x402.GotJson (Resolved (Some data)))) s
     = Some (s, Home.Suspended (Home.InPaymentFetch r (x402.Signature req)))) /\
  (forall r req payload s,
     Home.resume (Home.InPaymentFetch r (x402.Signature req))
       (Home.FromPaymentFetch (x402.GotSignature (Resolved payload))) s
     = Some (Home.send (x402.with_payment req payload) s,
             Home.Suspended (Home.InPaymentFetch r x402.SecondResponse)) /\
     x402.lookup "X-PAYMENT" (x402.req_headers (x402.with_payment req payload))
     = Some (x402.encodePaymentHeader payload) /\
     x402.req_url (x402.with_payment req payload) = x402.req_url req /\
     x402.req_method (x402.with_payment req payload) = x402.req_method req /\
     x402.req_body (x402.with_payment req payload) = x402.req_body req) /\
  (forall r resp s,
     x402.status resp = 402 ->
     exists s',
       Home.resume (Home.InPaymentFetch r x402.SecondResponse)
         (Home.FromPaymentFetch (x402.GotResponse (Resolved resp))) s
       = Some (s', Home.Finished) /\
       Home.error s' = Some Home.PaymentRejected /\
       Home.requests s' = Home.requests s /\
       Home.isPurchasingRef s' = false /\
       Home.purchasing s' = false /\
       (forall a s2 o2, Home.runs s' Home.Finished s2 o2 ->
                        s2 = s' /\ o2 = Home.Finished /\
                        Home.feed [a] s' Home.Finished = None)).
Proof.
  split; [|split; [|split; [|split]]].
  - intros r w q s0 s1 o1 s2 o2 Hstart Hruns.
    pose proof (sent_so_far_start _ _ _ _ _ _ Hstart) as H1.
    pose proof (sent_so_far_runs s0 _ _ _ _ Hruns H1) as H2.
    destruct (sent_so_far_bound _ _ _ H2) as [sent [Hreq Hshape]].
    exists sent. repeat split; try assumption.
    now apply at_most_one_retry_length.
  - intros r req resp s H. simpl. now rewrite H.
  - intros r req data info amount s Hinfo Hamt. simpl.
    now rewrite Hinfo, Hamt.
  - intros r req payload s. repeat split.
    apply lookup_headers_set.
  - intros r resp s H.
    exists (Home.finally_block r (Home.setError (Some Home.PaymentRejected) s)).
    destruct (finally_block_releases r
                (Home.setError (Some Home.PaymentRejected) s))
      as (Href & Hpur & _ & Herr).
    split; [|split; [|split; [|split; [|split]]]].
    + simpl. unfold Home.onResponse. now rewrite H.
    + rewrite Herr. reflexivity.
    + now rewrite requests_finally_block.
    + exact Href.
    + exact Hpur.
    + intros a s2 o2 Hruns. destruct (runs_finished _ _ _ Hruns) as [-> ->].
      repeat split.
Qed.

Lemma C7_at_most_one_retry_witness :
  exists sent,
    [Home.purchaseRequest Sample.ready 5;
     x402.with_payment (Home.purchaseRequest Sample.ready 5) Sample.signed]
    = (Home.requests Home.initialState ++ sent)%list /\
    at_most_one_retry sent /\ (List.length sent <= 2)%nat.
Proof.
  apply (proj1 C7_at_most_one_retry Sample.ready Sample.wallet_with_5_usdc 5
           Home.initialState
           (fst (Home.handlePurchase Sample.ready Sample.wallet_with_5_usdc 5
                   Home.initialState))
           (snd (Home.handlePurchase Sample.ready Sample.wallet_with_5_usdc 5
                   Home.initialState))
           (Home.mkState false false (Some Home.PaymentRejected) None [] false
              false
              [Home.purchaseRequest Sample.ready 5;
               x402.with_payment (Home.purchaseRequest Sample.ready 5)
                 Sample.signed])
           Home.Finished).
  - reflexivity.
  - apply (feed_runs Sample.refused_twice). reflexivity.
Defined.

(** ** The local rejection of the raw-WebSocket provider *)

(** C10: in the raw-WebSocket provider [rejectWinner] only updates the
    local game state: the card is filtered out of [potentialWinners] and
    [showContinueMessage] is set; nothing is sent on the socket, no REST
    call is made, [lastRejectedWinner] keeps its value, and no timer is
    created or cleared. *)
Theorem C10_rejectWinner_is_local (id : CardId) (rt : Runtime) :
  let rt' := RawWS.rejectWinner id rt in
  potentialWinners (gameState rt') = drop_card id (potentialWinners (gameState rt)) /\
  has_card id (potentialWinners (gameState rt')) = false /\
  showContinueMessage (gameState rt') = true /\
  outbox rt' = outbox rt /\
  restCalls rt' = restCalls rt /\
  lastRejectedWinner (gameState rt') = lastRejectedWinner (gameState rt) /\
  timers rt' = timers rt /\
  nextTimerId rt' = nextTimerId rt /\
  continueMessageTimeoutRef rt' = continueMessageTimeoutRef rt /\
  gameState rt'
  = (gameState rt)
      <| set_potentialWinners (drop_card id (potentialWinners (gameState rt))) |>
      <| set_showContinueMessage true |>.
Proof.
  simpl. repeat split. apply has_card_drop_card.
Qed.

(** The server-pushed [winnerRejected] does both things the local
    rejection omits, and the other admin commands go out over REST. *)
Lemma rawws_winnerRejected_sets_and_schedules (id : CardId) (rt : Runtime) :
  lastRejectedWinner (gameState (RawWS.handleMessage (RawWS.WinnerRejected id) rt))
  = Some id /\
  In (mkTimer (nextTimerId rt) (clock rt + 5000))
     (timers (RawWS.handleMessage (RawWS.WinnerRejected id) rt)) /\
  restCalls (RawWS.startGame rt)
  = (restCalls rt ++ [mkRestCall "/api/admin/game/start" "POST" None])%list.
Proof.
  split; [|split].
  - unfold RawWS.handleMessage.
    destruct (continueMessageTimeoutRef _); reflexivity.
  - unfold RawWS.handleMessage.
    destruct (continueMessageTimeoutRef _); simpl; apply in_or_app; right;
      now left.
  - reflexivity.
Qed.
(* ===================================================================== *)
(** * Further properties of the reducers *)
(* ===================================================================== *)

(** ** Pending claims stay distinct *)

Lemma has_card_false (id : CardId) (ws : list PotentialWinner) :
  has_card id ws = false -> ~ In id (map cardId ws).
Proof.
  induction ws as [|w ws IH]; simpl; [tauto|].
  intros H [Heq | Hin].
  - rewrite Heq, String.eqb_refl in H. discriminate.
  - apply orb_false_elim in H. now apply IH.
Qed.

Lemma in_cards_drop_card (id x : CardId) (ws : list PotentialWinner) :
  In x (map cardId (drop_card id ws)) -> In x (map cardId ws).
Proof.
  induction ws as [|w ws IH]; simpl; [tauto|].
  destruct (String.eqb (cardId w) id); simpl; tauto.
Qed.

Lemma distinct_cards_drop (id : CardId) (ws : list PotentialWinner) :
  distinct_cards ws -> distinct_cards (drop_card id ws).
Proof.
  unfold distinct_cards.
  induction ws as [|w ws IH]; simpl; intro H; [constructor|].
  inversion H as [|x l Hnot Hnd]; subst.
  destruct (String.eqb (cardId w) id); simpl; [now apply IH|].
  constructor; [|now apply IH].
  intro Hin. apply Hnot. now apply in_cards_drop_card in Hin.
Qed.

Lemma distinct_cards_add (d : PotentialWinner) (ws : list PotentialWinner) :
  distinct_cards ws -> has_card (cardId d) ws = false ->
  distinct_cards (ws ++ [d]).
Proof.
  unfold distinct_cards. intros Hnd Hnew.
  rewrite map_app. simpl.
  apply NoDup_app; [exact Hnd | repeat constructor; simpl; tauto |].
  intros x Hin [Hx | []]. subst x. now apply has_card_false in Hnew.
Qed.

Lemma socketio_step_distinct (s : GameState) (e : SocketIO.Event) :
  Kind.snapshot e = false ->
  distinct_cards (potentialWinners s) ->
  distinct_cards (potentialWinners (SocketIO.handle s e)).
Proof.
  intros He H.
  destruct e as [st|n|n c l|m|m i| | |w| |w|d|id]; simpl; try discriminate He;
    try exact H; try (constructor; fail).
  - destruct (has_card (cardId d) (potentialWinners s)) eqn:E; simpl;
      [exact H | now apply distinct_cards_add].
  - now apply distinct_cards_drop.
Qed.

Lemma rawws_step_distinct (s : GameState) (e : RawWS.Event) :
  Kind.snapshot_raw e = false ->
  distinct_cards (potentialWinners s) ->
  distinct_cards (potentialWinners (RawWS.handle s e)).
Proof.
  intros He H.
  destruct e as [| |st|n l|m| | |w| |m g i|w|d|id| |t]; simpl;
    try discriminate He; try exact H; try (constructor; fail).
  - destruct (has_card (cardId d) (potentialWinners s)) eqn:E; simpl;
      [exact H | now apply distinct_cards_add].
  - now apply distinct_cards_drop.
Qed.

(** X1: as long as no snapshot is delivered, the events of either provider
    keep the pending claims pairwise distinct by [cardId]. *)
Theorem X1_pending_claims_stay_distinct
        (s : GameState) (es : list SocketIO.Event) (rs : list RawWS.Event) :
  distinct_cards (potentialWinners s) ->
  forallb (fun e => negb (Kind.snapshot e)) es = true ->
  forallb (fun e => negb (Kind.snapshot_raw e)) rs = true ->
  distinct_cards (potentialWinners (SocketIO.handle_all s es)) /\
  distinct_cards (potentialWinners (RawWS.handle_all s rs)).
Proof.
  intros Hs Hes Hrs. split.
  - unfold SocketIO.handle_all. revert s Hs.
    induction es as [|e es IH]; intros s Hs; simpl; [exact Hs|].
    simpl in Hes. apply andb_prop in Hes. destruct Hes as [He Hes].
    apply (IH Hes). apply socketio_step_distinct; [|exact Hs].
    now apply negb_true_iff.
  - unfold RawWS.handle_all. revert s Hs.
    induction rs as [|e rs IH]; intros s Hs; simpl; [exact Hs|].
    simpl in Hrs. apply andb_prop in Hrs. destruct Hrs as [He Hrs].
    apply (IH Hrs). apply rawws_step_distinct; [|exact Hs].
    now apply negb_true_iff.
Qed.

Lemma X1_pending_claims_stay_distinct_witness :
  distinct_cards
    (potentialWinners
       (SocketIO.handle_all initialGameState
          [SocketIO.PotentialWinnerEv Sample.ana;
           SocketIO.PotentialWinnerEv Sample.luis;
           SocketIO.PotentialWinnerEv Sample.ana;
           SocketIO.WinnerRejected "card-2";
           SocketIO.PotentialWinnerEv Sample.luis])).
Proof.
  apply (X1_pending_claims_stay_distinct initialGameState
           [SocketIO.PotentialWinnerEv Sample.ana;
            SocketIO.PotentialWinnerEv Sample.luis;
            SocketIO.PotentialWinnerEv Sample.ana;
            SocketIO.WinnerRejected "card-2";
            SocketIO.PotentialWinnerEv Sample.luis] []).
  - constructor.
  - reflexivity.
  - reflexivity.
Defined.

(** A snapshot is taken as it comes: one that lists the same card twice
    puts the duplicate into the state. *)
Example snapshot_can_duplicate_claims :
  potentialWinners
    (SocketIO.handle initialGameState
       (SocketIO.GameStateEv
          (Some (mkSnapshot None None None None None
                   (Some [Sample.ana; Sample.ana]) None None None None None
                   None))))
  = [Sample.ana; Sample.ana].
Proof. reflexivity. Qed.

(** ** The current number *)

Lemma last_called_app (ns : list Z) (n : Z) :
  last_called (ns ++ [n]) = Some n.
Proof.
  unfold last_called. rewrite map_app. simpl. apply last_last.
Qed.

(** X2: in the socket.io provider, as long as no snapshot and no
    [numberUncalled] is delivered, [currentNumber] is the last entry of
    [calledNumbers], and [null] when nothing is called. *)
Theorem X2_currentNumber_is_last_called
        (s : GameState) (es : list SocketIO.Event) :
  currentNumber s = last_called (calledNumbers s) ->
  forallb (fun e => negb (Kind.snapshot e || Kind.uncall e)) es = true ->
  currentNumber (SocketIO.handle_all s es)
  = last_called (calledNumbers (SocketIO.handle_all s es)).
Proof.
  unfold SocketIO.handle_all. revert s.
  induction es as [|e es IH]; intros s Hs Hes; simpl; [exact Hs|].
  simpl in Hes. apply andb_prop in Hes. destruct Hes as [He Hes].
  apply (IH _ ); [|exact Hes].
  destruct e as [st|n|n c l|m|m i| | |w| |w|d|id]; simpl; try discriminate He;
    try exact Hs; try reflexivity.
  - now rewrite last_called_app.
  - destruct (has_card (cardId d) (potentialWinners s)); exact Hs.
Qed.

Lemma X2_currentNumber_is_last_called_witness :
  currentNumber
    (SocketIO.handle_all initialGameState
       [SocketIO.GameStarted None; SocketIO.NumberCalled 17;
        SocketIO.GamePaused; SocketIO.GameResumed; SocketIO.NumberCalled 4])
  = last_called
      (calledNumbers
         (SocketIO.handle_all initialGameState
            [SocketIO.GameStarted None; SocketIO.NumberCalled 17;
             SocketIO.GamePaused; SocketIO.GameResumed;
             SocketIO.NumberCalled 4])).
Proof.
  apply (X2_currentNumber_is_last_called initialGameState
           [SocketIO.GameStarted None; SocketIO.NumberCalled 17;
            SocketIO.GamePaused; SocketIO.GameResumed; SocketIO.NumberCalled 4]);
    reflexivity.
Defined.

(** ** Taking a call back *)






(** ** Purchases are closed only during a game *)

Lemma socketio_step_closed_in_game (s : GameState) (e : SocketIO.Event) :
  Kind.snapshot e = false -> closed_in_game s ->
  closed_in_game (SocketIO.handle s e).
Proof.
  unfold closed_in_game, HomeView.canPurchase, HomeView.gameInProgress.
  intros He H.
  destruct e as [st|n|n c l|m|m i| | |w| |w|d|id]; simpl; try discriminate He;
    try exact H; try reflexivity; try discriminate.
  destruct (has_card (cardId d) (potentialWinners s)); exact H.
Qed.

Lemma rawws_step_closed_in_game (s : GameState) (e : RawWS.Event) :
  Kind.snapshot_raw e = false -> closed_in_game s ->
  closed_in_game (RawWS.handle s e).
Proof.
  unfold closed_in_game, HomeView.canPurchase, HomeView.gameInProgress.
  intros He H.
  destruct e as [| |st|n l|m| | |w| |m g i|w|d|id| |t]; simpl;
    try discriminate He; try exact H; try reflexivity; try discriminate.
  destruct (has_card (cardId d) (potentialWinners s)); exact H.
Qed.

(** X4: starting from the initial state and with no snapshot delivered,
    whenever the page sees purchases closed ([canPurchase] false) a game is
    in progress ([playing] or [paused]), in both providers; so the notice
    shown for [gameInProgress && !canPurchase] appears exactly when the
    purchase section is disabled. *)
Theorem X4_purchases_closed_only_in_game
        (es : list SocketIO.Event) (rs : list RawWS.Event) :
  forallb (fun e => negb (Kind.snapshot e)) es = true ->
  forallb (fun e => negb (Kind.snapshot_raw e)) rs = true ->
  let s := SocketIO.handle_all initialGameState es in
  let r := RawWS.handle_all initialGameState rs in
  (HomeView.canPurchase s = false -> HomeView.gameInProgress s = true) /\
  (HomeView.canPurchase r = false -> HomeView.gameInProgress r = true) /\
  (HomeView.gameInProgress s && negb (HomeView.canPurchase s))%bool
  = negb (HomeView.canPurchase s).
Proof.
  intros Hes Hrs s r.
  assert (Hs : closed_in_game s).
  { unfold s, SocketIO.handle_all.
    assert (H0 : closed_in_game initialGameState) by (intro H; discriminate H).
    revert H0. generalize initialGameState as s0.
    induction es as [|e es IH]; intros s0 H0; simpl; [exact H0|].
    simpl in Hes. apply andb_prop in Hes. destruct Hes as [He Hes].
    apply (IH Hes). apply socketio_step_closed_in_game; [|exact H0].
    now apply negb_true_iff. }
  assert (Hr : closed_in_game r).
  { unfold r, RawWS.handle_all.
    assert (H0 : closed_in_game initialGameState) by (intro H; discriminate H).
    revert H0. generalize initialGameState as s0.
    induction rs as [|e rs IH]; intros s0 H0; simpl; [exact H0|].
    simpl in Hrs. apply andb_prop in Hrs. destruct Hrs as [He Hrs].
    apply (IH Hrs). apply rawws_step_closed_in_game; [|exact H0].
    now apply negb_true_iff. }
  split; [exact Hs|]. split; [exact Hr|].
  destruct (HomeView.canPurchase s) eqn:E; simpl.
  - apply andb_false_r.
  - rewrite (Hs E). reflexivity.
Qed.

Lemma X4_purchases_closed_only_in_game_witness :
  HomeView.canPurchase
    (SocketIO.handle_all initialGameState
       [SocketIO.GameStarted None; SocketIO.GamePaused]) = false /\
  HomeView.gameInProgress
    (SocketIO.handle_all initialGameState
       [SocketIO.GameStarted None; SocketIO.GamePaused]) = true.
Proof.
  split; [reflexivity|].
  apply (proj1 (X4_purchases_closed_only_in_game
                  [SocketIO.GameStarted None; SocketIO.GamePaused] []
                  eq_refl eq_refl)).
  reflexivity.
Defined.

(** ** Teardown *)

Lemma advance_nothing_pending callback d (rt : Runtime) :
  timers rt = [] -> gameState (advance callback d rt) = gameState rt.
Proof.
  intro H. unfold advance. rewrite H. reflexivity.
Qed.

(** X5: unmounting the socket.io provider in any reachable state leaves no
    auto-hide timer pending and the ref empty, so the game state can no
    longer change with time. *)
Theorem X5_socketio_cleanup_clears_timer
        (acts : list SocketIO.Action) (d : nat) :
  let rt := socketio_cleanup (SocketIO.run acts initialRuntime) in
  timers rt = [] /\
  continueMessageTimeoutRef rt = None /\
  gameState rt = gameState (SocketIO.run acts initialRuntime) /\
  gameState (SocketIO.tick d rt) = gameState rt.
Proof.
  intro rt.
  assert (Ht : timers rt = [] /\ continueMessageTimeoutRef rt = None /\
               gameState rt = gameState (SocketIO.run acts initialRuntime)).
  { unfold rt. pose proof (single_timer_reachable acts) as Hinv.
    destruct (SocketIO.run acts initialRuntime) as [gs r ts nid c conn ob rc].
    unfold socketio_cleanup.
    destruct Hinv as [H | [[n D] [H Hr]]]; simpl in *; subst.
    - destruct r; repeat split.
    - simpl. rewrite Nat.eqb_refl. repeat split. }
  destruct Ht as (Ht & Hr & Hg). repeat split; try assumption.
  now apply advance_nothing_pending.
Qed.

Section RawAutoHide.

Import RawRun.

Lemma raw_tick_idle gs r nid c conn ob rc d :
  tick d (mkRuntime gs r [] nid c conn ob rc)
  = mkRuntime gs r [] nid (c + d) conn ob rc.
Proof. reflexivity. Qed.

Lemma raw_tick_not_due gs r n D nid c conn ob rc d :
  (c + d < D)%nat ->
  tick d (mkRuntime gs r [mkTimer n D] nid c conn ob rc)
  = mkRuntime gs r [mkTimer n D] nid (c + d) conn ob rc.
Proof.
  intro H. unfold tick, advance, is_due. simpl.
  destruct (Nat.leb_spec D (c + d)); [lia|]. reflexivity.
Qed.

(** The raw provider's callback hides the message and keeps the ref. *)
Lemma raw_tick_due gs r n D nid c conn ob rc d :
  (D <= c + d)%nat ->
  tick d (mkRuntime gs r [mkTimer n D] nid c conn ob rc)
  = mkRuntime (set_showContinueMessage false gs) r [] nid (c + d) conn ob rc.
Proof.
  intro H. unfold tick, advance, is_due. simpl.
  destruct (Nat.leb_spec D (c + d)); [|lia]. reflexivity.
Qed.

Lemma raw_single_timer_tick d rt : single_timer rt -> single_timer (tick d rt).
Proof.
  destruct rt as [gs r ts nid c conn ob rc].
  intros [H | [[n D] [H Hr]]]; simpl in H; subst ts.
  - rewrite raw_tick_idle. now left.
  - destruct (Nat.leb_spec D (c + d)).
    + rewrite raw_tick_due by assumption. now left.
    + rewrite raw_tick_not_due by assumption. right. now exists (mkTimer n D).
Qed.

Lemma raw_reject_replaces_timer id rt :
  single_timer rt ->
  timers (RawWS.handleMessage (RawWS.WinnerRejected id) rt)
  = [mkTimer (nextTimerId rt) (clock rt + 5000)] /\
  continueMessageTimeoutRef (RawWS.handleMessage (RawWS.WinnerRejected id) rt)
  = Some (nextTimerId rt) /\
  clock (RawWS.handleMessage (RawWS.WinnerRejected id) rt) = clock rt /\
  gameState (RawWS.handleMessage (RawWS.WinnerRejected id) rt)
  = RawWS.handle (gameState rt) (RawWS.WinnerRejected id).
Proof.
  destruct rt as [gs r ts nid c conn ob rc].
  intros [H | [[n D] [H Hr]]]; simpl in H; subst ts.
  - destruct r; repeat split.
  - simpl in Hr. subst r. unfold RawWS.handleMessage. simpl.
    rewrite Nat.eqb_refl. repeat split.
Qed.

Lemma raw_single_timer_message e rt :
  single_timer rt -> single_timer (RawWS.handleMessage e rt).
Proof.
  intro H.
  destruct e as [| |st|n l|m| | |w| |m g i|w|d|id| |t]; try exact H.
  - unfold RawWS.handleMessage, RawWS.sendMessage.
    destruct (connected rt); exact H.
  - destruct (raw_reject_replaces_timer id rt H) as (Ht & Hr & _).
    right. exists (mkTimer (nextTimerId rt) (clock rt + 5000)). now split.
Qed.

Lemma raw_single_timer_run acts rt :
  single_timer rt -> single_timer (run acts rt).
Proof.
  revert rt. induction acts as [|a acts IH]; intros rt H; [exact H|].
  simpl. apply IH. destruct a; simpl.
  - now apply raw_single_timer_message.
  - now apply raw_single_timer_tick.
Qed.

Lemma raw_waits_with_pending ds :
  forall gs r n D nid c conn ob rc,
    (c < D)%nat ->
    let rt := mkRuntime gs r [mkTimer n D] nid c conn ob rc in
    let rt' := run (map Wait ds) rt in
    ((c + list_sum ds < D)%nat ->
       gameState rt' = gs /\ timers rt' = [mkTimer n D]) /\
    ((D <= c + list_sum ds)%nat ->
       gameState rt' = set_showContinueMessage false gs /\ timers rt' = []).
Proof.
  induction ds as [|d ds IH]; intros gs r n D nid c conn ob rc Hc; simpl.
  - split; intro H; [|lia]. now split.
  - destruct (Nat.leb_spec D (c + d)) as [Hd | Hd].
    + rewrite raw_tick_due by assumption. split; intro H; [lia|].
      clear IH H. generalize (c + d)%nat as c'.
      induction ds as [|d' ds IH']; intro c'; simpl; [now split|].
      rewrite raw_tick_idle. apply IH'.
    + rewrite raw_tick_not_due by assumption.
      specialize (IH gs r n D nid (c + d)%nat conn ob rc Hd).
      cbv zeta in IH. destruct IH as [IH1 IH2].
      split; intro H.
      * apply IH1. lia.
      * apply IH2. lia.
Qed.

End RawAutoHide.

Lemma raw_waits_after_reject (rt' : Runtime) (n T delay : nat) :
  (0 < delay)%nat ->
  timers rt' = [mkTimer n (T + delay)] ->
  clock rt' = T ->
  forall ds,
    let w := RawRun.run (map RawRun.Wait ds) rt' in
    ((list_sum ds < delay)%nat -> gameState w = gameState rt') /\
    ((delay <= list_sum ds)%nat ->
       gameState w = set_showContinueMessage false (gameState rt') /\
       timers w = []).
Proof.
  intros Hpos Ht Hc ds.
  destruct rt' as [gs r ts nid c conn ob rc]. simpl in Ht, Hc |- *.
  subst ts. subst c.
  assert (Hlt : (T < T + delay)%nat) by lia.
  pose proof (raw_waits_with_pending ds gs r n (T + delay)%nat nid T
                conn ob rc Hlt) as Hw.
  cbv zeta in Hw. destruct Hw as [Hw1 Hw2].
  split; intro H.
  - destruct Hw1 as (G & _); [lia|]. exact G.
  - apply Hw2. lia.
Qed.

(** X6: in the raw-WebSocket provider, in every reachable state, a
    [winnerRejected] message leaves exactly one auto-hide timer pending,
    due 5000 ms later; with only time passing the message is shown until
    then and hidden afterwards. At most one such timer is ever pending,
    and the cleanup of the provider leaves none. *)
Theorem X6_rawws_autohide (acts : list RawRun.Action) (id : CardId) :
  let rt := RawRun.run acts initialRuntime in
  let rt' := RawWS.handleMessage (RawWS.WinnerRejected id) rt in
  timers rt' = [mkTimer (nextTimerId rt) (clock rt + 5000)] /\
  showContinueMessage (gameState rt') = true /\
  lastRejectedWinner (gameState rt') = Some id /\
  (forall ds, (list_sum ds < 5000)%nat ->
     showContinueMessage
       (gameState (RawRun.run (map RawRun.Wait ds) rt')) = true) /\
  (forall ds, (5000 <= list_sum ds)%nat ->
     showContinueMessage
       (gameState (RawRun.run (map RawRun.Wait ds) rt')) = false /\
     timers (RawRun.run (map RawRun.Wait ds) rt') = []) /\
  (List.length (timers rt) <= 1)%nat /\
  timers (RawRun.cleanup rt) = [] /\ timers (RawRun.cleanup rt') = [].
Proof.
  intros rt rt'.
  assert (Hinv : single_timer rt).
  { apply raw_single_timer_run. now left. }
  assert (Hinv' : single_timer rt') by now apply raw_single_timer_message.
  destruct (raw_reject_replaces_timer id rt Hinv) as (Ht & Hr & Hc & Hg).
  fold rt' in Ht, Hr, Hc, Hg.
  assert (Hshow : showContinueMessage (gameState rt') = true)
    by (rewrite Hg; reflexivity).
  assert (Hclean : forall x, single_timer x -> timers (RawRun.cleanup x) = []).
  { intros [gs r ts nid c conn ob rc] [H | [[n D] [H Hx]]]; simpl in *; subst.
    - destruct r; reflexivity.
    - unfold RawRun.cleanup. simpl. now rewrite Nat.eqb_refl. }
  pose proof (raw_waits_after_reject rt' (nextTimerId rt) (clock rt) 5000
                (Nat.lt_0_succ _) Ht Hc) as Hwaits.
  split; [exact Ht|]. split; [exact Hshow|].
  split; [rewrite Hg; reflexivity|].
  split; [|split; [|split; [|split]]].
  - intros ds Hds. destruct (Hwaits ds) as [Hw _]. now rewrite (Hw Hds).
  - intros ds Hds. destruct (Hwaits ds) as [_ Hw].
    destruct (Hw Hds) as [G T]. rewrite G. now split.
  - destruct Hinv as [H | [t [H _]]]; rewrite H; simpl; lia.
  - now apply Hclean.
  - now apply Hclean.
Qed.

Lemma X6_rawws_autohide_witness :
  showContinueMessage
    (gameState
       (RawRun.run (map RawRun.Wait [4000%nat; 1000%nat])
          (RawWS.handleMessage (RawWS.WinnerRejected "card-1")
             (RawRun.run
                [RawRun.Deliver (RawWS.PotentialWinnerEv Sample.ana)]
                initialRuntime))))
  = false.
Proof.
  apply (proj1 (proj2 (proj2 (proj2 (proj2
           (X6_rawws_autohide
              [RawRun.Deliver (RawWS.PotentialWinnerEv Sample.ana)]
              "card-1"))))) [4000%nat; 1000%nat]).
  simpl. lia.
Defined.

(** ** Snapshots *)

Lemma or_obj_idem {A : Type} (a : option A) (b : A) :
  Js.or_obj a (Js.or_obj a b) = Js.or_obj a b.
Proof. now destruct a. Qed.

Lemma or_obj_present {A : Type} (a : option A) (b c : A) :
  a <> None -> Js.or_obj a b = Js.or_obj a c.
Proof. destruct a; [reflexivity | congruence]. Qed.

Lemma socketio_snapshot_fields (s : GameState) (st : Snapshot) :
  SocketIO.handle s (SocketIO.GameStateEv (Some st))
  = mkGameState
      (Js.or_obj (snap_status st) (status s))
      (Js.or_obj (snap_gameMode st) (gameMode s))
      (Js.or_obj (snap_calledNumbers st) (calledNumbers s))
      (Js.or_obj (snap_currentNumber st) (currentNumber s))
      (Js.or_obj (snap_winner st) (winner s))
      (Js.or_obj (snap_potentialWinners st) (potentialWinners s))
      (Js.or_obj (snap_canPurchase st) (canPurchase s))
      (Js.or_obj (snap_patternInfo st) (patternInfo s))
      (Js.or_obj (snap_lastRejectedWinner st) (lastRejectedWinner s))
      (Js.or_obj (snap_showContinueMessage st) (showContinueMessage s))
      (Js.or_obj (snap_cardsSold st) (cardsSold s))
      (Js.or_obj (snap_prizePool st) (prizePool s)).
Proof. reflexivity. Qed.

(** X7: in the socket.io provider a [game-state] snapshot that carries
    every key of the state replaces the state whatever it was, so two
    clients that receive it agree afterwards; a snapshot installs the
    [calledNumbers] and [potentialWinners] it carries; delivering any
    snapshot twice is the same as delivering it once, and a [null]
    snapshot changes nothing. *)
Theorem X7_socketio_snapshot_reconciles :
  (forall st s1 s2,
     Kind.complete st ->
     SocketIO.handle s1 (SocketIO.GameStateEv (Some st))
     = SocketIO.handle s2 (SocketIO.GameStateEv (Some st))) /\
  (forall st s called claims,
     snap_calledNumbers st = Some called ->
     snap_potentialWinners st = Some claims ->
     calledNumbers (SocketIO.handle s (SocketIO.GameStateEv (Some st))) = called /\
     potentialWinners (SocketIO.handle s (SocketIO.GameStateEv (Some st)))
     = claims) /\
  (forall x s,
     SocketIO.handle (SocketIO.handle s (SocketIO.GameStateEv x))
       (SocketIO.GameStateEv x)
     = SocketIO.handle s (SocketIO.GameStateEv x)) /\
  (forall s, SocketIO.handle s (SocketIO.GameStateEv None) = s).
Proof.
  split; [|split; [|split]].
  - intros st s1 s2 (H1 & H2 & H3 & H4 & H5 & H6 & H7 & H8 & H9 & H10 & H11 & H12).
    rewrite !socketio_snapshot_fields.
    rewrite (or_obj_present _ (status s1) (status s2) H1).
    rewrite (or_obj_present _ (gameMode s1) (gameMode s2) H2).
    rewrite (or_obj_present _ (calledNumbers s1) (calledNumbers s2) H3).
    rewrite (or_obj_present _ (currentNumber s1) (currentNumber s2) H4).
    rewrite (or_obj_present _ (winner s1) (winner s2) H5).
    rewrite (or_obj_present _ (potentialWinners s1) (potentialWinners s2) H6).
    rewrite (or_obj_present _ (canPurchase s1) (canPurchase s2) H7).
    rewrite (or_obj_present _ (patternInfo s1) (patternInfo s2) H8).
    rewrite (or_obj_present _ (lastRejectedWinner s1) (lastRejectedWinner s2) H9).
    rewrite (or_obj_present _ (showContinueMessage s1)
               (showContinueMessage s2) H10).
    rewrite (or_obj_present _ (cardsSold s1) (cardsSold s2) H11).
    rewrite (or_obj_present _ (prizePool s1) (prizePool s2) H12).
    reflexivity.
  - intros st s called claims Hc Hp. rewrite socketio_snapshot_fields.
    simpl. rewrite Hc, Hp. now split.
  - intros [st|] s; [|reflexivity].
    rewrite !socketio_snapshot_fields. simpl. now rewrite !or_obj_idem.
  - reflexivity.
Qed.

Lemma X7_socketio_snapshot_reconciles_witness :
  SocketIO.handle Sample.one_claim
    (SocketIO.GameStateEv
       (Some (mkSnapshot (Some playing) (Some (Some "line")) (Some [3; 9])
                (Some (Some 9)) (Some None) (Some []) (Some false)
                (Some None) (Some None) (Some false) (Some None)
                (Some None))))
  = SocketIO.handle initialGameState
      (SocketIO.GameStateEv
         (Some (mkSnapshot (Some playing) (Some (Some "line")) (Some [3; 9])
                  (Some (Some 9)) (Some None) (Some []) (Some false)
                  (Some None) (Some None) (Some false) (Some None)
                  (Some None)))).
Proof.
  apply (proj1 X7_socketio_snapshot_reconciles).
  unfold Kind.complete. simpl. repeat split; discriminate.
Defined.






(** ** The guarded admin calls of the live page *)

Lemma includes_app_self (ns : list Z) (n : Z) :
  Js.includes (ns ++ [n]) n = true.
Proof.
  unfold Js.includes. rewrite existsb_app. simpl.
  rewrite Z.eqb_refl. now rewrite orb_true_r.
Qed.

Lemma includes_drop_number (ns : list Z) (n : Z) :
  Js.includes (drop_number n ns) n = false.
Proof.
  unfold Js.includes, drop_number.
  induction ns as [|m ns IH]; simpl; [reflexivity|].
  destruct (Z.eqb_spec m n) as [-> | Hne]; simpl; [exact IH|].
  rewrite IH. destruct (Z.eqb_spec n m); [congruence | reflexivity].
Qed.

(** X9: [handleCallNumber] sends [admin:call-number] only for an admin,
    while the game is playing, for a number that is not yet called, and
    never touches the game state; once the [number-called] echo has been
    reduced and the page rendered again, the same number is not sent a
    second time. [handleUncallNumber] likewise stops sending once the
    [number-uncalled] echo has removed the number. *)
Theorem X9_live_page_calls_each_number_once
        (isAdmin : bool) (rt : Runtime) (n : Z) (c : option Z) :
  let refs := BingoLive.render isAdmin (gameState rt) in
  gameState (BingoLive.handleCallNumber refs n rt) = gameState rt /\
  (outbox (BingoLive.handleCallNumber refs n rt) <> outbox rt ->
   isAdmin = true /\ status (gameState rt) = playing /\
   ~ In n (calledNumbers (gameState rt)) /\
   outbox (BingoLive.handleCallNumber refs n rt)
   = (outbox rt ++ [mkOutbound "admin:call-number" (PNumber n)])%list) /\
  (let rt1 := SocketIO.on_event (SocketIO.NumberCalled n) rt in
   BingoLive.handleCallNumber
     (BingoLive.render isAdmin (gameState rt1)) n rt1 = rt1) /\
  (let rt2 := SocketIO.on_event (SocketIO.NumberUncalled n c None) rt in
   BingoLive.handleUncallNumber
     (BingoLive.render isAdmin (gameState rt2)) n rt2 = rt2).
Proof.
  intro refs. unfold refs, BingoLive.handleCallNumber,
    BingoLive.handleUncallNumber, BingoLive.render. simpl.
  split; [|split; [|split]].
  - destruct isAdmin; simpl; [|reflexivity].
    destruct (Status_eqb (status (gameState rt)) playing); [|reflexivity].
    destruct (Js.includes (calledNumbers (gameState rt)) n); simpl;
      [reflexivity|].
    unfold SocketIO.callNumber, SocketIO.emit.
    destruct (connected rt); reflexivity.
  - destruct isAdmin; simpl; [|congruence].
    destruct (status (gameState rt)) eqn:Hst; simpl; try congruence.
    destruct (Js.includes (calledNumbers (gameState rt)) n) eqn:Hinc; simpl;
      [congruence|].
    unfold SocketIO.callNumber, SocketIO.emit.
    destruct (connected rt); simpl; [|congruence].
    intros _. repeat split.
    intro Hin. unfold Js.includes in Hinc.
    assert (existsb (Z.eqb n) (calledNumbers (gameState rt)) = true).
    { apply existsb_exists. exists n. split; [exact Hin | apply Z.eqb_refl]. }
    congruence.
  - rewrite includes_app_self. simpl.
    destruct (isAdmin && Status_eqb (status (gameState rt)) playing)%bool;
      reflexivity.
  - rewrite includes_drop_number.
    destruct (isAdmin &&
              (Status_eqb (status (gameState rt)) playing
               || Status_eqb (status (gameState rt)) paused))%bool;
      reflexivity.
Qed.

Lemma X9_live_page_calls_each_number_once_witness :
  outbox
    (BingoLive.handleCallNumber
       (BingoLive.render true
          (gameState
             (SocketIO.on_event (SocketIO.GameStarted None) initialRuntime)))
       17 (SocketIO.on_event (SocketIO.GameStarted None) initialRuntime))
  = [mkOutbound "admin:call-number" (PNumber 17)].
Proof.
  apply (proj1 (proj2 (X9_live_page_calls_each_number_once true
                         (SocketIO.on_event (SocketIO.GameStarted None)
                            initialRuntime) 17 None))).
  discriminate.
Defined.


(* ===================================================================== *)
(** * Further properties of the purchase flow *)
(* ===================================================================== *)

(** ** The quantity selector *)

Lemma clickButton_allowed (i : nat) (q : Z) :
  Js.includes config.fibonacciQuantities q = true ->
  Js.includes config.fibonacciQuantities
    (CardQuantitySelector.clickButton i q) = true.
Proof.
  intro H. unfold CardQuantitySelector.clickButton.
  destruct (nth_error config.fibonacciQuantities i) as [num|] eqn:E;
    [|exact H].
  apply nth_error_In in E. unfold Js.includes.
  apply existsb_exists. exists num. split; [exact E | apply Z.eqb_refl].
Qed.

Lemma selected_allowed (clicks : list nat) :
  Js.includes config.fibonacciQuantities
    (CardQuantitySelector.selected clicks) = true.
Proof.
  unfold CardQuantitySelector.selected.
  assert (H0 : Js.includes config.fibonacciQuantities
                 CardQuantitySelector.initialQuantity = true) by reflexivity.
  revert H0. generalize CardQuantitySelector.initialQuantity as q.
  induction clicks as [|i clicks IH]; intros q H0; simpl; [exact H0|].
  apply IH. now apply clickButton_allowed.
Qed.

Lemma allowed_quantity_range (q : Z) :
  Js.includes config.fibonacciQuantities q = true ->
  1 <= q <= config.maxCardsPerPurchase.
Proof.
  intro H. apply includes_fibonacciQuantities in H.
  unfold config.maxCardsPerPurchase. simpl in H.
  repeat (destruct H as [H | H]; [lia|]). contradiction.
Qed.

(** X10: whatever buttons of the grid are clicked, the quantity the
    selector hands to [onPurchase] is one of the allowed quantities,
    between 1 and [maxCardsPerPurchase]. [handlePurchase] therefore never
    answers it with the invalid-quantity error, and for a logged-in user
    with a ready wallet and no purchase in flight the purchase starts: the
    ref and [purchasing] are set, the error is cleared and the balance
    check is awaited. *)
Theorem X10_selector_quantity_is_allowed
        (clicks : list nat) (r : Home.Render) (w : x402.Window)
        (s : Home.State) :
  let q := CardQuantitySelector.selected clicks in
  (Js.includes config.fibonacciQuantities q = true /\
   1 <= q <= config.maxCardsPerPurchase) /\
  (Home.error s <> Some Home.InvalidQuantity ->
   Home.error (fst (Home.handlePurchase r w q s)) <> Some Home.InvalidQuantity) /\
  (Home.isPurchasingRef s = false -> Home.isLoggedIn r = true ->
   x402.hasWalletProvider w = true -> Home.isWalletReady r = true ->
   Home.handlePurchase r w q s
   = (Home.setPaymentStatus (Some "Verificando balance...")
        (Home.setError None
           (Home.setPurchasing true (Home.set_isPurchasingRef true s))),
      Home.Suspended (Home.AwaitBalance r q))).
Proof.
  intro q. pose proof (selected_allowed clicks) as Hq. fold q in Hq.
  pose proof (allowed_quantity_range q Hq) as Hrange.
  split; [now split|]. split.
  - intro Herr. unfold Home.handlePurchase. rewrite Hq. simpl.
    destruct (Home.isPurchasingRef s); [exact Herr|].
    destruct (Home.isLoggedIn r); simpl; [|exact Herr].
    destruct (Z.eqb q 0 || Z.ltb q 1)%bool; simpl; [exact Herr|].
    destruct (x402.hasWalletProvider w); simpl; [|discriminate].
    destruct (Home.isWalletReady r); simpl; discriminate.
  - intros Href Hlog Hprov Hready. unfold Home.handlePurchase.
    rewrite Href, Hlog, Hq, Hprov, Hready. simpl.
    destruct (Z.eqb_spec q 0); [lia|]. destruct (Z.ltb_spec q 1); [lia|].
    reflexivity.
Qed.

Lemma X10_selector_quantity_is_allowed_witness :
  Home.handlePurchase Sample.ready Sample.wallet_with_5_usdc
    (CardQuantitySelector.selected [4%nat; 9%nat; 2%nat]) Home.initialState
  = (Home.setPaymentStatus (Some "Verificando balance...")
       (Home.setError None
          (Home.setPurchasing true
             (Home.set_isPurchasingRef true Home.initialState))),
     Home.Suspended (Home.AwaitBalance Sample.ready 3)).
Proof.
  apply (proj2 (proj2 (X10_selector_quantity_is_allowed
                         [4%nat; 9%nat; 2%nat] Sample.ready
                         Sample.wallet_with_5_usdc Home.initialState)));
    reflexivity.
Defined.

(** ** A purchase always lets go *)

Lemma attempt_state_finally r (s : Home.State) :
  attempt_state (Home.finally_block r s) Home.Finished.
Proof.
  destruct (finally_block_releases r s) as (H1 & H2 & H3 & _).
  simpl. now repeat split.
Qed.

Lemma attempt_state_response r resp (s s1 : Home.State) (o1 : Home.Outcome) :
  Home.isPurchasingRef s = true -> Home.purchasing s = true ->
  Home.error s = None -> Home.abortTimer s = true ->
  Home.onResponse r resp s = (s1, o1) -> attempt_state s1 o1.
Proof.
  intros H1 H2 H3 H4 H. unfold Home.onResponse in H.
  split_ifs H; inversion H; subst.
  - apply attempt_state_finally.
  - simpl. now repeat split.
  - simpl. now repeat split.
Qed.

Lemma attempt_state_resume (s s1 : Home.State) pc a (o1 : Home.Outcome) :
  attempt_state s (Home.Suspended pc) ->
  Home.resume pc a s = Some (s1, o1) ->
  attempt_state s1 o1.
Proof.
  intros Hinv Hres.
  destruct pc as [r q | r q | r fpc | r | r];
    destruct a as [[b|e] | [u|e] | fa | [eb|] | [[d|]|e]];
    simpl in Hres; try discriminate;
    simpl in Hinv; destruct Hinv as (H1 & H2 & H3 & H4).
  - split_ifs Hres; inversion Hres; subst; simpl; now repeat split.
  - inversion Hres; subst; simpl; now repeat split.
  - inversion Hres; subst; simpl; now repeat split.
  - inversion Hres; subst. apply attempt_state_finally.
  - destruct fpc as [req | req | req |];
      destruct fa as [[resp|e] | [[x|]|e] | [p|e]];
      simpl in Hres; try discriminate.
    + destruct (negb (Z.eqb (x402.status resp) 402)); simpl in Hres.
      * inversion Hres as [H']. eapply attempt_state_response; eassumption.
      * inversion Hres; subst. simpl. now repeat split.
    + inversion Hres; subst. apply attempt_state_finally.
    + destruct (x402.selectPaymentInfo x) as [info|]; simpl in Hres.
      * destruct (x402.paymentAmount info) as [amt|e]; simpl in Hres;
          inversion Hres; subst;
          [simpl; now repeat split | apply attempt_state_finally].
      * inversion Hres; subst. apply attempt_state_finally.
    + inversion Hres; subst. apply attempt_state_finally.
    + inversion Hres; subst. apply attempt_state_finally.
    + inversion Hres; subst. simpl. now repeat split.
    + inversion Hres; subst. apply attempt_state_finally.
    + inversion Hres as [H']. eapply attempt_state_response; eassumption.
    + inversion Hres; subst. apply attempt_state_finally.
  - inversion Hres; subst. apply attempt_state_finally.
  - inversion Hres; subst. apply attempt_state_finally.
  - destruct (Home.cards d) as [[|c cs]|]; inversion Hres; subst;
      apply attempt_state_finally.
  - inversion Hres; subst. apply attempt_state_finally.
  - inversion Hres; subst. apply attempt_state_finally.
Qed.

Lemma attempt_state_runs (s1 s2 : Home.State) (o1 o2 : Home.Outcome) :
  Home.runs s1 o1 s2 o2 -> attempt_state s1 o1 -> attempt_state s2 o2.
Proof.
  induction 1 as [s o | s pc a s1 o1 s2 o2 Hres _ IH]; intro Hinv.
  - exact Hinv.
  - apply IH. eapply attempt_state_resume; eassumption.
Qed.

Lemma attempt_state_start r w q (s0 s1 : Home.State) (pc : Home.PC) :
  Home.abortTimer s0 = false ->
  Home.handlePurchase r w q s0 = (s1, Home.Suspended pc) ->
  attempt_state s1 (Home.Suspended pc).
Proof.
  unfold Home.handlePurchase. intros Ht H.
  split_ifs H; inversion H; subst; simpl. now repeat split.
Qed.

(** X11: a purchase started on an idle page (ref clear, no abort timer)
    holds the ref and keeps [purchasing] set for exactly as long as it is
    suspended at an [await], with no error shown meanwhile; the abort timer
    is armed from the end of the balance check on. However the purchase
    ends, the ref, [purchasing] and the abort timer are released. A call
    that stops at a guard leaves the ref clear as well. *)
Theorem X11_purchase_always_releases
        (r : Home.Render) (w : x402.Window) (q : Z)
        (s0 s1 s2 : Home.State) (o1 o2 : Home.Outcome) :
  Home.isPurchasingRef s0 = false ->
  Home.abortTimer s0 = false ->
  Home.handlePurchase r w q s0 = (s1, o1) ->
  Home.runs s1 o1 s2 o2 ->
  (o2 = Home.Finished ->
   Home.isPurchasingRef s2 = false /\ Home.abortTimer s2 = false /\
   (o1 <> Home.Finished -> Home.purchasing s2 = false)) /\
  (forall pc, o2 = Home.Suspended pc ->
   Home.isPurchasingRef s2 = true /\ Home.purchasing s2 = true /\
   Home.error s2 = None /\
   (Home.abortTimer s2 = false <-> exists r' q', pc = Home.AwaitBalance r' q')).
Proof.
  intros Href Ht Hstart Hruns.
  destruct o1 as [|pc1].
  - apply runs_finished in Hruns. destruct Hruns as [-> ->].
    split; [|discriminate]. intros _.
    unfold Home.handlePurchase in Hstart. rewrite Href in Hstart.
    split_ifs Hstart; inversion Hstart; subst; simpl;
      repeat split; try assumption; congruence.
  - pose proof (attempt_state_start _ _ _ _ _ _ Ht Hstart) as H1.
    pose proof (attempt_state_runs _ _ _ _ Hruns H1) as H2.
    split.
    + intros ->. simpl in H2. destruct H2 as (A & B & C).
      repeat split; intros; assumption.
    + intros pc ->.
      destruct pc as [r' q' | r' q' | r' fpc | r' | r']; simpl in H2;
        destruct H2 as (A & B & C & D); repeat split; try assumption;
        try (intros; assumption);
        try (intro; now exists r', q');
        try (intro H; rewrite D in H; discriminate);
        try (intros [x [y H]]; discriminate).
Qed.

Lemma X11_purchase_always_releases_witness :
  Home.isPurchasingRef
    (Home.mkState false false (Some Home.PaymentRejected) None [] false false
       [Home.purchaseRequest Sample.ready 5;
        x402.with_payment (Home.purchaseRequest Sample.ready 5) Sample.signed])
  = false.
Proof.
  assert (Hruns :
    Home.runs
      (fst (Home.handlePurchase Sample.ready Sample.wallet_with_5_usdc 5
              Home.initialState))
      (snd (Home.handlePurchase Sample.ready Sample.wallet_with_5_usdc 5
              Home.initialState))
      (Home.mkState false false (Some Home.PaymentRejected) None [] false
         false
         [Home.purchaseRequest Sample.ready 5;
          x402.with_payment (Home.purchaseRequest Sample.ready 5)
            Sample.signed])
      Home.Finished).
  { apply (feed_runs Sample.refused_twice). reflexivity. }
  destruct (X11_purchase_always_releases Sample.ready
              Sample.wallet_with_5_usdc 5 Home.initialState _ _ _ _
              eq_refl eq_refl eq_refl Hruns) as [Hfin _].
  destruct (Hfin eq_refl) as [Href _]. exact Href.
Defined.

(** ** The balance pre-check *)

Lemma getUSDCBalance_shape (w : x402.Window) (b : x402.Balance) :
  x402.getUSDCBalance w = Resolved b ->
  b = x402.skippedBalance \/
  exists v, b = x402.mkBalance v (x402.ToFixed2 v) (x402.AtLeast v) false.
Proof.
  unfold x402.getUSDCBalance.
  destruct (x402.ethereum w) as [eth|]; [|intro H; inversion H; now left].
  destruct (x402.queryBalance eth (x402.selectedNetwork w)) as [b'|e] eqn:E;
    simpl; intro H; inversion H; subst; [|now left].
  unfold x402.queryBalance in E.
  destruct (x402.eth_accounts eth) as [[[|a rest]|]|e]; simpl in E;
    try (inversion E; now left).
  destruct (x402.eth_chainId eth) as [c|e]; simpl in E; [|discriminate].
  destruct (x402.differs _ _); [inversion E; now left|].
  destruct (x402.eth_call eth _ _) as [res|e]; simpl in E; [|discriminate].
  destruct (JsString.BigInt _) as [v|e]; simpl in E; [|discriminate].
  inversion E. right. now exists v.
Qed.

(** X12: the pre-check stops a purchase exactly when a balance was really
    read and is below the cost [quantity * cardPrice]: then nothing is
    sent, the insufficient-balance message is shown and the ref and
    [purchasing] are released. In every other case, a balance that covers
    the cost or a skipped check, the purchase goes on to the payment. *)
Theorem X12_precheck_blocks_only_on_low_balance
        (w : x402.Window) (b : x402.Balance) (r : Home.Render) (q : Z)
        (s : Home.State) :
  x402.getUSDCBalance w = Resolved b ->
  let cost := q * Home.cardPrice r in
  (x402.skipped b = false /\ x402.balance b < cost ->
   exists s',
     Home.resume (Home.AwaitBalance r q) (Home.GotBalance (Resolved b)) s
     = Some (s', Home.Finished) /\
     Home.requests s' = Home.requests s /\
     Home.error s'
     = Some (Home.InsufficientBalance cost (x402.ToFixed2 (x402.balance b))) /\
     Home.isPurchasingRef s' = false /\ Home.purchasing s' = false) /\
  (x402.skipped b = true \/ cost <= x402.balance b ->
   Home.resume (Home.AwaitBalance r q) (Home.GotBalance (Resolved b)) s
   = Some (Home.startPayment r q s)).
Proof.
  intros Hb cost.
  destruct (getUSDCBalance_shape w b Hb) as [-> | [v ->]]; simpl.
  - split; [intros [H _]; discriminate | reflexivity].
  - fold cost. split.
    + intros [_ Hlow]. unfold Z.geb.
      destruct (Z.compare_spec v cost) as [Heq | Hlt | Hgt]; try lia.
      simpl. eexists. split; [reflexivity|]. repeat split.
    + intros [H | Hge]; [discriminate|]. unfold Z.geb.
      destruct (Z.compare_spec v cost) as [Heq | Hlt | Hgt]; try lia;
        reflexivity.
Qed.

Lemma X12_precheck_blocks_only_on_low_balance_witness :
  exists s',
    Home.resume (Home.AwaitBalance Sample.ready 34)
      (Home.GotBalance
         (Resolved (x402.mkBalance 200000 (x402.ToFixed2 200000)
                      (x402.AtLeast 200000) false)))
      Home.initialState
    = Some (s', Home.Finished) /\
    Home.requests s' = Home.requests Home.initialState /\
    Home.error s'
    = Some (Home.InsufficientBalance (34 * Home.cardPrice Sample.ready)
              (x402.ToFixed2 200000)) /\
    Home.isPurchasingRef s' = false /\ Home.purchasing s' = false.
Proof.
  apply (proj1 (X12_precheck_blocks_only_on_low_balance
                  (x402.mkWindow
                     (Some (x402.mkEthereum
                              (Resolved (Some ["0x1111"]))
                              (Resolved "0xa86a")
                              (fun _ _ => Resolved (Some "0x30d40"))))
                     "avalanche")
                  (x402.mkBalance 200000 (x402.ToFixed2 200000)
                     (x402.AtLeast 200000) false)
                  Sample.ready 34 Home.initialState eq_refl)).
  split; [reflexivity | reflexivity].
Defined.

(** ** How a purchase can end *)

Lemma feed_snoc (answers : list Home.Answer) (a : Home.Answer) :
  forall (s : Home.State) (o : Home.Outcome),
    Home.feed (answers ++ [a]) s o
    = match Home.feed answers s o with
      | Some (s1, Home.Suspended pc) => Home.resume pc a s1
      | _ => None
      end.
Proof.
  induction answers as [|x rest IH]; intros s o; simpl.
  - destruct o as [|pc]; [reflexivity|].
    destruct (Home.resume pc a s) as [[s1 o1]|]; reflexivity.
  - destruct o as [|pc]; [reflexivity|].
    destruct (Home.resume pc x s) as [[s1 o1]|]; [apply IH | reflexivity].
Qed.

Lemma resume_keeps_cards pc a (s s' : Home.State) (pc' : Home.PC) :
  Home.resume pc a s = Some (s', Home.Suspended pc') ->
  Home.purchasedCards s' = Home.purchasedCards s.
Proof.
  destruct pc as [r q | r q | r fpc | r | r];
    destruct a as [[b|e] | [u|e] | fa | [eb|] | [[d|]|e]]; simpl;
    try discriminate.
  - intro H. split_ifs H; inversion H; reflexivity.
  - intro H. inversion H; reflexivity.
  - intro H. inversion H. reflexivity.
  - destruct (x402.paymentFetch_resume fpc fa) as [step|]; [|discriminate].
    intro H. inversion H as [H'].
    destruct step as [resp | e | [req | | info amt] fpc']; simpl in H';
      unfold Home.onResponse in H'; split_ifs H'; inversion H'; reflexivity.
Qed.

Lemma feed_keeps_cards (answers : list Home.Answer) :
  forall (s s' : Home.State) (o : Home.Outcome) (pc' : Home.PC),
    Home.feed answers s o = Some (s', Home.Suspended pc') ->
    Home.purchasedCards s' = Home.purchasedCards s.
Proof.
  induction answers as [|a rest IH]; intros s s' o pc' H; simpl in H.
  - now inversion H.
  - destruct o as [|pc]; [discriminate|].
    destruct (Home.resume pc a s) as [[s1 [|pc1]]|] eqn:E; try discriminate.
    + destruct rest; discriminate.
    + rewrite (IH _ _ _ _ H). eapply resume_keeps_cards. exact E.
Qed.

Lemma finally_block_keeps r (s : Home.State) :
  Home.purchasedCards (Home.finally_block r s) = Home.purchasedCards s.
Proof. unfold Home.finally_block. destruct (Home.saw_no_success r); reflexivity. Qed.

Lemma finishing_step pc a (s s' : Home.State) :
  Home.error s = None ->
  Home.resume pc a s = Some (s', Home.Finished) ->
  (forall d, a = Home.GotPurchaseData (Resolved (Some d)) ->
     Home.error s' = None /\
     Home.purchasedCards s'
     = match Home.cards d with
       | Some (c :: cs) => c :: cs
       | _ => Home.purchasedCards s
       end) /\
  ((forall d, a <> Home.GotPurchaseData (Resolved (Some d))) ->
   Home.error s' <> None /\ Home.purchasedCards s' = Home.purchasedCards s).
Proof.
  intros Herr Hres.
  assert (Hthrow : forall r e (x : Home.State),
             Home.error (Home.finally_block r (Home.catch_block e x)) <> None /\
             Home.purchasedCards (Home.finally_block r (Home.catch_block e x))
             = Home.purchasedCards x).
  { intros r e x. destruct (finally_block_releases r (Home.catch_block e x))
      as (_ & _ & _ & He). rewrite He, finally_block_keeps.
    split; [discriminate | reflexivity]. }
  assert (Hresp : forall r resp (x x' : Home.State),
             Home.onResponse r resp x = (x', Home.Finished) ->
             Home.error x' <> None /\
             Home.purchasedCards x' = Home.purchasedCards x).
  { intros r resp x x' H. unfold Home.onResponse in H.
    split_ifs H; inversion H; subst.
    destruct (finally_block_releases r
                (Home.setError (Some Home.PaymentRejected) x))
      as (_ & _ & _ & He).
    rewrite He, finally_block_keeps. split; [discriminate | reflexivity]. }
  destruct pc as [r q | r q | r fpc | r | r];
    destruct a as [[b|e] | [u|e] | fa | [eb|] | [[d|]|e]];
    simpl in Hres; try discriminate;
    try (split; [intros d' Hd; discriminate Hd | intros _]);
    try (inversion Hres; subst; apply Hthrow).
  - split_ifs Hres; inversion Hres; subst; simpl.
    split; [discriminate | reflexivity].
  - destruct (x402.paymentFetch_resume fpc fa) as [step|]; [|discriminate].
    inversion Hres as [H'].
    destruct step as [resp | e | [req | | info amt] fpc']; simpl in H';
      try (inversion H'; fail).
    + now apply (Hresp r resp s).
    + inversion H'; subst. apply Hthrow.
  - split.
    + intros d' Hd. inversion Hd; subst d'.
      destruct (Home.cards d) as [[|c cs]|]; inversion Hres; subst;
        rewrite finally_block_keeps;
        match goal with
        | |- Home.error (Home.finally_block ?r ?x) = None /\ _ =>
            destruct (finally_block_releases r x) as (_ & _ & _ & He);
            rewrite He
        end; simpl; split; try reflexivity; exact Herr.
    + intro Hne. exfalso. now apply (Hne d).
  - inversion Hres; subst.
    match goal with
    | |- Home.error (Home.finally_block ?r (Home.catch_block ?e ?x)) <> None /\ _ =>
        destruct (Hthrow r e x) as [A B]
    end.
    split; [exact A | rewrite B; reflexivity].
Qed.

(** X13: a purchase that got past the guards on an idle page and has
    ended shows an error message unless its last answer was the purchase
    data of a successful response. In that one case no error is shown and
    the cards returned are stored when there is at least one; in every
    other case the cards shown are the ones there were before. *)
Theorem X13_purchase_ends_with_error_or_cards
        (r : Home.Render) (w : x402.Window) (q : Z)
        (answers : list Home.Answer) (a : Home.Answer)
        (s0 s2 : Home.State) :
  Home.isPurchasingRef s0 = false ->
  Home.abortTimer s0 = false ->
  Home.purchase r w q (answers ++ [a]) s0 = Some (s2, Home.Finished) ->
  (forall d, a = Home.GotPurchaseData (Resolved (Some d)) ->
     Home.error s2 = None /\
     Home.purchasedCards s2
     = match Home.cards d with
       | Some (c :: cs) => c :: cs
       | _ => Home.purchasedCards s0
       end) /\
  ((forall d, a <> Home.GotPurchaseData (Resolved (Some d))) ->
   Home.error s2 <> None /\ Home.purchasedCards s2 = Home.purchasedCards s0).
Proof.
  intros Href Ht H. unfold Home.purchase in H.
  destruct (Home.handlePurchase r w q s0) as [s1 o1] eqn:Hstart.
  rewrite feed_snoc in H.
  destruct (Home.feed answers s1 o1) as [[sm [|pcm]]|] eqn:Hfeed;
    try discriminate.
  assert (Ho1 : exists pc1, o1 = Home.Suspended pc1).
  { destruct o1 as [|pc1]; [|now exists pc1].
    destruct answers; simpl in Hfeed; inversion Hfeed. }
  destruct Ho1 as [pc1 ->].
  pose proof (attempt_state_start _ _ _ _ _ _ Ht Hstart) as H1.
  pose proof (attempt_state_runs _ _ _ _ (feed_runs _ _ _ _ _ Hfeed) H1) as H2.
  assert (Herr : Home.error sm = None).
  { destruct pcm; simpl in H2; tauto. }
  assert (Hcards : Home.purchasedCards sm = Home.purchasedCards s0).
  { rewrite (feed_keeps_cards _ _ _ _ _ Hfeed).
    unfold Home.handlePurchase in Hstart.
    split_ifs Hstart; inversion Hstart; reflexivity. }
  rewrite <- Hcards. now apply (finishing_step pcm a sm s2).
Qed.

Lemma X13_purchase_ends_with_error_or_cards_witness :
  Home.error
    (Home.mkState false false None None ["c-1"; "c-2"] false false
       [Home.purchaseRequest Sample.ready 5;
        x402.with_payment (Home.purchaseRequest Sample.ready 5) Sample.signed])
  = None /\
  Home.purchasedCards
    (Home.mkState false false None None ["c-1"; "c-2"] false false
       [Home.purchaseRequest Sample.ready 5;
        x402.with_payment (Home.purchaseRequest Sample.ready 5) Sample.signed])
  = ["c-1"; "c-2"].
Proof.
  apply (proj1 (X13_purchase_ends_with_error_or_cards
                  Sample.ready Sample.wallet_with_5_usdc 5
                  (removelast Sample.paid)
                  (Home.GotPurchaseData
                     (Resolved (Some (Home.mkPurchaseData
                                        (Some ["c-1"; "c-2"])))))
                  Home.initialState _ eq_refl eq_refl eq_refl)
           (Home.mkPurchaseData (Some ["c-1"; "c-2"])) eq_refl).
Defined.

(** ** Timeouts and refusals are told apart *)

Lemma categorize_abort_error (e : JsError) :
  err_name e = "AbortError" -> Home.categorize e = Home.TimedOut.
Proof. intro H. unfold Home.categorize. now rewrite H. Qed.

(** X14: when the 30-second timer aborts a pending [fetch], the first or
    the retry, the purchase ends with the timeout message and lets go of
    the ref; a 402 answer to the retry ends it with the payment-rejected
    message instead. An abort that strikes while the body of the 402
    response is being read is not reported as a timeout: the wrapper
    replaces whatever [json()] threw by its own error, and the page shows
    that one. *)
Theorem X14_timeout_is_reported_as_such
        (r : Home.Render) (req : x402.Request) (e : JsError) (s : Home.State) :
  err_name e = "AbortError" ->
  let aborted := Home.FromPaymentFetch (x402.GotResponse (Rejected e)) in
  let timed_out :=
    Home.finally_block r
      (Home.setError (Some Home.TimedOut) (Home.set_abortTimer false s)) in
  Home.resume (Home.InPaymentFetch r (x402.FirstResponse req)) aborted s
  = Some (timed_out, Home.Finished) /\
  Home.resume (Home.InPaymentFetch r x402.SecondResponse) aborted s
  = Some (timed_out, Home.Finished) /\
  Home.error timed_out = Some Home.TimedOut /\
  Home.isPurchasingRef timed_out = false /\
  Home.requests timed_out = Home.requests s /\
  (exists s',
     Home.resume (Home.InPaymentFetch r (x402.PaymentInfoBody req))
       (Home.FromPaymentFetch (x402.GotJson (Rejected e))) s
     = Some (s', Home.Finished) /\
     Home.error s'
     = Some (Home.OtherError
               "No se pudo leer la información de pago del servidor")).
Proof.
  intros He aborted timed_out.
  destruct (finally_block_releases r
              (Home.setError (Some Home.TimedOut) (Home.set_abortTimer false s)))
    as (H1 & _ & _ & H4).
  split; [|split; [|split; [|split; [|split]]]].
  - simpl. unfold Home.catch_block. now rewrite (categorize_abort_error e He).
  - simpl. unfold Home.catch_block. now rewrite (categorize_abort_error e He).
  - unfold timed_out. now rewrite H4.
  - exact H1.
  - unfold timed_out. now rewrite requests_finally_block.
  - eexists. split; [reflexivity|].
    match goal with
    | |- Home.error (Home.finally_block ?r ?x) = _ =>
        destruct (finally_block_releases r x) as (_ & _ & _ & H); rewrite H
    end.
    reflexivity.
Qed.

Lemma X14_timeout_is_reported_as_such_witness :
  Home.error
    (Home.finally_block Sample.ready
       (Home.setError (Some Home.TimedOut)
          (Home.set_abortTimer false Home.initialState)))
  = Some Home.TimedOut.
Proof.
  apply (proj1 (proj2 (proj2
           (X14_timeout_is_reported_as_such Sample.ready
              (Home.purchaseRequest Sample.ready 5)
              (mkJsError "AbortError" "The operation was aborted.")
              Home.initialState eq_refl)))).
Defined.

(** ** The payment header *)






(** ** The selected network *)






(** X17: every network button of the home page names a supported chain,
    so after [handleNetworkChange] the network written into the purchase
    body and the network the payment service signs for are the same. *)
Theorem X17_network_buttons_agree_with_service
        (network : string) (selectedNet : string) (w : x402.Window)
        (r : Home.Render) (q : Z) :
  In network HomeView.NETWORK_INFO ->
  let '(net, w') := HomeView.handleNetworkChange network selectedNet w in
  net = network /\ x402.selectedNetwork w' = network /\
  x402.lookup network x402.SUPPORTED_CHAINS
  = Some (x402.getChain (x402.selectedNetwork w')) /\
  (Home.selectedNet r = net ->
   x402.body_network (x402.req_body (Home.purchaseRequest r q))
   = x402.selectedNetwork w').
Proof.
  intro Hin. simpl.
  assert (Hsup : exists c, x402.lookup network x402.SUPPORTED_CHAINS = Some c).
  { unfold HomeView.NETWORK_INFO in Hin. simpl in Hin.
    repeat (destruct Hin as [Hin | Hin];
            [subst network; eexists; reflexivity|]).
    contradiction. }
  destruct Hsup as [c Hc].
  unfold x402.setSelectedNetwork. rewrite Hc.
  split; [reflexivity|]. split; [reflexivity|]. split.
  - unfold x402.getChain. now rewrite Hc.
  - intro H. exact H.
Qed.

Lemma X17_network_buttons_agree_with_service_witness :
  x402.selectedNetwork
    (snd (HomeView.handleNetworkChange "monad" "avalanche"
            Sample.wallet_with_5_usdc))
  = "monad".
Proof.
  pose proof (X17_network_buttons_agree_with_service "monad" "avalanche"
                Sample.wallet_with_5_usdc Sample.ready 5) as H.
  simpl in H. apply H.
  unfold HomeView.NETWORK_INFO. simpl. tauto.
Defined.

(** ** The wallet state *)

(** X18: [getWalletState] never rejects. It reports a connected wallet
    exactly when there is a provider, [eth_accounts] answers with at least
    one account and [eth_chainId] answers; the address is then the first
    account and the chain id the parsed answer. Whenever it reports a
    disconnected wallet the address and chain id are [null], the home page
    does not consider the wallet ready, and the balance pre-check of the
    same wallet is skipped. *)
Theorem X18_getWalletState_total (w : x402.Window) :
  exists st,
    Wallet.getWalletState w = Resolved st /\
    (Wallet.isConnected st = true <->
     exists eth a rest c,
       x402.ethereum w = Some eth /\
       x402.eth_accounts eth = Resolved (Some (a :: rest)) /\
       x402.eth_chainId eth = Resolved c /\
       Wallet.address st = Some a /\
       Wallet.chainId st = Some (JsString.parseInt16 c)) /\
    (Wallet.isConnected st = false ->
     st = Wallet.disconnected /\ Wallet.checkWallet w = false /\
     x402.getUSDCBalance w = Resolved x402.skippedBalance) /\
    Wallet.checkWallet w = Wallet.isConnected st.
Proof.
  unfold Wallet.checkWallet, Wallet.getWalletState, x402.getUSDCBalance,
    x402.hasWalletProvider, x402.queryBalance.
  destruct (x402.ethereum w) as [eth|] eqn:Heth; simpl.
  - destruct (x402.eth_accounts eth) as [[[|a rest]|]|e] eqn:Ha; simpl.
    + exists Wallet.disconnected. repeat split; try discriminate.
      intros (e' & a' & r' & c' & H1 & H2 & _). inversion H1; subst.
      rewrite Ha in H2. discriminate.
    + destruct (x402.eth_chainId eth) as [c|e] eqn:Hc; simpl.
      * eexists. split; [reflexivity|]. simpl. repeat split; try discriminate.
        exists eth, a, rest, c. repeat split; assumption.
      * exists Wallet.disconnected. repeat split; try discriminate.
        intros (e' & a' & r' & c' & H1 & _ & H3 & _). inversion H1; subst.
        rewrite Hc in H3. discriminate.
    + exists Wallet.disconnected. repeat split; try discriminate.
      intros (e' & a' & r' & c' & H1 & H2 & _). inversion H1; subst.
      rewrite Ha in H2. discriminate.
    + exists Wallet.disconnected. repeat split; try discriminate.
      intros (e' & a' & r' & c' & H1 & H2 & _). inversion H1; subst.
      rewrite Ha in H2. discriminate.
  - exists Wallet.disconnected. repeat split; try discriminate.
    intros (e' & a' & r' & c' & H1 & _). discriminate.
Qed.

Lemma X18_getWalletState_total_witness :
  exists st,
    Wallet.getWalletState Sample.wallet_on_mainnet = Resolved st /\
    Wallet.isConnected st = true /\
    Wallet.chainId st = Some (Some 1).
Proof.
  destruct (X18_getWalletState_total Sample.wallet_on_mainnet)
    as (st & Hst & Hconn & _).
  exists st. split; [exact Hst|].
  assert (H : Wallet.isConnected st = true).
  { apply Hconn. inversion Hst. repeat eexists. }
  split; [exact H|].
  apply Hconn in H. destruct H as (eth & a & rest & c & He & _ & Hc & _ & Hid).
  inversion He; subst eth. inversion Hc; subst c. exact Hid.
Defined.


(* ===================================================================== *)
(** * Properties of the wallet operations *)
(* ===================================================================== *)

(** ** Connecting *)

(** X19: [connectWallet] fails without a request when there is no
    provider. Otherwise its outcome does not depend on how the wallet
    answers the permission request, which is made first and only when
    [forceNewConnection] is set. It succeeds exactly when the wallet
    returns at least one account and then its chain id; the result names
    the first account, and the wallet client is replaced as soon as the
    accounts are known, also when the chain id request then fails. *)
Theorem X19_connectWallet_outcome
        (replies : WalletOps.ConnectReplies) (force : bool) (selected : string)
        (wc : option WalletOps.WalletClient) :
  WalletOps.connectWallet None force selected wc
  = (WalletOps.Failed
       (WalletOps.Thrown (Error "No se encontró una wallet. Instala MetaMask.")),
     wc, []) /\
  (forall p,
     WalletOps.connectWallet
       (Some (WalletOps.mkConnectReplies p
                (WalletOps.requestAccounts_reply replies)
                (WalletOps.connect_chainId_reply replies)))
       force selected wc
     = WalletOps.connectWallet (Some replies) force selected wc) /\
  (forall st,
     fst (fst (WalletOps.connectWallet (Some replies) force selected wc))
     = WalletOps.Done st <->
     exists a rest c,
       WalletOps.requestAccounts_reply replies = WalletOps.Ok (Some (a :: rest)) /\
       WalletOps.connect_chainId_reply replies = WalletOps.Ok c /\
       st = Wallet.mkWalletState true (Some a) (Some (JsString.parseInt16 c))) /\
  (forall a rest,
     WalletOps.requestAccounts_reply replies = WalletOps.Ok (Some (a :: rest)) ->
     snd (fst (WalletOps.connectWallet (Some replies) force selected wc))
     = Some (WalletOps.mkWalletClient a (x402.getChain selected))) /\
  (hd_error (snd (WalletOps.connectWallet (Some replies) force selected wc))
   = Some (if force then WalletOps.wallet_requestPermissions
           else WalletOps.eth_requestAccounts)).
Proof.
  split; [reflexivity|]. split; [reflexivity|].
  unfold WalletOps.connectWallet.
  destruct (WalletOps.requestAccounts_reply replies) as [[[|a rest]|]|e] eqn:Ha;
    simpl.
  - repeat split; try discriminate; try (now destruct force).
    intros (a' & r' & c' & H & _). discriminate.
  - destruct (WalletOps.connect_chainId_reply replies) as [c|e] eqn:Hc; simpl.
    + repeat split; try (now destruct force).
      * intro H. inversion H. now exists a, rest, c.
      * intros (a' & r' & c' & H1 & H2 & ->). inversion H1. inversion H2.
        reflexivity.
      * intros a' r' H. now inversion H.
    + repeat split; try discriminate; try (now destruct force).
      * intros (a' & r' & c' & _ & H & _). discriminate.
      * intros a' r' H. now inversion H.
  - repeat split; try discriminate; try (now destruct force).
    intros (a' & r' & c' & H & _). discriminate.
  - repeat split; try discriminate; try (now destruct force).
    intros (a' & r' & c' & H & _). discriminate.
Qed.

Lemma X19_connectWallet_outcome_witness :
  snd (fst (WalletOps.connectWallet
              (Some (WalletOps.mkConnectReplies
                       (WalletOps.Fail
                          (WalletOps.mkRpcError (Some 4001)
                             (Error "User rejected the request.")))
                       (WalletOps.Ok (Some ["0x1111"]))
                       (WalletOps.Ok "0xa86a")))
              true "base" None))
  = Some (WalletOps.mkWalletClient "0x1111" (x402.getChain "base")).
Proof.
  apply (proj1 (proj2 (proj2 (proj2
           (X19_connectWallet_outcome
              (WalletOps.mkConnectReplies
                 (WalletOps.Fail
                    (WalletOps.mkRpcError (Some 4001)
                       (Error "User rejected the request.")))
                 (WalletOps.Ok (Some ["0x1111"]))
                 (WalletOps.Ok "0xa86a"))
              true "base" None)))) "0x1111" []).
  reflexivity.
Defined.

(** ** Switching network *)







(** ** Preparing the payment *)

(** X21: [createPaymentFetch] resolves exactly when the provider is there
    and [eth_accounts] returns at least one account; [handlePurchase] then
    sends the purchase request. With a provider but no connected account
    it rejects with "Wallet not connected", and the purchase ends with the
    wallet-not-connected message and the ref released before anything is
    sent. *)
Theorem X21_payment_needs_connected_account
        (w : x402.Window) (r : Home.Render) (q : Z) (s : Home.State) :
  (WalletOps.createPaymentFetch w = Resolved tt <->
   exists eth a rest,
     x402.ethereum w = Some eth /\
     x402.eth_accounts eth = Resolved (Some (a :: rest))) /\
  (WalletOps.createPaymentFetch w = Resolved tt ->
   Home.resume (Home.AwaitPaymentFetch r q)
     (Home.GotPaymentFetch (WalletOps.createPaymentFetch w)) s
   = Some (Home.send (Home.purchaseRequest r q)
             (Home.setPaymentStatus (Some "Procesando compra con x402...") s),
           Home.Suspended
             (Home.InPaymentFetch r
                (x402.FirstResponse (Home.purchaseRequest r q))))) /\
  (forall eth,
     x402.ethereum w = Some eth ->
     x402.eth_accounts eth = Resolved None \/
     x402.eth_accounts eth = Resolved (Some []) ->
     WalletOps.createPaymentFetch w = Rejected (Error "Wallet not connected") /\
     exists s',
       Home.resume (Home.AwaitPaymentFetch r q)
         (Home.GotPaymentFetch (WalletOps.createPaymentFetch w)) s
       = Some (s', Home.Finished) /\
       Home.error s' = Some Home.WalletNotConnected /\
       Home.requests s' = Home.requests s /\
       Home.isPurchasingRef s' = false /\ Home.purchasing s' = false).
Proof.
  unfold WalletOps.createPaymentFetch.
  destruct (x402.ethereum w) as [eth|] eqn:Heth; simpl.
  - destruct (x402.eth_accounts eth) as [[[|a rest]|]|e] eqn:Ha; simpl.
    + split; [|split].
      * split; [discriminate|]. intros (e' & a' & r' & H1 & H2).
        inversion H1; subst. rewrite Ha in H2. discriminate.
      * discriminate.
      * intros eth' H _. split; [reflexivity|].
        eexists. split; [reflexivity|].
        match goal with
        | |- Home.error (Home.finally_block ?r ?x) = _ /\ _ =>
            destruct (finally_block_releases r x) as (A & B & _ & D)
        end.
        rewrite D, requests_finally_block. repeat split; assumption.
    + split; [|split].
      * split; [intros _; now exists eth, a, rest | reflexivity].
      * reflexivity.
      * intros eth' H [H' | H']; inversion H; subst; rewrite Ha in H';
          discriminate.
    + split; [|split].
      * split; [discriminate|]. intros (e' & a' & r' & H1 & H2).
        inversion H1; subst. rewrite Ha in H2. discriminate.
      * discriminate.
      * intros eth' H _. split; [reflexivity|].
        eexists. split; [reflexivity|].
        match goal with
        | |- Home.error (Home.finally_block ?r ?x) = _ /\ _ =>
            destruct (finally_block_releases r x) as (A & B & _ & D)
        end.
        rewrite D, requests_finally_block. repeat split; assumption.
    + split; [|split].
      * split; [discriminate|]. intros (e' & a' & r' & H1 & H2).
        inversion H1; subst. rewrite Ha in H2. discriminate.
      * discriminate.
      * intros eth' H [H' | H']; inversion H; subst; rewrite Ha in H';
          discriminate.
  - split; [|split].
    + split; [discriminate|]. intros (e' & a' & r' & H1 & _). discriminate.
    + discriminate.
    + intros eth' H. discriminate.
Qed.

Lemma X21_payment_needs_connected_account_witness :
  WalletOps.createPaymentFetch
    (x402.mkWindow
       (Some (x402.mkEthereum (Resolved (Some [])) (Resolved "0xa86a")
                (fun _ _ => Resolved None)))
       "avalanche")
  = Rejected (Error "Wallet not connected").
Proof.
  apply (proj2 (proj2
           (X21_payment_needs_connected_account
              (x402.mkWindow
                 (Some (x402.mkEthereum (Resolved (Some []))
                          (Resolved "0xa86a") (fun _ _ => Resolved None)))
                 "avalanche")
              Sample.ready 5 Home.initialState))
           (x402.mkEthereum (Resolved (Some [])) (Resolved "0xa86a")
              (fun _ _ => Resolved None)) eq_refl).
  now right.
Defined.

(** ** Signing *)

Lemma sign_on_chain_spec info en ev chain address amount replies asked :
  let data := WalletOps.typedData info en ev chain address amount replies in
  snd (WalletOps.sign_on_chain info en ev chain address amount replies asked)
  = (asked ++ [WalletOps.signTypedData data])%list /\
  (forall p,
     fst (WalletOps.sign_on_chain info en ev chain address amount replies asked)
     = WalletOps.Done p ->
     WalletOps.signature_reply replies data
     = WalletOps.Ok (WalletOps.sp_signature p) /\
     p = WalletOps.mkSignedPayment 1 (x402.scheme info)
           (Js.or_str (x402.network info) "avalanche")
           (WalletOps.sp_signature p) address
           (Js.or_opt_str (x402.receiver info) (x402.payTo info))
           amount 0 (WalletOps.now replies + 300)
           (WalletOps.random_nonce replies)).
Proof.
  intro data. unfold WalletOps.sign_on_chain. fold data.
  destruct (WalletOps.signature_reply replies data) as [sig|e]; simpl.
  - split; [reflexivity|]. intros p H. inversion H. simpl. now split.
  - split; [reflexivity|]. discriminate.
Qed.

Lemma sign_requests_app (xs ys : list WalletOps.Request) :
  sign_requests (xs ++ ys) = (sign_requests xs ++ sign_requests ys)%list.
Proof. apply filter_app. Qed.

Lemma switch_loop_no_sign target replies :
  forall remaining attempt,
    sign_requests (snd (WalletOps.switch_loop target replies attempt remaining))
    = [].
Proof.
  induction remaining as [|rem IH]; intro attempt; simpl; [reflexivity|].
  pose proof (IH (S attempt)) as IH'.
  destruct (WalletOps.switch_reply replies attempt) as [u|e].
  - destruct (WalletOps.chainId_reply replies attempt) as [c|e].
    + destruct (WalletOps.on_chain c target); simpl; [reflexivity | exact IH'].
    + destruct (WalletOps.code e) as [cd|]; [|reflexivity].
      destruct (Z.eqb cd 4902).
      * destruct (WalletOps.add_reply replies attempt); simpl;
          [exact IH' | reflexivity].
      * destruct (Z.eqb cd 4001); reflexivity.
  - destruct (WalletOps.code e) as [cd|]; [|reflexivity].
    destruct (Z.eqb cd 4902).
    + destruct (WalletOps.add_reply replies attempt); simpl;
        [exact IH' | reflexivity].
    + destruct (Z.eqb cd 4001); reflexivity.
Qed.

(** X22: [signPaymentAuthorization] asks the wallet for at most one
    signature, and only after the wallet has reported the chain of the
    selected network, at once or after a successful switch. What is put
    before the user is a transfer of exactly the requested amount from the
    first connected account to [receiver || payTo], valid from time 0
    until 300 seconds after the clock reading, on the USDC contract of the
    selected chain; the payload returned repeats these values with the
    wallet's signature, version 1, the scheme of the payment info and its
    network (['avalanche'] when it names none). *)
Theorem X22_signature_only_on_target_chain
        (selected : string) (info : x402.PaymentInfo)
        (en ev : option string) (amount : Z) (replies : WalletOps.SignReplies) :
  let chain := x402.getChain selected in
  let '(result, asked) :=
    WalletOps.signPaymentAuthorization true selected info en ev amount replies in
  (List.length (sign_requests asked) <= 1)%nat /\
  (forall data, In (WalletOps.signTypedData data) asked ->
     exists a rest,
       WalletOps.accounts_reply replies = WalletOps.Ok (Some (a :: rest)) /\
       data = WalletOps.typedData info en ev chain a amount replies /\
       WalletOps.domain_chainId data = x402.chain_id chain /\
       WalletOps.msg_value data = amount /\
       WalletOps.msg_from data = a /\
       WalletOps.msg_validAfter data = 0 /\
       WalletOps.msg_validBefore data = WalletOps.now replies + 300 /\
       ((exists c, WalletOps.chainId_before replies = WalletOps.Ok c /\
                   WalletOps.on_chain c (x402.chain_id chain) = true) \/
        (exists c, WalletOps.chainId_after replies = WalletOps.Ok c /\
                   WalletOps.on_chain c (x402.chain_id chain) = true))) /\
  (forall p, result = WalletOps.Done p ->
     exists a rest,
       WalletOps.accounts_reply replies = WalletOps.Ok (Some (a :: rest)) /\
       In (WalletOps.signTypedData
             (WalletOps.typedData info en ev chain a amount replies)) asked /\
       WalletOps.signature_reply replies
         (WalletOps.typedData info en ev chain a amount replies)
       = WalletOps.Ok (WalletOps.sp_signature p) /\
       p = WalletOps.mkSignedPayment 1 (x402.scheme info)
             (Js.or_str (x402.network info) "avalanche")
             (WalletOps.sp_signature p) a
             (Js.or_opt_str (x402.receiver info) (x402.payTo info))
             amount 0 (WalletOps.now replies + 300)
             (WalletOps.random_nonce replies)).
Proof.
  intro chain. unfold WalletOps.signPaymentAuthorization. simpl.
  destruct (WalletOps.accounts_reply replies) as [[[|a rest]|]|e] eqn:Ha;
    simpl; try (split; [simpl; lia|]; split;
                [intros data [H | []]; discriminate | discriminate]).
  fold chain.
  destruct (WalletOps.chainId_before replies) as [c1|e] eqn:Hc1.
  2:{ split; [simpl; lia|]. split; [|discriminate].
      intros data [H | [H | []]]; discriminate. }
  destruct (WalletOps.on_chain c1 (x402.chain_id chain)) eqn:Hon1.
  - destruct (WalletOps.sign_on_chain info en ev chain a amount replies
                [WalletOps.eth_accounts; WalletOps.eth_chainId])
      as [result asked] eqn:E.
    pose proof (sign_on_chain_spec info en ev chain a amount replies
                  [WalletOps.eth_accounts; WalletOps.eth_chainId]) as Hs.
    cbv zeta in Hs. rewrite E in Hs. simpl in Hs. destruct Hs as [Hasked Hdone].
    subst asked. split; [simpl; lia|]. split.
    + intros data [H | [H | [H | []]]]; try discriminate.
      inversion H. exists a, rest. repeat split. left. now exists c1.
    + intros p Hp. destruct (Hdone p Hp) as [Hsig Hpay].
      exists a, rest. repeat split; try assumption.
      simpl. tauto.
  - unfold WalletOps.switchToCorrectNetwork. simpl negb. cbv iota.
    fold chain.
    destruct (WalletOps.switch_loop (x402.chain_id chain)
                (WalletOps.switching replies) 1 3) as [switched sw] eqn:Esw.
    pose proof (switch_loop_no_sign (x402.chain_id chain)
                  (WalletOps.switching replies) 3%nat 1%nat) as Hns.
    rewrite Esw in Hns. simpl in Hns.
    assert (Hnot : forall data, ~ In (WalletOps.signTypedData data) sw).
    { intros data Hin.
      assert (In (WalletOps.signTypedData data) (sign_requests sw)).
      { unfold sign_requests. apply filter_In. now split. }
      rewrite Hns in H. contradiction. }
    assert (Hmem : forall data tail,
              In (WalletOps.signTypedData data)
                 (WalletOps.eth_accounts :: WalletOps.eth_chainId
                    :: (sw ++ WalletOps.eth_chainId :: tail))%list ->
              In (WalletOps.signTypedData data) tail).
    { intros data tail [H | [H | H]]; try discriminate.
      apply in_app_or in H. destruct H as [H | [H | H]];
        [now apply Hnot in H | discriminate | exact H]. }
    assert (Hcnt : forall tail,
              sign_requests
                (WalletOps.eth_accounts :: WalletOps.eth_chainId
                   :: (sw ++ WalletOps.eth_chainId :: tail))%list
              = sign_requests tail).
    { intro tail. unfold sign_requests in *. simpl. rewrite filter_app.
      rewrite Hns. reflexivity. }
    destruct switched as [b|f].
    2:{ split; [simpl; rewrite Hns; simpl; lia|]. split; [|discriminate].
        intros data [H | [H | H]]; try discriminate. now apply Hnot in H. }
    destruct (WalletOps.chainId_after replies) as [c2|e] eqn:Hc2.
    2:{ split; [rewrite Hcnt; simpl; lia|]. split; [|discriminate].
        intros data H. apply Hmem in H. contradiction. }
    destruct (WalletOps.on_chain c2 (x402.chain_id chain)) eqn:Hon2.
    2:{ split; [rewrite Hcnt; simpl; lia|]. split; [|discriminate].
        intros data H. apply Hmem in H. contradiction. }
    destruct (WalletOps.sign_on_chain info en ev chain a amount replies
                (WalletOps.eth_accounts :: WalletOps.eth_chainId
                   :: (sw ++ [WalletOps.eth_chainId]))%list)
      as [result asked] eqn:E.
    pose proof (sign_on_chain_spec info en ev chain a amount replies
                  (WalletOps.eth_accounts :: WalletOps.eth_chainId
                     :: (sw ++ [WalletOps.eth_chainId]))%list) as Hs.
    cbv zeta in Hs. rewrite E in Hs. simpl in Hs. destruct Hs as [Hasked Hdone].
    subst asked. rewrite <- app_assoc. cbn [app]. split; [|split].
    + rewrite Hcnt. simpl. lia.
    + intros data H. apply Hmem in H. destruct H as [H | []].
      inversion H. exists a, rest. repeat split. right. now exists c2.
    + intros p Hp. destruct (Hdone p Hp) as [Hsig Hpay].
      exists a, rest. repeat split; try assumption.
      right. right. apply in_or_app. right. right. now left.
Qed.

Example signing_after_a_switch :
  WalletOps.signPaymentAuthorization true "avalanche"
    WalletSample.fifty_thousand None None 50000 WalletSample.obliging
  = (WalletOps.Done
       (WalletOps.mkSignedPayment 1 "exact" "avalanche" "0xsig" "0x1111"
          (Some "0x2222") 50000 0 1700000300 "0xnonce"),
     [WalletOps.eth_accounts; WalletOps.eth_chainId;
      WalletOps.wallet_switchEthereumChain 43114; WalletOps.eth_chainId;
      WalletOps.eth_chainId;
      WalletOps.signTypedData
        (WalletOps.mkTypedData "USD Coin" "2" 43114
           "0xB97EF9Ef8734C71904D8002F8b6Bc66Dd9c48a6E" "0x1111"
           (Some "0x2222") 50000 0 1700000300 "0xnonce")]).
Proof. reflexivity. Qed.

Lemma X22_signature_only_on_target_chain_witness :
  exists a rest,
    WalletOps.accounts_reply WalletSample.obliging
    = WalletOps.Ok (Some (a :: rest)) /\
    WalletOps.mkSignedPayment 1 "exact" "avalanche" "0xsig" "0x1111"
      (Some "0x2222") 50000 0 1700000300 "0xnonce"
    = WalletOps.mkSignedPayment 1 (x402.scheme WalletSample.fifty_thousand)
        (Js.or_str (x402.network WalletSample.fifty_thousand) "avalanche")
        "0xsig" a
        (Js.or_opt_str (x402.receiver WalletSample.fifty_thousand)
           (x402.payTo WalletSample.fifty_thousand))
        50000 0 (WalletOps.now WalletSample.obliging + 300)
        (WalletOps.random_nonce WalletSample.obliging).
Proof.
  pose proof (X22_signature_only_on_target_chain "avalanche"
                WalletSample.fifty_thousand None None 50000
                WalletSample.obliging) as H.
  cbv zeta in H.
  destruct (WalletOps.signPaymentAuthorization true "avalanche"
              WalletSample.fifty_thousand None None 50000
              WalletSample.obliging) as [result asked] eqn:E.
  vm_compute in E. inversion E; subst result asked. clear E.
  destruct H as (_ & _ & H).
  destruct (H _ eq_refl) as (a & rest & Ha & _ & _ & Hp).
  exists a, rest. split; [exact Ha | exact Hp].
Defined.


(* ===================================================================== *)
(** ** The admin panel *)
(* ===================================================================== *)

Lemma uncalled_nil : Admin.uncalled [] = ALL_NUMBERS.
Proof. reflexivity. Qed.

Lemma includes_app_one (called : list Z) (number n : Z) :
  Js.includes (called ++ [number]) n
  = Js.includes called n || Z.eqb n number.
Proof.
  unfold Js.includes. rewrite existsb_app. cbn [existsb].
  rewrite orb_false_r. reflexivity.
Qed.

Lemma uncalled_app (called : list Z) (number : Z) :
  Admin.uncalled (called ++ [number])
  = filter (fun n => negb (Z.eqb n number)) (Admin.uncalled called).
Proof.
  unfold Admin.uncalled. generalize ALL_NUMBERS as l.
  induction l as [|m ms IH]; [reflexivity|].
  cbn [filter]. rewrite includes_app_one.
  destruct (Js.includes called m); cbn [negb orb].
  - exact IH.
  - cbn [filter]. destruct (Z.eqb m number); cbn [negb].
    + exact IH.
    + rewrite IH. reflexivity.
Qed.

Lemma in_uncalled (called : list Z) (n : Z) :
  In n (Admin.uncalled called) <->
  1 <= n <= 75 /\ Js.includes called n = false.
Proof.
  unfold Admin.uncalled. rewrite filter_In, negb_true_iff.
  split; intros [H1 H2]; (split; [|exact H2]).
  - unfold ALL_NUMBERS in H1. apply in_map_iff in H1.
    destruct H1 as (k & <- & Hk). apply in_seq in Hk. lia.
  - apply in_ALL_NUMBERS. exact H1.
Qed.

Lemma admin_advance_fields (d : nat) (s : Admin.Page) :
  Admin.mounted (Admin.advance d s) = Admin.mounted s /\
  Admin.isAuthenticated (Admin.advance d s) = Admin.isAuthenticated s /\
  Admin.socket (Admin.advance d s) = Admin.socket s /\
  Admin.gameState (Admin.advance d s) = Admin.gameState s /\
  Admin.availableNumbers (Admin.advance d s) = Admin.availableNumbers s /\
  Admin.emitted (Admin.advance d s) = Admin.emitted s /\
  Admin.fetched (Admin.advance d s) = Admin.fetched s.
Proof.
  unfold Admin.advance.
  set (s0 := Admin.mkPage _ _ _ _ _ _ _ _ _ _).
  change (Admin.mounted s) with (Admin.mounted s0).
  change (Admin.isAuthenticated s) with (Admin.isAuthenticated s0).
  change (Admin.socket s) with (Admin.socket s0).
  change (Admin.gameState s) with (Admin.gameState s0).
  change (Admin.availableNumbers s) with (Admin.availableNumbers s0).
  change (Admin.emitted s) with (Admin.emitted s0).
  change (Admin.fetched s) with (Admin.fetched s0).
  generalize s0. clear s0.
  induction (filter _ (Admin.timers s)) as [|t ts IH]; intro s0.
  - repeat split.
  - cbn [fold_left]. specialize (IH (Admin.setControlsLoading (Admin.key t) false s0)).
    exact IH.
Qed.

Ltac admin_fields :=
  cbn [Admin.mounted Admin.isAuthenticated Admin.socket Admin.gameState
       Admin.availableNumbers Admin.controlsLoading Admin.timers Admin.clock
       Admin.emitted Admin.fetched Admin.status Admin.calledNumbers
       Admin.currentNumber Admin.unmount Admin.setIsAuthenticated
       Admin.setSocket Admin.setGameState Admin.setAvailableNumbers
       Admin.setControlsLoading Admin.setTimeout Admin.emit Admin.fetch
       Admin.updateAvailableNumbers Admin.setStatus Admin.handleLogout].

Ltac admin_cases :=
  repeat match goal with
  | |- context [if ?b then _ else _] => destruct b eqn:?
  | |- context [match ?x with Some _ => _ | None => _ end] => destruct x eqn:?
  end.

Lemma admin_handle_in_step (e : Admin.Event) (s : Admin.Page) :
  Admin.well_behaved e -> Admin.in_step s -> Admin.in_step (Admin.handle e s).
Proof.
  intros He Hs. unfold Admin.handle.
  destruct (Admin.mounted s) eqn:Hm; [|exact Hs].
  unfold Admin.in_step in Hs. rewrite Hm in Hs.
  destruct (Hs eq_refl) as (called & Hc & Ha). clear Hs.
  destruct e; cbn [Admin.dispatch].
  - intros _. exists called. split; assumption.
  - (* game-state *)
    destruct (Admin.socket s); [|intros _; exists called; split; assumption].
    unfold Admin.on_game_state.
    destruct (Admin.calledNumbers state) as [c|] eqn:Hst.
    + intros _. exists c. split; [exact Hst | reflexivity].
    + unfold Admin.in_step. admin_fields. rewrite Hst. discriminate.
  - (* number-called *)
    destruct (Admin.socket s); [|intros _; exists called; split; assumption].
    unfold Admin.on_number_called. rewrite Hc.
    intros _. exists (called ++ [number])%list. split; [reflexivity|].
    admin_fields. rewrite Ha. symmetry. apply uncalled_app.
  - (* start *)
    unfold Admin.startGame. admin_cases; intros _;
      try (exists called; split; assumption).
    exists []. split; reflexivity.
  - unfold Admin.pauseGame, Admin.setStatus. admin_cases; intros _;
      exists called; split; assumption.
  - unfold Admin.resumeGame, Admin.setStatus. admin_cases; intros _;
      exists called; split; assumption.
  - unfold Admin.endGame, Admin.setStatus. admin_cases; intros _;
      exists called; split; assumption.
  - rewrite Hc. unfold Admin.callNumber. admin_cases; intros _;
      exists called; split; assumption.
  - unfold Admin.callRandomNumber, Admin.callNumber. admin_cases; intros _;
      exists called; split; assumption.
  - unfold Admin.beginReset. admin_cases; intros _;
      exists called; split; assumption.
  - unfold Admin.endReset.
    destruct (Admin.controlsLoading s Admin.resetGame);
      [|intros _; exists called; split; assumption].
    destruct reply as [[g|]|].
    + cbn [Admin.well_behaved Admin.fresh_reply] in He. intros _. exists []. split; [exact He | reflexivity].
    + unfold Admin.in_step. admin_fields. discriminate.
    + intros _. exists called. split; assumption.
  - unfold Admin.beginReset. admin_cases; intros _;
      exists called; split; assumption.
  - unfold Admin.endReset.
    destruct (Admin.controlsLoading s Admin.fullReset);
      [|intros _; exists called; split; assumption].
    destruct reply as [[g|]|].
    + cbn [Admin.well_behaved Admin.fresh_reply] in He. intros _. exists []. split; [exact He | reflexivity].
    + unfold Admin.in_step. admin_fields. discriminate.
    + intros _. exists called. split; assumption.
  - destruct (Admin.isAuthenticated s);
      [unfold Admin.in_step; admin_fields; discriminate | intros _; exists called; split; assumption].
  - destruct (admin_advance_fields d s) as (_ & _ & _ & Hg & Hav & _).
    intros _. exists called. rewrite Hg, Hav. split; assumption.
Qed.

Lemma admin_run_in_step (events : list Admin.Event) (s : Admin.Page) :
  Forall Admin.well_behaved events ->
  Admin.in_step s -> Admin.in_step (Admin.run events s).
Proof.
  intro H. revert s. unfold Admin.run.
  induction H as [|e events He _ IH]; intros s Hs; [exact Hs|].
  cbn [fold_left]. apply IH. apply admin_handle_in_step; assumption.
Qed.

Lemma admin_initial_in_step : Admin.in_step Admin.initialPage.
Proof. intros _. exists []. split; reflexivity. Qed.

Lemma NoDup_ALL_NUMBERS : NoDup ALL_NUMBERS.
Proof.
  unfold ALL_NUMBERS. generalize (seq_NoDup 75 1).
  induction (seq 1 75) as [|k ks IH]; intro H; cbn [map].
  - constructor.
  - inversion H as [|? ? Hk Hks]; subst. constructor.
    + rewrite in_map_iff. intros (j & Hj & Hin).
      apply Nat2Z.inj in Hj. subst j. exact (Hk Hin).
    + exact (IH Hks).
Qed.

Lemma length_uncalled (called : list Z) :
  (List.length (Admin.uncalled called) <= 75)%nat.
Proof.
  unfold Admin.uncalled.
  replace 75%nat with (List.length ALL_NUMBERS)
    by (unfold ALL_NUMBERS; now rewrite length_map, length_seq).
  apply filter_length_le.
Qed.

(** X23: Admin.jsx keeps [availableNumbers] in step with the called
    numbers: as long as the page is on the screen and every reset was
    answered with a game that has no called numbers, after any sequence
    of server events, clicks and timers the available numbers are exactly
    [ALL_NUMBERS.filter(n => !calledNumbers.includes(n))]: each of 1..75
    not yet called, once, and nothing else. *)
Theorem X23_admin_available_are_the_uncalled (events : list Admin.Event) :
  Forall Admin.well_behaved events ->
  Admin.mounted (Admin.run events Admin.initialPage) = true ->
  exists called,
    Admin.calledNumbers (Admin.gameState (Admin.run events Admin.initialPage))
    = Some called /\
    Admin.availableNumbers (Admin.run events Admin.initialPage)
    = Admin.uncalled called /\
    NoDup (Admin.availableNumbers (Admin.run events Admin.initialPage)) /\
    (List.length (Admin.availableNumbers (Admin.run events Admin.initialPage))
     <= 75)%nat /\
    forall n,
      In n (Admin.availableNumbers (Admin.run events Admin.initialPage)) <->
      1 <= n <= 75 /\ Js.includes called n = false.
Proof.
  intros Hev Hm.
  destruct (admin_run_in_step events _ Hev admin_initial_in_step Hm)
    as (called & Hc & Ha).
  exists called. rewrite Ha.
  split; [exact Hc|]. split; [reflexivity|].
  split; [apply NoDup_filter; apply NoDup_ALL_NUMBERS|].
  split; [apply length_uncalled|].
  intro n. exact (in_uncalled called n).
Qed.

Lemma X23_admin_available_are_the_uncalled_witness :
  Forall Admin.well_behaved AdminSample.evening /\
  Admin.mounted (Admin.run AdminSample.evening Admin.initialPage) = true /\
  exists called,
    Admin.calledNumbers
      (Admin.gameState (Admin.run AdminSample.evening Admin.initialPage))
    = Some called /\
    Admin.availableNumbers (Admin.run AdminSample.evening Admin.initialPage)
    = Admin.uncalled called.
Proof.
  assert (H1 : Forall Admin.well_behaved AdminSample.evening).
  { unfold AdminSample.evening.
    repeat constructor; cbn; unfold Admin.in_unit_interval; cbn; lia. }
  assert (H2 : Admin.mounted (Admin.run AdminSample.evening Admin.initialPage)
               = true) by (vm_compute; reflexivity).
  split; [exact H1|]. split; [exact H2|].
  destruct (X23_admin_available_are_the_uncalled AdminSample.evening H1 H2)
    as (called & Hc & Ha & _).
  exists called. split; [exact Hc | exact Ha].
Defined.

Lemma skipn_length_app {A : Type} (l l' : list A) :
  skipn (List.length l) (l ++ l') = l'.
Proof. induction l as [|a l IH]; [reflexivity | exact IH]. Qed.

Lemma skipn_length {A : Type} (l : list A) : skipn (List.length l) l = [].
Proof. induction l as [|a l IH]; [reflexivity | exact IH]. Qed.

Lemma admin_news_inv (e : Admin.Event) (s : Admin.Page) :
  Admin.news e s = [] /\ Admin.emitted (Admin.handle e s) = Admin.emitted s
  \/
  Admin.mounted s = true /\ Admin.isAuthenticated s = true /\
  Admin.socket s = true /\
  ((e = Admin.ClickStart /\
    Admin.news e s = [Admin.admin_start_game] /\
    (Admin.status_is waiting s || Admin.status_is ended s) = true /\
    Admin.controlsLoading s Admin.start = false /\
    Admin.gameState (Admin.handle e s)
    = Admin.mkGame (Some playing) (Some []) None /\
    Admin.availableNumbers (Admin.handle e s) = ALL_NUMBERS)
   \/
   (e = Admin.ClickPause /\
    Admin.news e s = [Admin.admin_pause_game] /\
    Admin.status_is playing s = true /\
    Admin.controlsLoading s Admin.pause = false /\
    Admin.gameState (Admin.handle e s)
    = Admin.mkGame (Some paused) (Admin.calledNumbers (Admin.gameState s))
        (Admin.currentNumber (Admin.gameState s)) /\
    Admin.availableNumbers (Admin.handle e s) = Admin.availableNumbers s)
   \/
   (e = Admin.ClickResume /\
    Admin.news e s = [Admin.admin_resume_game] /\
    Admin.status_is paused s = true /\
    Admin.controlsLoading s Admin.resume = false /\
    Admin.gameState (Admin.handle e s)
    = Admin.mkGame (Some playing) (Admin.calledNumbers (Admin.gameState s))
        (Admin.currentNumber (Admin.gameState s)) /\
    Admin.availableNumbers (Admin.handle e s) = Admin.availableNumbers s)
   \/
   (e = Admin.ClickEnd true /\
    Admin.news e s = [Admin.admin_end_game] /\
    (Admin.status_is playing s || Admin.status_is paused s) = true /\
    Admin.controlsLoading s Admin.end_ = false /\
    Admin.gameState (Admin.handle e s)
    = Admin.mkGame (Some ended) (Admin.calledNumbers (Admin.gameState s))
        (Admin.currentNumber (Admin.gameState s)) /\
    Admin.availableNumbers (Admin.handle e s) = Admin.availableNumbers s)
   \/
   (exists num called,
      e = Admin.ClickNumber num /\
      Admin.news e s = [Admin.admin_call_number (Some num)] /\
      Admin.status_is playing s = true /\
      Admin.controlsLoading s Admin.callNumber_ = false /\
      Admin.calledNumbers (Admin.gameState s) = Some called /\
      Js.includes ALL_NUMBERS num = true /\
      Js.includes called num = false /\
      Admin.gameState (Admin.handle e s) = Admin.gameState s /\
      Admin.availableNumbers (Admin.handle e s) = Admin.availableNumbers s)
   \/
   (exists random,
      e = Admin.ClickRandom random /\
      Admin.news e s
      = [Admin.admin_call_number
           (nth_error (Admin.availableNumbers s)
              (Admin.randomIndex random
                 (List.length (Admin.availableNumbers s))))] /\
      Admin.status_is playing s = true /\
      Admin.controlsLoading s Admin.callNumber_ = false /\
      (0 < List.length (Admin.availableNumbers s))%nat /\
      Admin.gameState (Admin.handle e s) = Admin.gameState s /\
      Admin.availableNumbers (Admin.handle e s) = Admin.availableNumbers s)).
Proof.
  assert (Hquiet : forall s', Admin.emitted s' = Admin.emitted s ->
            skipn (List.length (Admin.emitted s)) (Admin.emitted s') = [] /\
            Admin.emitted s' = Admin.emitted s).
  { intros s' ->. split; [apply skipn_length | reflexivity]. }
  unfold Admin.news, Admin.handle.
  destruct (Admin.mounted s) eqn:Hm; [|left; apply Hquiet; reflexivity].
  destruct e; cbn [Admin.dispatch];
    try (left; apply Hquiet; reflexivity).
  - (* game-state *)
    left. apply Hquiet. unfold Admin.on_game_state.
    admin_cases; reflexivity.
  - left. apply Hquiet. unfold Admin.on_number_called.
    admin_cases; reflexivity.
  - (* start *)
    destruct (Admin.isAuthenticated s) eqn:Ha; cbn [andb];
      [|left; apply Hquiet; reflexivity].
    destruct (Admin.status_is waiting s || Admin.status_is ended s) eqn:Hst;
      cbn [andb]; [|left; apply Hquiet; reflexivity].
    destruct (Admin.controlsLoading s Admin.start) eqn:Hl; cbn [negb];
      [left; apply Hquiet; reflexivity|].
    unfold Admin.startGame. rewrite Hl.
    destruct (Admin.socket s) eqn:Hs; cbn [andb negb];
      [|left; apply Hquiet; reflexivity].
    right. repeat split. left. admin_fields.
    rewrite skipn_length_app. repeat split.
  - (* pause *)
    destruct (Admin.isAuthenticated s) eqn:Ha; cbn [andb];
      [|left; apply Hquiet; reflexivity].
    destruct (Admin.status_is playing s) eqn:Hst;
      cbn [andb]; [|left; apply Hquiet; reflexivity].
    destruct (Admin.controlsLoading s Admin.pause) eqn:Hl; cbn [negb];
      [left; apply Hquiet; reflexivity|].
    unfold Admin.pauseGame. rewrite Hl.
    destruct (Admin.socket s) eqn:Hs; cbn [andb negb];
      [|left; apply Hquiet; reflexivity].
    right. repeat split. right. left. admin_fields.
    rewrite skipn_length_app. repeat split.
  - (* resume *)
    destruct (Admin.isAuthenticated s) eqn:Ha; cbn [andb];
      [|left; apply Hquiet; reflexivity].
    destruct (Admin.status_is paused s) eqn:Hst;
      cbn [andb]; [|left; apply Hquiet; reflexivity].
    destruct (Admin.controlsLoading s Admin.resume) eqn:Hl; cbn [negb];
      [left; apply Hquiet; reflexivity|].
    unfold Admin.resumeGame. rewrite Hl.
    destruct (Admin.socket s) eqn:Hs; cbn [andb negb];
      [|left; apply Hquiet; reflexivity].
    right. repeat split. right. right. left. admin_fields.
    rewrite skipn_length_app. repeat split.
  - (* end *)
    destruct (Admin.isAuthenticated s) eqn:Ha; cbn [andb];
      [|left; apply Hquiet; reflexivity].
    destruct (Admin.status_is playing s || Admin.status_is paused s) eqn:Hst;
      cbn [andb]; [|left; apply Hquiet; reflexivity].
    destruct (Admin.controlsLoading s Admin.end_) eqn:Hl; cbn [negb];
      [left; apply Hquiet; reflexivity|].
    unfold Admin.endGame. rewrite Hl.
    destruct (Admin.socket s) eqn:Hs; cbn [andb negb];
      [|left; apply Hquiet; reflexivity].
    destruct confirm; [|left; apply Hquiet; reflexivity].
    right. repeat split. do 3 right. left. admin_fields.
    rewrite skipn_length_app. repeat split.
  - (* a number of the grid *)
    destruct (Admin.calledNumbers (Admin.gameState s)) as [called|] eqn:Hc;
      [|left; apply Hquiet; reflexivity].
    cbv zeta.
    destruct (Admin.isAuthenticated s) eqn:Ha; cbn [andb];
      [|left; apply Hquiet; reflexivity].
    destruct (Js.includes ALL_NUMBERS num) eqn:Hall; cbn [andb];
      [|left; apply Hquiet; reflexivity].
    destruct (Js.includes called num) eqn:Hin; cbn [orb negb];
      [left; apply Hquiet; reflexivity|].
    destruct (Admin.status_is playing s) eqn:Hst; cbn [negb];
      [|left; apply Hquiet; reflexivity].
    unfold Admin.callNumber. rewrite Hst.
    destruct (Admin.socket s) eqn:Hs; cbn [andb];
      [|left; apply Hquiet; reflexivity].
    destruct (Admin.controlsLoading s Admin.callNumber_) eqn:Hl; cbn [negb];
      [left; apply Hquiet; reflexivity|].
    right. repeat split. do 4 right. left. exists num, called. admin_fields.
    rewrite skipn_length_app. repeat split; assumption.
  - (* the random button *)
    destruct (Admin.isAuthenticated s) eqn:Ha; cbn [andb];
      [|left; apply Hquiet; reflexivity].
    destruct (Admin.status_is playing s) eqn:Hst; cbn [andb];
      [|left; apply Hquiet; reflexivity].
    destruct (Nat.eqb (List.length (Admin.availableNumbers s)) 0) eqn:Hlen;
      cbn [orb negb]; [left; apply Hquiet; reflexivity|].
    destruct (Admin.controlsLoading s Admin.callNumber_) eqn:Hl; cbn [negb];
      [left; apply Hquiet; reflexivity|].
    unfold Admin.callRandomNumber, Admin.callNumber. rewrite Hst, Hl.
    apply Nat.eqb_neq in Hlen.
    destruct (Nat.ltb 0 (List.length (Admin.availableNumbers s))) eqn:Hlt;
      [|apply Nat.ltb_ge in Hlt; lia].
    apply Nat.ltb_lt in Hlt. cbn [andb negb].
    destruct (Admin.socket s) eqn:Hs; cbn [andb];
      [|left; apply Hquiet; reflexivity].
    right. repeat split. do 5 right. exists random. admin_fields.
    rewrite skipn_length_app. repeat split. exact Hlt.
  - left. apply Hquiet. unfold Admin.beginReset. admin_cases; reflexivity.
  - left. apply Hquiet. unfold Admin.endReset. admin_cases; reflexivity.
  - left. apply Hquiet. unfold Admin.beginReset. admin_cases; reflexivity.
  - left. apply Hquiet. unfold Admin.endReset. admin_cases; reflexivity.
  - left. apply Hquiet. admin_cases; reflexivity.
  - left. apply Hquiet. apply admin_advance_fields.
Qed.

Lemma admin_emitted_grows (e : Admin.Event) (s : Admin.Page) :
  Admin.emitted (Admin.handle e s)
  = (Admin.emitted s ++ Admin.news e s)%list.
Proof.
  assert (H : exists l, Admin.emitted (Admin.handle e s)
                        = (Admin.emitted s ++ l)%list).
  { unfold Admin.handle.
    destruct (Admin.mounted s);
      [|exists []; rewrite app_nil_r; reflexivity].
    destruct e; cbn [Admin.dispatch];
      unfold Admin.on_game_state, Admin.on_number_called, Admin.startGame,
        Admin.pauseGame, Admin.resumeGame, Admin.endGame,
        Admin.callRandomNumber, Admin.callNumber, Admin.beginReset,
        Admin.endReset;
      try (destruct (admin_advance_fields d s) as (_ & _ & _ & _ & _ & -> & _));
      admin_cases; admin_fields;
      solve [ exists []; rewrite app_nil_r; reflexivity
            | eexists; reflexivity ]. }
  destruct H as (l & Hl). unfold Admin.news. rewrite Hl.
  rewrite skipn_length_app. reflexivity.
Qed.

Lemma randomIndex_in_range (random : Admin.Random) (len : nat) :
  Admin.in_unit_interval random -> (0 < len)%nat ->
  (Admin.randomIndex random len < len)%nat.
Proof.
  unfold Admin.in_unit_interval, Admin.randomIndex. intros [H0 H1] Hlen.
  assert (Hq : Admin.numerator random * Z.of_nat len
               / Admin.denominator random < Z.of_nat len).
  { apply Z.div_lt_upper_bound; [lia|]. nia. }
  assert (Hp : 0 <= Admin.numerator random * Z.of_nat len
                    / Admin.denominator random).
  { apply Z.div_pos; [nia | lia]. }
  lia.
Qed.

Lemma includes_ALL_NUMBERS (n : Z) :
  Js.includes ALL_NUMBERS n = true -> 1 <= n <= 75.
Proof.
  unfold Js.includes. rewrite existsb_exists. intros (m & Hin & Heq).
  apply Z.eqb_eq in Heq. subst m. unfold ALL_NUMBERS in Hin.
  apply in_map_iff in Hin. destruct Hin as (k & <- & Hk).
  apply in_seq in Hk. lia.
Qed.

(** X24: Whatever happened before, an ['admin:call-number'] that
    Admin.jsx emits, from the grid or from the random button, carries a
    number between 1 and 75 that is not among the called numbers the page
    knows, and it is emitted only while the page shows a game in play.
    The random button never reads past the end of [availableNumbers]:
    the number is never [undefined]. *)
Theorem X24_admin_calls_only_uncalled_numbers
    (events : list Admin.Event) (e : Admin.Event) (number : option Z) :
  Forall Admin.well_behaved events ->
  Admin.well_behaved e ->
  In (Admin.admin_call_number number)
     (Admin.news e (Admin.run events Admin.initialPage)) ->
  exists n called,
    number = Some n /\
    Admin.calledNumbers (Admin.gameState (Admin.run events Admin.initialPage))
    = Some called /\
    1 <= n <= 75 /\
    Js.includes called n = false /\
    Admin.status_is playing (Admin.run events Admin.initialPage) = true.
Proof.
  intros Hev He Hin.
  pose proof (admin_run_in_step events _ Hev admin_initial_in_step) as Hstep.
  set (s := Admin.run events Admin.initialPage) in *.
  destruct (admin_news_inv e s) as [[Hnone _] | (Hm & _ & _ & Hcases)].
  { rewrite Hnone in Hin. destruct Hin. }
  destruct (Hstep Hm) as (called & Hc & Hav).
  destruct Hcases as
    [(_ & Hn & _) | [(_ & Hn & _) | [(_ & Hn & _) | [(_ & Hn & _) |
     [(num & called' & _ & Hn & Hst & _ & Hc' & Hall & Hnot & _) |
      (random & -> & Hn & Hst & _ & Hlen & _)]]]]];
    rewrite Hn in Hin; destruct Hin as [Hin | []]; try discriminate.
  - inversion Hin; subst number. exists num, called'.
    split; [reflexivity|]. split; [exact Hc'|].
    split; [apply includes_ALL_NUMBERS; exact Hall|].
    split; assumption.
  - inversion Hin as [Hnth]. clear Hin.
    cbn [Admin.well_behaved] in He.
    pose proof (randomIndex_in_range random _ He Hlen) as Hidx.
    destruct (nth_error (Admin.availableNumbers s)
                (Admin.randomIndex random
                   (List.length (Admin.availableNumbers s))))
      as [n|] eqn:Hnth';
      [|apply nth_error_None in Hnth'; lia].
    apply nth_error_In in Hnth'. rewrite Hav in Hnth'.
    apply in_uncalled in Hnth'. destruct Hnth' as [Hr Hnot].
    exists n, called. repeat split; try assumption; lia.
Qed.

Lemma X24_admin_calls_only_uncalled_numbers_witness :
  exists n called,
    Some 39 = Some n /\
    Admin.calledNumbers
      (Admin.gameState
         (Admin.run (firstn 2 AdminSample.evening) Admin.initialPage))
    = Some called /\
    1 <= n <= 75 /\
    Js.includes called n = false /\
    Admin.status_is playing
      (Admin.run (firstn 2 AdminSample.evening) Admin.initialPage) = true.
Proof.
  apply (X24_admin_calls_only_uncalled_numbers
           (firstn 2 AdminSample.evening)
           (Admin.ClickRandom (Admin.mkRandom 1 2)) (Some 39)).
  - repeat constructor.
  - cbn. unfold Admin.in_unit_interval. cbn. lia.
  - vm_compute. left. reflexivity.
Defined.

(** X25: The controls of Admin.jsx follow the game: handling an event
    only ever appends to what was sent, at most one message; a message
    is sent only by a mounted page with an authenticated admin and a
    socket; ['admin:start-game'] only from a game waiting or ended, and
    the page then shows a game in play with no called number and all 75
    available; ['admin:pause-game'] only from a game in play,
    ['admin:resume-game'] only from a paused one, ['admin:end-game']
    only from a game in play or paused and after the admin confirmed,
    each with the matching optimistic status; ['admin:call-number'] only
    from a game in play, and it changes neither the game state nor the
    available numbers (the page waits for the server's echo). *)
Theorem X25_admin_commands_follow_the_game
    (e : Admin.Event) (s : Admin.Page) :
  Admin.emitted (Admin.handle e s)
  = (Admin.emitted s ++ Admin.news e s)%list /\
  (List.length (Admin.news e s) <= 1)%nat /\
  forall m, In m (Admin.news e s) ->
    Admin.mounted s = true /\ Admin.isAuthenticated s = true /\
    Admin.socket s = true /\
    match m with
    | Admin.admin_start_game =>
        (Admin.status_is waiting s || Admin.status_is ended s) = true /\
        Admin.gameState (Admin.handle e s)
        = Admin.mkGame (Some playing) (Some []) None /\
        Admin.availableNumbers (Admin.handle e s) = ALL_NUMBERS
    | Admin.admin_pause_game =>
        Admin.status_is playing s = true /\
        Admin.status (Admin.gameState (Admin.handle e s)) = Some paused
    | Admin.admin_resume_game =>
        Admin.status_is paused s = true /\
        Admin.status (Admin.gameState (Admin.handle e s)) = Some playing
    | Admin.admin_end_game =>
        e = Admin.ClickEnd true /\
        (Admin.status_is playing s || Admin.status_is paused s) = true /\
        Admin.status (Admin.gameState (Admin.handle e s)) = Some ended
    | Admin.admin_call_number _ =>
        Admin.status_is playing s = true /\
        Admin.gameState (Admin.handle e s) = Admin.gameState s /\
        Admin.availableNumbers (Admin.handle e s) = Admin.availableNumbers s
    end.
Proof.
  split; [apply admin_emitted_grows|].
  destruct (admin_news_inv e s) as [[Hnone _] | (Hm & Ha & Hs & Hcases)].
  { rewrite Hnone. split; [cbn; lia | intros m []]. }
  destruct Hcases as
    [(_ & Hn & Hst & _ & Hg & Hav) |
     [(_ & Hn & Hst & _ & Hg & _) |
      [(_ & Hn & Hst & _ & Hg & _) |
       [(He & Hn & Hst & _ & Hg & _) |
        [(num & called' & _ & Hn & Hst & _ & _ & _ & _ & Hg & Hav) |
         (random & _ & Hn & Hst & _ & _ & Hg & Hav)]]]]];
    rewrite Hn; (split; [cbn; lia|]);
    intros m [<- | []]; (split; [exact Hm|]); (split; [exact Ha|]);
    (split; [exact Hs|]).
  - repeat split; assumption.
  - split; [exact Hst | rewrite Hg; reflexivity].
  - split; [exact Hst | rewrite Hg; reflexivity].
  - split; [exact He|]. split; [exact Hst | rewrite Hg; reflexivity].
  - repeat split; assumption.
  - repeat split; assumption.
Qed.

Lemma X25_admin_commands_follow_the_game_witness :
  Admin.status_is playing
    (Admin.run (firstn 5 AdminSample.evening) Admin.initialPage) = true /\
  Admin.status
    (Admin.gameState
       (Admin.handle Admin.ClickPause
          (Admin.run (firstn 5 AdminSample.evening) Admin.initialPage)))
  = Some paused.
Proof.
  destruct (X25_admin_commands_follow_the_game Admin.ClickPause
              (Admin.run (firstn 5 AdminSample.evening) Admin.initialPage))
    as (_ & _ & H).
  destruct (H Admin.admin_pause_game) as (_ & _ & _ & H1 & H2).
  - vm_compute. left. reflexivity.
  - split; [exact H1 | exact H2].
Defined.

Lemma admin_advance_timers (d : nat) (s : Admin.Page) :
  Admin.timers (Admin.advance d s)
  = filter (fun t => negb (Admin.is_due (Admin.clock s + d) t))
      (Admin.timers s) /\
  Admin.clock (Admin.advance d s) = (Admin.clock s + d)%nat /\
  forall c,
    Admin.controlsLoading (Admin.advance d s) c
    = if existsb (fun t => Admin.Control_eqb (Admin.key t) c)
           (filter (Admin.is_due (Admin.clock s + d)) (Admin.timers s))
      then false else Admin.controlsLoading s c.
Proof.
  unfold Admin.advance. cbv zeta.
  set (s0 := Admin.mkPage _ _ _ _ _ _ _ _ _ _).
  change (filter (fun t => negb (Admin.is_due (Admin.clock s + d) t))
            (Admin.timers s)) with (Admin.timers s0).
  change (Admin.clock s + d)%nat with (Admin.clock s0) at 2.
  assert (Hl : forall c, Admin.controlsLoading s c
                         = Admin.controlsLoading s0 c) by reflexivity.
  assert (H : forall l s1,
    Admin.timers (fold_left
       (fun r t => Admin.setControlsLoading (Admin.key t) false r) l s1)
    = Admin.timers s1 /\
    Admin.clock (fold_left
       (fun r t => Admin.setControlsLoading (Admin.key t) false r) l s1)
    = Admin.clock s1 /\
    forall c,
      Admin.controlsLoading (fold_left
         (fun r t => Admin.setControlsLoading (Admin.key t) false r) l s1) c
      = if existsb (fun t => Admin.Control_eqb (Admin.key t) c) l
        then false else Admin.controlsLoading s1 c).
  { induction l as [|t l IH]; intro s1; cbn [fold_left existsb].
    - repeat split.
    - destruct (IH (Admin.setControlsLoading (Admin.key t) false s1))
        as (Ht & Hc & Hf).
      split; [exact Ht|]. split; [exact Hc|].
      intro c. rewrite Hf. admin_fields.
      destruct (Admin.Control_eqb (Admin.key t) c); cbn [orb].
      + destruct (existsb _ l); reflexivity.
      + reflexivity. }
  destruct (H (filter (Admin.is_due (Admin.clock s + d)) (Admin.timers s)) s0)
    as (Ht & Hc & Hf).
  split; [exact Ht|]. split; [exact Hc|].
  intro c. rewrite Hf, Hl. reflexivity.
Qed.

Lemma Control_eqb_eq (a b : Admin.Control) :
  Admin.Control_eqb a b = true <-> a = b.
Proof. destruct a, b; cbn; split; intro H; congruence. Qed.

Lemma backed_step (s s' : Admin.Page) :
  Admin.clock s' = Admin.clock s ->
  incl (Admin.timers s) (Admin.timers s') ->
  (forall c ms,
     Admin.delay c = Some ms ->
     Admin.controlsLoading s' c = true ->
     Admin.controlsLoading s c = true \/
     In (Admin.mkPending (Admin.clock s + ms) c) (Admin.timers s')) ->
  Admin.backed s -> Admin.backed s'.
Proof.
  intros Hclock Hincl Hflag Hs c ms Hd Hc. rewrite Hclock.
  destruct (Hflag c ms Hd Hc) as [Hold | Hnew].
  - destruct (Hs c ms Hd Hold) as (t & Ht & Hk & Hdue).
    exists t. split; [apply Hincl; exact Ht|]. split; assumption.
  - exists (Admin.mkPending (Admin.clock s + ms) c).
    split; [exact Hnew|]. split; [reflexivity | cbn; lia].
Qed.

Ltac backed_flags :=
  let c := fresh "c" in
  let ms := fresh "ms" in
  let Hd := fresh "Hd" in
  let Hc := fresh "Hc" in
  intros c ms Hd Hc; destruct c; cbn in Hd, Hc; try discriminate;
  first [ left; assumption
        | right; inversion Hd; subst; apply in_or_app; right; left;
          reflexivity ].

Ltac backed_case Hs s :=
  unfold Admin.on_game_state, Admin.on_number_called, Admin.startGame,
    Admin.pauseGame, Admin.resumeGame, Admin.endGame,
    Admin.callRandomNumber, Admin.callNumber, Admin.beginReset,
    Admin.endReset;
  admin_cases;
  first
    [ exact Hs
    | apply (backed_step s);
      [ admin_fields; reflexivity
      | admin_fields; intros t Ht; try (apply in_or_app; left); exact Ht
      | admin_fields; backed_flags
      | exact Hs ] ].

Lemma admin_handle_backed (e : Admin.Event) (s : Admin.Page) :
  Admin.backed s -> Admin.backed (Admin.handle e s).
Proof.
  intro Hs. unfold Admin.handle.
  destruct (Admin.mounted s); [|exact Hs].
  destruct e; cbn [Admin.dispatch].
  - backed_case Hs s.
  - backed_case Hs s.
  - backed_case Hs s.
  - backed_case Hs s.
  - backed_case Hs s.
  - backed_case Hs s.
  - backed_case Hs s.
  - backed_case Hs s.
  - backed_case Hs s.
  - backed_case Hs s.
  - backed_case Hs s.
  - backed_case Hs s.
  - backed_case Hs s.
  - backed_case Hs s.
  - (* time passes *)
    destruct (admin_advance_timers d s) as (Ht & Hc & Hf).
    intros c ms Hd Hflag. rewrite Hf in Hflag.
    destruct (existsb _ _) eqn:Hdue in Hflag; [discriminate|].
    destruct (Hs c ms Hd Hflag) as (t & Hin & Hk & Hle).
    exists t. rewrite Ht, Hc. split; [|split; [exact Hk | lia]].
    apply filter_In. split; [exact Hin|].
    destruct (Admin.is_due (Admin.clock s + d) t) eqn:Ht_due; [|reflexivity].
    exfalso.
    assert (Hex : existsb (fun t0 => Admin.Control_eqb (Admin.key t0) c)
                    (filter (Admin.is_due (Admin.clock s + d))
                       (Admin.timers s))
                  = true).
    { apply existsb_exists. exists t. split.
      - apply filter_In. split; assumption.
      - apply Control_eqb_eq. exact Hk. }
    rewrite Hex in Hdue. discriminate.
Qed.

Lemma admin_run_backed (events : list Admin.Event) (s : Admin.Page) :
  Admin.backed s -> Admin.backed (Admin.run events s).
Proof.
  revert s. unfold Admin.run.
  induction events as [|e events IH]; intros s Hs; [exact Hs|].
  cbn [fold_left]. apply IH. apply admin_handle_backed. exact Hs.
Qed.

(** X26: No control of Admin.jsx stays disabled: the loading flag of
    start, pause, resume, end and call-number is raised only together
    with a timer that takes it down, so however the admin clicked and
    whatever the server sent, once the flag's delay (500 ms; 300 ms for
    call-number) has passed without a click on that control the flag is
    down again. *)
Theorem X26_admin_controls_come_back
    (events : list Admin.Event) (c : Admin.Control) (ms d : nat) :
  Admin.delay c = Some ms ->
  (ms <= d)%nat ->
  Admin.mounted (Admin.run events Admin.initialPage) = true ->
  Admin.controlsLoading
    (Admin.handle (Admin.Wait d) (Admin.run events Admin.initialPage)) c
  = false.
Proof.
  intros Hd Hle Hm.
  assert (Hb : Admin.backed (Admin.run events Admin.initialPage)).
  { apply admin_run_backed. intros c' ms' _ Hc'. discriminate. }
  set (s := Admin.run events Admin.initialPage) in *.
  unfold Admin.handle. rewrite Hm. cbn [Admin.dispatch].
  destruct (admin_advance_timers d s) as (_ & _ & Hf). rewrite Hf.
  destruct (existsb _ _) eqn:Hex; [reflexivity|].
  destruct (Admin.controlsLoading s c) eqn:Hc; [|reflexivity].
  exfalso. destruct (Hb c ms Hd Hc) as (t & Hin & Hk & Hdue).
  assert (Hex' : existsb (fun t0 => Admin.Control_eqb (Admin.key t0) c)
                   (filter (Admin.is_due (Admin.clock s + d)) (Admin.timers s))
                 = true).
  { apply existsb_exists. exists t. split.
    - apply filter_In. split; [exact Hin|].
      unfold Admin.is_due. apply Nat.leb_le. lia.
    - apply Control_eqb_eq. exact Hk. }
  rewrite Hex' in Hex. discriminate.
Qed.

Lemma X26_admin_controls_come_back_witness :
  Admin.controlsLoading
    (Admin.run (firstn 3 AdminSample.evening) Admin.initialPage)
    Admin.callNumber_ = true /\
  Admin.controlsLoading
    (Admin.handle (Admin.Wait 300)
       (Admin.run (firstn 3 AdminSample.evening) Admin.initialPage))
    Admin.callNumber_ = false.
Proof.
  split; [vm_compute; reflexivity|].
  apply (X26_admin_controls_come_back (firstn 3 AdminSample.evening)
           Admin.callNumber_ 300 300).
  - reflexivity.
  - lia.
  - vm_compute. reflexivity.
Defined.

(* ===================================================================== *)
(** ** The connection of the raw-WebSocket provider *)
(* ===================================================================== *)

Example connection_dropped_once :
  Connection.sent (Connection.run ConnectionSample.dropped_once
                     Connection.mounted)
  = [(0%nat, Connection.authenticate "jwt");
     (0%nat, Connection.getGameState);
     (0%nat, Connection.ping);
     (1%nat, Connection.getGameState)] /\
  Connection.sockets (Connection.run ConnectionSample.dropped_once
                        Connection.mounted)
  = [Connection.CLOSED; Connection.OPEN].
Proof. split; reflexivity. Qed.


























